(** * Messaging and presence core of the drs_backend server

    A shallow embedding of the Socket.IO event handlers of [server.js]
    (connection, disconnect, sendMessage, createRoomId), of the chat routes
    of [routes/chat.js] and of the [Message] schema of [models/Message.js],
    followed by the properties of the messaging specification that were
    checked against them.

    Conventions of the embedding:
    - a JavaScript string is a [string]; one [ascii] stands for one code
      unit, so [String.length] is the [.length] of the source and
      [String.compare] is the code-unit order used by [<] and by the
      default [Array.prototype.sort];
    - identities (user ids, socket ids, room ids) are strings, for which
      [.toString()] is the identity; the id of a stored document is the
      string its ObjectId prints as, and a handler that is given the id of
      a user takes it in that spelling; the cast of an id to an ObjectId is
      modelled where a message is looked up by its id ([ObjectId.cast]);
    - instants ([Date] values) are integers, milliseconds since the epoch;
    - a collection is the list of its documents in insertion order;
    - [Map] objects are [gmap]s and [Set] objects of room ids are [gset]s;
      the [Set] whose iteration order is used is a duplicate-free list. *)

From Stdlib Require Import ZArith String Ascii List Sorted Permutation.
From Stdlib Require OrderedTypeEx.
From stdpp Require Import base option gmap strings list fin_maps.
Import ListNotations.

Local Open Scope string_scope.
Local Open Scope Z_scope.
Local Open Scope list_scope.

(* ===================================================================== *)
(** * JavaScript strings and arrays *)
(* ===================================================================== *)

Module JS.

(** [WhiteSpace] and [LineTerminator] code units below 256: TAB, LF, VT,
    FF, CR, SP and NBSP. *)
Definition isWhiteSpace (c : ascii) : bool :=
  let n := N_of_ascii c in
  ((9 <=? n) && (n <=? 13) || (n =? 32) || (n =? 160))%N.

Fixpoint trimStart (s : string) : string :=
  match s with
  | String c s' => if isWhiteSpace c then trimStart s' else s
  | EmptyString => EmptyString
  end.

(** [trimEnd] on the tail first: a white-space unit is dropped exactly
    when everything after it has been dropped. *)
Fixpoint trimEnd (s : string) : string :=
  match s with
  | String c s' =>
      match trimEnd s' with
      | EmptyString => if isWhiteSpace c then EmptyString else String c EmptyString
      | t => String c t
      end
  | EmptyString => EmptyString
  end.

(** [String.prototype.trim]. *)
Definition trim (s : string) : string := trimEnd (trimStart s).

(** [Array.prototype.sort(cmp)]: a stable sort; [cmp a b <= 0] keeps [a]
    before [b]. *)
Section Sort.
Context {A : Type} (cmp : A -> A -> Z).

Fixpoint insert (x : A) (l : list A) : list A :=
  match l with
  | [] => [x]
  | y :: l' => if cmp x y <=? 0 then x :: l else y :: insert x l'
  end.

Fixpoint sort (l : list A) : list A :=
  match l with
  | [] => []
  | x :: l' => insert x (sort l')
  end.
End Sort.

(** The default comparator of [sort()] on an array of strings. *)
Definition defaultCompare (a b : string) : Z :=
  match String.compare a b with Lt => -1 | Eq => 0 | Gt => 1 end.

(** Reading [a[i]] inside a template literal: a hole prints as
    ["undefined"]. *)
Definition at_ (a : list string) (i : nat) : string :=
  nth i a "undefined".

End JS.

(* ===================================================================== *)
(** * Room identifiers ([createRoomId] of server.js) *)
(* ===================================================================== *)

Definition createRoomId (userId1 userId2 : string) : string :=
  let ids := JS.sort JS.defaultCompare [userId1; userId2] in
  "chat_" +:+ JS.at_ ids 0 +:+ "_" +:+ JS.at_ ids 1.

(** The lexicographic order on strings, by code units. *)
Inductive lex_lt : string -> string -> Prop :=
| lex_lt_nil c s : lex_lt EmptyString (String c s)
| lex_lt_head c1 c2 s1 s2 :
    (N_of_ascii c1 < N_of_ascii c2)%N -> lex_lt (String c1 s1) (String c2 s2)
| lex_lt_tail c s1 s2 : lex_lt s1 s2 -> lex_lt (String c s1) (String c s2).

(* ===================================================================== *)
(** * Data model *)
(* ===================================================================== *)

(** A document of the [messages] collection (models/Message.js, with the
    [createdAt] and [updatedAt] fields of [timestamps: true]). *)
Record Message := mkMessage {
  _id : string;
  sender : string;
  recipient : string;
  content : string;
  read : bool;
  readAt : option Z;
  createdAt : Z;
  updatedAt : Z
}.

(** The part of a user document that the chat code reads. *)
Record User := mkUser {
  username : string;
  connections : list string
}.

(** The durable store: the two collections. *)
Record DB := mkDB {
  messages : list Message;
  users : gmap string User
}.

(** What is thrown inside a handler: a validation error of the schema, a
    [TypeError] of the language, an error of the store or its driver, the
    [CastError] of a query whose id is no ObjectId. *)
Inductive exn :=
| ValidationError (path kind : string)
| TypeError (msg : string)
| StoreError (msg : string)
| CastError (path value : string).

(** What a handler takes from its surroundings: the clock ([new Date()]),
    the [_id] generated for a new document, and the answer of the store to
    the insertion of that document ([Some e]: the store rejects the write
    with [e] -- unreachable server, duplicate key, failed cast). *)
Record env := mkEnv {
  now : Z;
  newId : string;
  fault : option exn
}.

(** A string between double quotes. *)
Definition quoted (s : string) : string :=
  String (ascii_of_nat 34) s +:+ String (ascii_of_nat 34) EmptyString.

(** [error.message]. *)
Definition exn_message (e : exn) : string :=
  match e with
  | ValidationError path kind =>
      "Message validation failed: " +:+ path +:+ ": " +:+ kind
  | TypeError msg => msg
  | StoreError msg => msg
  | CastError path value =>
      "Cast to ObjectId failed for value " +:+ quoted value +:+
      " (type string) at path " +:+ quoted path +:+
      " for model " +:+ quoted "Message"
  end.

(** The payloads that go out on the live channel. *)
Record messageData := mkMessageData {
  md_id : string;
  md_sender : string;
  md_recipient : string;
  md_content : string;
  md_createdAt : Z;
  md_read : bool;
  md_updatedAt : Z
}.

Inductive payload :=
| PresenceData (userId : string) (isOnline : bool)
| NewMessageData (d : messageData)
| ErrorData (error message : string).

(** [socket.broadcast.emit], [io.to(room).emit] and [socket.emit]. *)
Inductive emission :=
| BroadcastFrom (socketId : string) (event : string) (p : payload)
| ToRoom (roomId : string) (event : string) (p : payload)
| ToSocket (socketId : string) (event : string) (p : payload).

(** What a handler does to the outside, in the order it does it: a document
    written to the [messages] collection, an event put on the wire. *)
Inductive effect :=
| Stored (m : Message)
| Emitted (e : emission).

(* ===================================================================== *)
(** * Handlers as computations: store, effects and exceptions *)
(* ===================================================================== *)

Record world := mkWorld {
  db : DB;
  trace : list effect
}.

Inductive completion (A : Type) : Type :=
| Normal (a : A)
| Throw (e : exn).
Arguments Normal {A} a.
Arguments Throw {A} e.

Definition M (A : Type) : Type := world -> completion A * world.

Definition ret {A} (a : A) : M A := fun w => (Normal a, w).

Definition throw {A} (e : exn) : M A := fun w => (Throw e, w).

Definition bind {A B} (m : M A) (k : A -> M B) : M B :=
  fun w =>
    match m w with
    | (Normal a, w') => k a w'
    | (Throw e, w') => (Throw e, w')
    end.

(** [try { body } catch (error) { handler }]: what the body did before it
    threw stays done. *)
Definition try_catch {A} (body : M A) (handler : exn -> M A) : M A :=
  fun w =>
    match body w with
    | (Normal a, w') => (Normal a, w')
    | (Throw e, w') => handler e w'
    end.

Definition getDB : M DB := fun w => (Normal (db w), w).

Definition putDB (d : DB) : M unit :=
  fun w => (Normal tt, mkWorld d (trace w)).

Definition log (e : effect) : M unit :=
  fun w => (Normal tt, mkWorld (db w) (trace w ++ [e])).

Definition emit (e : emission) : M unit := log (Emitted e).

Declare Scope js_scope.
Delimit Scope js_scope with js.
Notation "'let*' x ':=' m 'in' k" := (bind m (fun x => k))
  (at level 10, x name, m at level 100, k at level 200) : js_scope.
Local Open Scope js_scope.

(** A handler started on a store, with nothing done yet. *)
Definition run {A} (m : M A) (d : DB) : completion A * world :=
  m (mkWorld d []).

(* ===================================================================== *)
(** * The [Message] and [User] models *)
(* ===================================================================== *)

Module Schema.

(** [content: { type: String, required: true, maxlength: 5000 }]. The
    [required] validator of a string path rejects the empty string, the
    [maxlength] validator a string of more than 5000 units. *)
Definition maxlength : nat := 5000.

Definition validateContent (c : string) : option exn :=
  if Nat.eqb (String.length c) 0 then
    Some (ValidationError "content" "Path `content` is required.")
  else if Nat.ltb maxlength (String.length c) then
    Some (ValidationError "content"
            "Path `content` is longer than the maximum allowed length (5000).")
  else None.

End Schema.

(** The fields a caller passes to [Message.create] or [new Message]; an
    omitted [createdAt] or [read] is [None]. *)
Record MessageInput := mkInput {
  in_sender : string;
  in_recipient : string;
  in_content : string;
  in_createdAt : option Z;
  in_read : option bool
}.

Definition eqs (a b : string) : bool := String.eqb a b.

(** The ids of the store are ObjectIds. A document holds the rendering of
    its id by [toString()]: 24 hexadecimal digits in lower case. A query by
    id casts the string it is given with [new ObjectId(string)]. *)
Module ObjectId.

(** A hexadecimal digit, in lower case. *)
Definition hexDigit (c : ascii) : option ascii :=
  let n := N_of_ascii c in
  if ((48 <=? n) && (n <=? 57))%N then Some c
  else if ((97 <=? n) && (n <=? 102))%N then Some c
  else if ((65 <=? n) && (n <=? 70))%N then Some (ascii_of_N (n + 32))
  else None.

Fixpoint hex (s : string) : option string :=
  match s with
  | EmptyString => Some EmptyString
  | String c s' =>
      match hexDigit c, hex s' with
      | Some c', Some t => Some (String c' t)
      | _, _ => None
      end
  end.

(** [new ObjectId(s).toString()], [None] where the constructor throws: a
    string of 24 hexadecimal digits in either case is accepted and reads
    back in lower case. Every other string is refused, as version 6 of the
    [bson] package does; the versions before it read a string of 12
    characters as 12 bytes, and what is proved of a refused id leaves the
    strings of that length out. *)
Definition cast (s : string) : option string :=
  if Nat.eqb (String.length s) 24 then hex s else None.

End ObjectId.

Module Model.

(** The document built from the input: [read] defaults to [false],
    [readAt] is unset, [createdAt] is the time of the save unless it was
    given, and [updatedAt] of a new document starts as its [createdAt]. *)
Definition build (E : env) (i : MessageInput) : Message :=
  {| _id := newId E;
     sender := in_sender i;
     recipient := in_recipient i;
     content := in_content i;
     read := default false (in_read i);
     readAt := None;
     createdAt := default (now E) (in_createdAt i);
     updatedAt := default (now E) (in_createdAt i) |}.

(** [Message.create(input)], and [new Message(input)] followed by
    [save()]: the schema is validated, then the document is written. *)
Definition create (E : env) (i : MessageInput) : M Message :=
  match Schema.validateContent (in_content i) with
  | Some e => throw e
  | None =>
      match fault E with
      | Some e => throw e
      | None =>
          let message := build E i in
          let* d := getDB in
          let* _ := putDB (mkDB (messages d ++ [message]) (users d)) in
          let* _ := log (Stored message) in
          ret message
      end
  end.

(** [Message.find(q)]. *)
Definition find (q : Message -> bool) (d : DB) : list Message :=
  List.filter q (messages d).

(** [.sort({ createdAt: 1 })] and [.sort({ createdAt: -1 })]. *)
Definition oldestFirst (l : list Message) : list Message :=
  JS.sort (fun a b => createdAt a - createdAt b) l.

Definition newestFirst (l : list Message) : list Message :=
  JS.sort (fun a b => createdAt b - createdAt a) l.

(** [Message.findOne(q).sort({ createdAt: -1 })]. *)
Definition findNewest (q : Message -> bool) (d : DB) : option Message :=
  head (newestFirst (find q d)).

(** [Message.countDocuments(q)]. *)
Definition countDocuments (q : Message -> bool) (d : DB) : nat :=
  length (find q d).

(** The document that [Message.findById(id)] resolves to: the id is cast
    to an ObjectId and the document with that id is looked up; [None] is
    [null]. The query whose cast fails resolves to nothing, it rejects:
    see [awaitFindById]. *)
Definition findById (id : string) (d : DB) : option Message :=
  match ObjectId.cast id with
  | Some oid => List.find (fun m => eqs (_id m) oid) (messages d)
  | None => None
  end.

(** [await Message.findById(id)]: a [CastError] is thrown when the id is
    no ObjectId. *)
Definition awaitFindById (id : string) : M (option Message) :=
  match ObjectId.cast id with
  | Some _ => let* d := getDB in ret (findById id d)
  | None => throw (CastError "_id" id)
  end.

(** [Message.updateMany(q, { read: true, readAt: t })]; the update also
    moves [updatedAt]. *)
Definition markRead (t : Z) (m : Message) : Message :=
  {| _id := _id m; sender := sender m; recipient := recipient m;
     content := content m; read := true; readAt := Some t;
     createdAt := createdAt m; updatedAt := t |}.

Definition updateMany (q : Message -> bool) (t : Z) (d : DB) : DB :=
  mkDB (List.map (fun m => if q m then markRead t m else m) (messages d))
       (users d).

(** [message.save()] on a loaded document: the stored document with that
    [_id] is replaced. *)
Fixpoint replace (m : Message) (l : list Message) : list Message :=
  match l with
  | [] => []
  | x :: l' => if eqs (_id x) (_id m) then m :: l' else x :: replace m l'
  end.

Definition save (m : Message) (d : DB) : DB :=
  mkDB (replace m (messages d)) (users d).

(** [User.findById(id)]: the document or [null]. *)
Definition findUser (id : string) (d : DB) : option User :=
  users d !! id.

End Model.

(* ===================================================================== *)
(** * The live channel (server.js) *)
(* ===================================================================== *)

(** The three process-wide maps: [onlineUsers] (userId -> socketId),
    [userSockets] (socketId -> userId) and [userRooms] (userId -> rooms). *)
Record Presence := mkPresence {
  onlineUsers : gmap string string;
  userSockets : gmap string string;
  userRooms : gmap string (gset string)
}.

Module Live.

Definition empty : Presence := mkPresence ∅ ∅ ∅.

(** [io.on('connection', socket => ...)], up to the registration of the
    event handlers. *)
Definition connection (socketId userId : string) (s : Presence)
  : Presence * list emission :=
  (mkPresence (<[userId := socketId]> (onlineUsers s))
              (<[socketId := userId]> (userSockets s))
              (<[userId := ∅]> (userRooms s)),
   [BroadcastFrom socketId "userOnline" (PresenceData userId true)]).

(** [socket.on('disconnect', ...)]. *)
Definition disconnect (socketId userId : string) (s : Presence)
  : Presence * list emission :=
  (mkPresence (delete userId (onlineUsers s))
              (delete socketId (userSockets s))
              (delete userId (userRooms s)),
   [BroadcastFrom socketId "userOffline" (PresenceData userId false)]).

(** [isUserOnline] and [getSocketId]. *)
Definition isUserOnline (s : Presence) (userId : string) : bool :=
  bool_decide (is_Some (onlineUsers s !! userId)).

Definition getSocketId (s : Presence) (userId : string) : option string :=
  onlineUsers s !! userId.

(** The payload of [sendMessage]; [timestamp] is a number or is absent. *)
Record SendPayload := mkSend {
  p_recipient : string;
  p_content : string;
  p_timestamp : option Z
}.

(** [timestamp || new Date()]: [undefined] and [0] are falsy. *)
Definition truthy (timestamp : option Z) : bool :=
  match timestamp with
  | Some t => negb (t =? 0)
  | None => false
  end.

Definition orNow (timestamp : option Z) (E : env) : Z :=
  match timestamp with
  | Some t => if truthy timestamp then t else now E
  | None => now E
  end.

(** [message.sender._id ? message.sender._id.toString() : userId] after
    [populate]: the path holds the user document, whose [_id] prints as
    the id that was stored, or [null] when there is no such user, and
    reading [_id] of [null] throws. The id is in the spelling of the store
    (see the conventions), under which the user is looked up. *)
Definition nullId : exn :=
  TypeError "Cannot read properties of null (reading '_id')".

Definition populatedId (id : string) : M string :=
  let* d := getDB in
  match Model.findUser id d with
  | Some _ => ret id
  | None => throw nullId
  end.

(** The object handed to [Message.create]. *)
Definition messageInput (E : env) (userId : string) (p : SendPayload)
  : MessageInput :=
  {| in_sender := userId;
     in_recipient := p_recipient p;
     in_content := p_content p;
     in_createdAt := Some (orNow (p_timestamp p) E);
     in_read := Some false |}.

(** [socket.on('sendMessage', async ({ recipient, content, timestamp }) => ...)]
    on the socket [socketId] of the authenticated user [userId]. *)
Definition sendMessage (E : env) (socketId userId : string) (p : SendPayload)
  : M unit :=
  try_catch
    (let* message := Model.create E (messageInput E userId p) in
     let roomId := createRoomId userId (p_recipient p) in
     let* senderId := populatedId (sender message) in
     let* recipientId := populatedId (recipient message) in
     let messageData :=
       {| md_id := _id message;
          md_sender := senderId;
          md_recipient := recipientId;
          md_content := content message;
          md_createdAt := createdAt message;
          md_read := read message;
          md_updatedAt := updatedAt message |} in
     let* _ := emit (ToRoom roomId "newMessage" (NewMessageData messageData)) in
     emit (ToSocket socketId "messageSent" (NewMessageData messageData)))
    (fun error =>
       emit (ToSocket socketId "messageError"
               (ErrorData "Failed to send message" (exn_message error)))).

End Live.

(* ===================================================================== *)
(** * The chat routes (routes/chat.js) *)
(* ===================================================================== *)

Record Conversation := mkConversation {
  partner : option User;
  lastMessage : option Message;
  unreadCount : nat
}.

Inductive body :=
| Failure (message : string)
| ConversationList (conversations : list Conversation)
| MessageList (l : list Message)
| OneMessage (m : Message)
| Count (count : nat).

(** [res.status(n).json(body)]. *)
Record response := mkResponse {
  status : nat;
  json : body
}.

Module Chat.

(** [Set.prototype.add] on a set kept in insertion order. *)
Definition Set_add (x : string) (set : list string) : list string :=
  if existsb (eqs x) set then set else set ++ [x].

Definition between (a b : string) (m : Message) : bool :=
  eqs (sender m) a && eqs (recipient m) b
  || eqs (sender m) b && eqs (recipient m) a.

Definition unreadFrom (from to : string) (m : Message) : bool :=
  eqs (sender m) from && eqs (recipient m) to && negb (read m).

(** The [forEach] that collects the conversation partners. *)
Definition addPartners (me : string) (set : list string) (msg : Message)
  : list string :=
  let set := if negb (eqs (sender msg) me)
             then Set_add (sender msg) set else set in
  if negb (eqs (recipient msg) me)
  then Set_add (recipient msg) set else set.

Definition conversationPartners (me : string) (d : DB) : list string :=
  fold_left (addPartners me)
    (Model.newestFirst
       (Model.find (fun m => eqs (sender m) me || eqs (recipient m) me) d))
    [].

Definition conversationWith (me : string) (d : DB) (partnerId : string)
  : Conversation :=
  {| partner := Model.findUser partnerId d;
     lastMessage := Model.findNewest (between me partnerId) d;
     unreadCount := Model.countDocuments (unreadFrom partnerId me) d |}.

(** [a.lastMessage ? new Date(a.lastMessage.createdAt) : new Date(0)]. *)
Definition time (c : Conversation) : Z :=
  match lastMessage c with
  | Some m => createdAt m
  | None => 0
  end.

(** GET /api/chat/conversations *)
Definition conversations (reqUserId : string) : M response :=
  try_catch
    (let* d := getDB in
     let conversations :=
       List.map (conversationWith reqUserId d)
                (conversationPartners reqUserId d) in
     let sorted := JS.sort (fun a b => time b - time a) conversations in
     ret (mkResponse 200 (ConversationList sorted)))
    (fun _ => ret (mkResponse 500 (Failure "Error fetching conversations"))).

(** [currentUser.connections.some(conn => conn.toString() === userId)];
    [currentUser] is [null] when the user document is gone. *)
Definition isConnected (reqUserId userId : string) : M bool :=
  let* d := getDB in
  match Model.findUser reqUserId d with
  | Some currentUser => ret (existsb (fun conn => eqs conn userId)
                                     (connections currentUser))
  | None => throw (TypeError "Cannot read properties of null (reading 'connections')")
  end.

(** GET /api/chat/messages/:userId *)
Definition getMessages (E : env) (reqUserId userId : string) : M response :=
  try_catch
    (let* connected := isConnected reqUserId userId in
     if negb connected then
       ret (mkResponse 403 (Failure "You can only chat with connected users"))
     else
       let* d := getDB in
       let messages :=
         take 100 (Model.oldestFirst (Model.find (between reqUserId userId) d)) in
       let* _ := putDB (Model.updateMany (unreadFrom userId reqUserId) (now E) d) in
       ret (mkResponse 200 (MessageList messages)))
    (fun _ => ret (mkResponse 500 (Failure "Error fetching messages"))).

(** POST /api/chat/send *)
Definition send (E : env) (reqUserId recipientId content : string)
  : M response :=
  try_catch
    (if eqs content "" || eqs (JS.trim content) "" then
       ret (mkResponse 400 (Failure "Message content is required"))
     else
       let* connected := isConnected reqUserId recipientId in
       if negb connected then
         ret (mkResponse 403
                (Failure "You can only send messages to connected users"))
       else
         let* message :=
           Model.create E
             {| in_sender := reqUserId;
                in_recipient := recipientId;
                in_content := JS.trim content;
                in_createdAt := None;
                in_read := None |} in
         ret (mkResponse 201 (OneMessage message)))
    (fun _ => ret (mkResponse 500 (Failure "Error sending message"))).

(** PUT /api/chat/mark-read/:messageId *)
Definition markRead (E : env) (reqUserId messageId : string) : M response :=
  try_catch
    (let* found := Model.awaitFindById messageId in
     match found with
     | None => ret (mkResponse 404 (Failure "Message not found"))
     | Some message =>
         if negb (eqs (recipient message) reqUserId) then
           ret (mkResponse 403 (Failure "Not authorized"))
         else
           let message := Model.markRead (now E) message in
           let* d := getDB in
           let* _ := putDB (Model.save message d) in
           ret (mkResponse 200 (OneMessage message))
     end)
    (fun _ => ret (mkResponse 500 (Failure "Error marking message as read"))).

(** GET /api/chat/unread-count *)
Definition unreadTotal (reqUserId : string) : M response :=
  try_catch
    (let* d := getDB in
     ret (mkResponse 200
            (Count (Model.countDocuments
                      (fun m => eqs (recipient m) reqUserId && negb (read m)) d))))
    (fun _ => ret (mkResponse 500 (Failure "Error fetching unread count"))).

End Chat.

(* ===================================================================== *)
(** * Statements of the messaging specification *)
(* ===================================================================== *)

(** The call [createRoomId(a, b)] as a completion. The function has no
    [throw]; [toString], [sort] and the template literal do not throw on
    strings. *)
Definition roomId (a b : string) : completion string :=
  Normal (createRoomId a b).

(** "No self-rooms": the computation for the pair (a, a) fails. *)
Definition rejects_self_pair (a : string) : Prop :=
  exists e, roomId a a = Throw e.

(** A presence-offline broadcast for [id]. *)
Definition offline_broadcast (id : string) (e : emission) : bool :=
  match e with
  | BroadcastFrom _ event (PresenceData u false) =>
      eqs event "userOffline" && eqs u id
  | _ => false
  end.

(** "Stale guard": once [h2] has replaced [h1] for [id], the disconnect of
    [h1] leaves [h2] registered and tells nobody that [id] went offline. *)
Definition stale_guard (id h1 h2 : string) (s : Presence) : Prop :=
  let s2 := (Live.connection h2 id (Live.connection h1 id s).1).1 in
  let s3 := (Live.disconnect h1 id s2).1 in
  let out := (Live.disconnect h1 id s2).2 in
  Live.getSocketId s2 id = Some h2 /\
  Live.getSocketId s3 id = Some h2 /\
  Forall (fun e => offline_broadcast id e = false) out.


(** The [messageError] event a failed send answers with, to the sender's
    socket only. *)
Definition messageError (socketId : string) (e : exn) : effect :=
  Emitted (ToSocket socketId "messageError"
             (ErrorData "Failed to send message" (exn_message e))).

(** Sample identities (ObjectId strings), users and surroundings. *)
Definition alice : string := "64b7f0a2c1d2e3f405060701".
Definition bob : string := "64b7f0a2c1d2e3f405060702".
Definition carol : string := "64b7f0a2c1d2e3f405060703".

Definition clock : env :=
  mkEnv 1700000000000 "64c0a1b2c3d4e5f601020304" None.

(** Alice and Bob exist and are not connected to each other. *)
Definition strangers : DB :=
  mkDB [] (<[alice := mkUser "alice" [carol]]>
           (<[bob := mkUser "bob" []]> ∅)).


(** A later moment, for a second document. *)
Definition later : env :=
  mkEnv 1700000060000 "64c0a1b2c3d4e5f601020305" None.

(** Alice and Bob exist and are connected. *)
Definition friends : DB :=
  mkDB [] (<[alice := mkUser "alice" [bob]]>
           (<[bob := mkUser "bob" [alice]]> ∅)).

(** Alice, Bob and Carol exist; Bob is connected to both others. *)
Definition trio : DB :=
  mkDB [] (<[alice := mkUser "alice" [bob]]>
           (<[bob := mkUser "bob" [alice; carol]]>
            (<[carol := mkUser "carol" [bob]]> ∅))).

(** What [Message.create] answers: the rejection, if any. *)
Definition rejection (E : env) (i : MessageInput) : option exn :=
  match Schema.validateContent (in_content i) with
  | Some e => Some e
  | None => fault E
  end.

(** The three ways a [sendMessage] ends. *)
Inductive sendOutcome (E : env) (socketId userId : string)
    (p : Live.SendPayload) (d : DB) : world -> Prop :=
| send_rejected e :
    rejection E (Live.messageInput E userId p) = Some e ->
    sendOutcome E socketId userId p d (mkWorld d [messageError socketId e])
| send_stored_unknown_user m :
    rejection E (Live.messageInput E userId p) = None ->
    m = Model.build E (Live.messageInput E userId p) ->
    users d !! userId = None \/ users d !! Live.p_recipient p = None ->
    sendOutcome E socketId userId p d
      (mkWorld (mkDB (messages d ++ [m]) (users d))
               [Stored m; messageError socketId Live.nullId])
| send_delivered m data :
    rejection E (Live.messageInput E userId p) = None ->
    m = Model.build E (Live.messageInput E userId p) ->
    is_Some (users d !! userId) ->
    is_Some (users d !! Live.p_recipient p) ->
    data = NewMessageData
             (mkMessageData (_id m) userId (Live.p_recipient p) (content m)
                (createdAt m) (read m) (updatedAt m)) ->
    sendOutcome E socketId userId p d
      (mkWorld (mkDB (messages d ++ [m]) (users d))
               [Stored m;
                Emitted (ToRoom (createRoomId userId (Live.p_recipient p))
                           "newMessage" data);
                Emitted (ToSocket socketId "messageSent" data)]).

(** A document after an update, against the document before: identity,
    parties, content and creation time are kept and [read] never goes back
    to [false]. *)
Definition evolves (a b : Message) : Prop :=
  _id a = _id b /\ sender a = sender b /\ recipient a = recipient b /\
  content a = content b /\ createdAt a = createdAt b /\
  (read a = true -> read b = true).

(** The messages exchanged between [a] and [b]. *)
Definition exchanged (a b : string) (m : Message) : Prop :=
  sender m = a /\ recipient m = b \/ sender m = b /\ recipient m = a.

(** "History marks as read": after [getMessages] for ([A], [B]) no message
    from [B] to [A] is unread and the unread total of [A] counts none of
    them. *)
Definition history_marks_read (E : env) (A B : string) (d : DB) : Prop :=
  let d' := db (run (Chat.getMessages E A B) d).2 in
  (forall m, In m (messages d') -> sender m = B -> recipient m = A ->
             read m = true) /\
  (run (Chat.unreadTotal A) d').1 =
    Normal (mkResponse 200
      (Count (length (List.filter
                (fun m => eqs (recipient m) A && negb (read m)
                          && negb (eqs (sender m) B))
                (messages d))))).

(** A store in which Bob has written to Alice, who has not read it and is
    not connected to him. *)
Definition unread_from_stranger : DB :=
  mkDB [mkMessage "64c0a1b2c3d4e5f601020399" bob alice "ping" false None
          1690000000000 1690000000000]
       (users strangers).

(* ===================================================================== *)
(** * Rooms, typing relays and who receives what (server.js) *)
(* ===================================================================== *)

(** The live state of the process: the three maps of server.js and, for
    each connected socket, the rooms it is in ([socket.rooms], kept by
    Socket.IO: a socket starts in the room named by its own id and is taken
    out of every room when it disconnects). *)
Record Hub := mkHub {
  presence : Presence;
  joined : gmap string (gset string)
}.

(** The payload of [userTyping] and [userStoppedTyping]. *)
Record typingData := mkTyping {
  t_userId : string;
  t_roomId : string;
  t_isTyping : bool
}.

(** [socket.to(roomId).emit(event, data)]. *)
Inductive relay :=
| ToOthers (socketId roomId event : string) (data : typingData).

Module Rooms.

Definition start : Hub := mkHub Live.empty ∅.

(** A socket connects: Socket.IO creates it in its own room, then the
    [connection] handler runs. *)
Definition connection (socketId userId : string) (h : Hub)
  : Hub * list emission :=
  (mkHub (Live.connection socketId userId (presence h)).1
         (<[socketId := {[socketId]}]> (joined h)),
   (Live.connection socketId userId (presence h)).2).

(** A socket disconnects: Socket.IO empties its rooms, then the
    [disconnect] handler runs. *)
Definition disconnect (socketId userId : string) (h : Hub)
  : Hub * list emission :=
  (mkHub (Live.disconnect socketId userId (presence h)).1
         (delete socketId (joined h)),
   (Live.disconnect socketId userId (presence h)).2).

(** [socket.on('joinRoom', ({ roomId }) => ...)]: [socket.join(roomId)],
    then [rooms.add(roomId)] on the set found in [userRooms], if any. *)
Definition joinRoom (socketId userId roomId : string) (h : Hub) : Hub :=
  mkHub (mkPresence (onlineUsers (presence h)) (userSockets (presence h))
           (alter (fun rooms => rooms ∪ {[roomId]}) userId
                  (userRooms (presence h))))
        (alter (fun rooms => rooms ∪ {[roomId]}) socketId (joined h)).

(** [socket.on('leaveRoom', ({ roomId }) => ...)]. *)
Definition leaveRoom (socketId userId roomId : string) (h : Hub) : Hub :=
  mkHub (mkPresence (onlineUsers (presence h)) (userSockets (presence h))
           (alter (fun rooms => rooms ∖ {[roomId]}) userId
                  (userRooms (presence h))))
        (alter (fun rooms => rooms ∖ {[roomId]}) socketId (joined h)).

(** [socket.on('typing', ({ roomId, recipientId }) => ...)] and
    [socket.on('stopTyping', ...)]. *)
Definition typing (socketId userId roomId recipientId : string) : list relay :=
  [ToOthers socketId roomId "userTyping" (mkTyping userId roomId true)].

Definition stopTyping (socketId userId roomId recipientId : string)
  : list relay :=
  [ToOthers socketId roomId "userStoppedTyping" (mkTyping userId roomId false)].

(** The sockets in a room. *)
Definition members (h : Hub) (roomId : string) : gset string :=
  dom (filter (fun entry : string * gset string => roomId ∈ entry.2) (joined h)).

(** The sockets an emission reaches: every other socket for a broadcast,
    the sockets in the room for [io.to(room)], the socket itself, if still
    there, for [socket.emit]. *)
Definition receivers (h : Hub) (e : emission) : gset string :=
  match e with
  | BroadcastFrom socketId _ _ => dom (joined h) ∖ {[socketId]}
  | ToRoom roomId _ _ => members h roomId
  | ToSocket socketId _ _ => {[socketId]} ∩ dom (joined h)
  end.

(** The sockets a relay reaches: the room but for the sender. *)
Definition relayReceivers (h : Hub) (r : relay) : gset string :=
  match r with
  | ToOthers socketId roomId _ _ => members h roomId ∖ {[socketId]}
  end.

End Rooms.

(** What the sockets can make of the process: a socket connects under an
    id no socket has, and a connected socket joins, leaves or disconnects;
    its handlers carry the user it was authenticated as. *)
Inductive reachable : Hub -> Prop :=
| reach_start : reachable Rooms.start
| reach_connection h socketId userId :
    reachable h ->
    joined h !! socketId = None ->
    reachable (Rooms.connection socketId userId h).1
| reach_disconnect h socketId userId :
    reachable h ->
    userSockets (presence h) !! socketId = Some userId ->
    reachable (Rooms.disconnect socketId userId h).1
| reach_joinRoom h socketId userId roomId :
    reachable h ->
    userSockets (presence h) !! socketId = Some userId ->
    reachable (Rooms.joinRoom socketId userId roomId h)
| reach_leaveRoom h socketId userId roomId :
    reachable h ->
    userSockets (presence h) !! socketId = Some userId ->
    reachable (Rooms.leaveRoom socketId userId roomId h).

(* ===================================================================== *)
(** * Connection requests (routes/connections.js, models/Connection.js) *)
(* ===================================================================== *)

Inductive Status := pending | accepted | rejected.

(** A document of the [connections] collection. *)
Record Connection := mkConnection {
  conn_id : string;
  conn_requester : string;
  conn_recipient : string;
  conn_status : Status;
  conn_message : option string
}.

(** A user document as these routes see it: what the chat reads of it and
    its [pendingRequests]. *)
Record Account := mkAccount {
  user : User;
  pendingRequests : list string
}.

(** The [users] and [connections] collections. *)
Record Network := mkNetwork {
  accounts : gmap string Account;
  connectionDocs : list Connection
}.

(** [res.status(n).json({ success, message, connection })]. *)
Record reply := mkReply {
  r_status : nat;
  r_message : string;
  r_connection : option Connection
}.

(** The store the chat routes see, given the messages. *)
Definition chatDB (msgs : list Message) (n : Network) : DB :=
  mkDB msgs (user <$> accounts n).

Module Connections.

(** The filter [{ $or: [{ requester: a, recipient: b },
    { requester: b, recipient: a }] }]. *)
Definition links (a b : string) (c : Connection) : bool :=
  eqs (conn_requester c) a && eqs (conn_recipient c) b
  || eqs (conn_requester c) b && eqs (conn_recipient c) a.

Definition status_eqb (s t : Status) : bool :=
  match s, t with
  | pending, pending | accepted, accepted | rejected, rejected => true
  | _, _ => false
  end.

(** [message: { type: String, maxlength: 500 }], an optional path. *)
Definition validMessage (message : option string) : bool :=
  match message with
  | Some s => Nat.leb (String.length s) 500
  | None => true
  end.

Definition withStatus (s : Status) (c : Connection) : Connection :=
  mkConnection (conn_id c) (conn_requester c) (conn_recipient c) s
               (conn_message c).

(** [connection.save()] on a loaded document, and
    [Connection.findOneAndUpdate(filter, { status })]: the first document
    that matches is rewritten. *)
Fixpoint updateFirst (q : Connection -> bool) (f : Connection -> Connection)
    (l : list Connection) : list Connection :=
  match l with
  | [] => []
  | c :: l' => if q c then f c :: l' else c :: updateFirst q f l'
  end.

(** [$pull: { field: x }] and [$push: { field: x }]. *)
Definition pull (x : string) (l : list string) : list string :=
  List.filter (fun y => negb (eqs y x)) l.

Definition push (x : string) (l : list string) : list string := l ++ [x].

(** [User.findByIdAndUpdate(id, update)]: nothing happens when there is no
    such user. *)
Definition findByIdAndUpdate (id : string) (update : Account -> Account)
    (n : Network) : Network :=
  mkNetwork (alter update id (accounts n)) (connectionDocs n).

Definition onConnections (f : list string -> list string) (a : Account)
  : Account :=
  mkAccount (mkUser (username (user a)) (f (connections (user a))))
            (pendingRequests a).

Definition onPending (f : list string -> list string) (a : Account)
  : Account :=
  mkAccount (user a) (f (pendingRequests a)).

(** POST /api/connections/request (the ids in the spelling of the store,
    see the conventions) *)
Definition request (E : env) (reqUserId recipientId : string)
    (message : option string) (n : Network) : Network * reply :=
  if eqs recipientId reqUserId then
    (n, mkReply 400 "Cannot connect with yourself" None)
  else
    match accounts n !! recipientId with
    | None => (n, mkReply 404 "User not found" None)
    | Some recipient =>
        match List.find (links reqUserId recipientId) (connectionDocs n) with
        | Some _ =>
            (n, mkReply 400
                  "Connection request already exists or you are already connected"
                  None)
        | None =>
            if validMessage message && bool_decide (fault E = None) then
              let connection :=
                mkConnection (newId E) reqUserId recipientId pending message in
              (mkNetwork
                 (<[recipientId := onPending (push reqUserId) recipient]>
                    (accounts n))
                 (connectionDocs n ++ [connection]),
               mkReply 201 "Connection request sent successfully"
                       (Some connection))
            else
              (n, mkReply 500 "Error sending connection request" None)
        end
    end.

(** POST /api/connections/accept/:connectionId *)
Definition accept (reqUserId connectionId : string) (n : Network)
  : Network * reply :=
  match List.find (fun c => eqs (conn_id c) connectionId) (connectionDocs n) with
  | None => (n, mkReply 404 "Connection request not found" None)
  | Some connection =>
      if negb (eqs (conn_recipient connection) reqUserId) then
        (n, mkReply 403 "Not authorized" None)
      else if negb (status_eqb (conn_status connection) pending) then
        (n, mkReply 400 "Connection request already processed" None)
      else
        let connection := withStatus accepted connection in
        let n1 := mkNetwork (accounts n)
                    (updateFirst (fun c => eqs (conn_id c) (conn_id connection))
                       (fun _ => connection) (connectionDocs n)) in
        let n2 := findByIdAndUpdate (conn_requester connection)
                    (fun a => onPending (pull (conn_recipient connection))
                                (onConnections (push (conn_recipient connection)) a))
                    n1 in
        let n3 := findByIdAndUpdate (conn_recipient connection)
                    (fun a => onPending (pull (conn_requester connection))
                                (onConnections (push (conn_requester connection)) a))
                    n2 in
        (n3, mkReply 200 "Connection accepted successfully" (Some connection))
  end.

(** POST /api/connections/reject/:connectionId *)
Definition reject (reqUserId connectionId : string) (n : Network)
  : Network * reply :=
  match List.find (fun c => eqs (conn_id c) connectionId) (connectionDocs n) with
  | None => (n, mkReply 404 "Connection request not found" None)
  | Some connection =>
      if negb (eqs (conn_recipient connection) reqUserId) then
        (n, mkReply 403 "Not authorized" None)
      else if negb (status_eqb (conn_status connection) pending) then
        (n, mkReply 400 "Connection request already processed" None)
      else
        let connection := withStatus rejected connection in
        let n1 := mkNetwork (accounts n)
                    (updateFirst (fun c => eqs (conn_id c) (conn_id connection))
                       (fun _ => connection) (connectionDocs n)) in
        let n2 := findByIdAndUpdate (conn_recipient connection)
                    (onPending (pull (conn_requester connection))) n1 in
        (n2, mkReply 200 "Connection rejected" (Some connection))
  end.

(** DELETE /api/connections/:userId *)
Definition remove (reqUserId userId : string) (n : Network)
  : Network * reply :=
  let n1 := findByIdAndUpdate reqUserId (onConnections (pull userId)) n in
  let n2 := findByIdAndUpdate userId (onConnections (pull reqUserId)) n1 in
  let n3 := mkNetwork (accounts n2)
              (updateFirst (links reqUserId userId) (withStatus rejected)
                 (connectionDocs n2)) in
  (n3, mkReply 200 "Connection removed successfully" None).

End Connections.

(** A call of one of the four routes that write. *)
Inductive call :=
| Request (E : env) (reqUserId recipientId : string) (message : option string)
| Accept (reqUserId connectionId : string)
| Reject (reqUserId connectionId : string)
| Remove (reqUserId userId : string).

Definition serve (c : call) (n : Network) : Network * reply :=
  match c with
  | Request E a b message => Connections.request E a b message n
  | Accept a id => Connections.accept a id n
  | Reject a id => Connections.reject a id n
  | Remove a b => Connections.remove a b n
  end.

(** The store after a sequence of calls. *)
Definition serveAll (cs : list call) (n : Network) : Network :=
  fold_left (fun n c => (serve c n).1) cs n.

(** The two users have a connection document, whatever its status. *)
Definition linked (a b : string) (n : Network) : Prop :=
  exists c, In c (connectionDocs n) /\ Connections.links a b c = true.

(** How a status may move: onwards from [pending] to [accepted] to
    [rejected], never back. *)
Definition status_le (s t : Status) : Prop :=
  match s, t with
  | pending, _ | accepted, accepted | accepted, rejected
  | rejected, rejected => True
  | _, _ => False
  end.

(** The connections of the users that exist are mutual. *)
Definition mutual (n : Network) : Prop :=
  forall x y ax ay,
    accounts n !! x = Some ax -> accounts n !! y = Some ay ->
    (In y (connections (user ax)) <-> In x (connections (user ay))).

(** A network of Alice and Bob, no connection between them yet. *)
Definition two_accounts : Network :=
  mkNetwork (<[alice := mkAccount (mkUser "alice" []) []]>
             (<[bob := mkAccount (mkUser "bob" []) []]> ∅))
            [].

(** One connection document across a call: it keeps its identity, its two
    users and its message, and its status only moves onwards. *)
Definition conn_evolves (c c' : Connection) : Prop :=
  conn_id c' = conn_id c /\ conn_requester c' = conn_requester c /\
  conn_recipient c' = conn_recipient c /\ conn_message c' = conn_message c /\
  status_le (conn_status c) (conn_status c').

(** The two users have been turned down or parted: they have a connection
    document, all their documents are [rejected], and neither is in the
    connections of the other. *)
Definition estranged (a b : string) (n : Network) : Prop :=
  linked a b n /\
  (forall c, In c (connectionDocs n) -> Connections.links a b c = true ->
             conn_status c = rejected) /\
  (forall ax, accounts n !! a = Some ax -> ~ In b (connections (user ax))) /\
  (forall bx, accounts n !! b = Some bx -> ~ In a (connections (user bx))).

(** Alice has asked Bob, Bob has accepted. *)
Definition connected_pair : Network :=
  (Connections.accept bob "64c0a1b2c3d4e5f601020304"
     (Connections.request clock alice bob (Some "hi") two_accounts).1).1.

(* ===================================================================== *)
(** * Authentication (middleware/auth.js and [io.use] of server.js) *)
(* ===================================================================== *)

Module Str.

Fixpoint startsWith (pat s : string) : bool :=
  match pat, s with
  | EmptyString, _ => true
  | String p pat', String c s' => Ascii.eqb p c && startsWith pat' s'
  | String _ _, EmptyString => false
  end.

Fixpoint dropN (n : nat) (s : string) : string :=
  match n, s with
  | O, _ => s
  | S n', String _ s' => dropN n' s'
  | S _, EmptyString => EmptyString
  end.

(** [s.replace(pat, rep)] with a string pattern: the first occurrence of
    [pat] is replaced. *)
Fixpoint replace (pat rep s : string) : string :=
  if startsWith pat s then rep +:+ dropN (String.length pat) s
  else match s with
       | EmptyString => EmptyString
       | String c s' => String c (replace pat rep s')
       end.

(** [pat] occurs somewhere in [s]. *)
Fixpoint occurs (pat s : string) : bool :=
  startsWith pat s ||
  match s with
  | EmptyString => false
  | String _ s' => occurs pat s'
  end.

End Str.

(** The payload of a token, as far as it is read. *)
Record Claims := mkClaims {
  claim_userId : option string;
  claim_id : option string;
  claim_type : option string;
  claim_userType : option string
}.

(** What the HTTP middleware does: answer, or go on as the user. *)
Inductive authResult :=
| Denied (status : nat) (message : string)
| Next (userId : string).

(** What the socket middleware does: [next(new Error(...))], or [next()]
    with [socket.userId] and [socket.userType] set. *)
Inductive handshakeResult :=
| Refused (error : string)
| LetIn (userId userType : option string).

Module Auth.

(** [a || b] on values that are strings or [undefined]. *)
Definition orElse (a b : option string) : option string :=
  match a with
  | Some s => if eqs s "" then b else Some s
  | None => b
  end.

Section Middleware.

(** [jwt.verify(token, secret)] for a secret that is there: the decoded
    payload, or [None] when it throws. *)
Variable verify : string -> string -> option Claims.

(** [process.env.JWT_SECRET]. *)
Variable JWT_SECRET : option string.

(** [jwt.verify] refuses to work without a secret. *)
Definition jwtVerify (token : string) (secret : option string)
  : option Claims :=
  match orElse secret None with
  | Some s => verify token s
  | None => None
  end.

(** The [auth] middleware, on the [Authorization] header and the
    [isActive] flags of the users that exist. *)
Definition auth (header : option string) (isActive : gmap string bool)
  : authResult :=
  let token := Str.replace "Bearer " "" <$> header in
  match orElse token None with
  | None => Denied 401 "No authentication token, access denied"
  | Some token =>
      match jwtVerify token (orElse JWT_SECRET (Some "your_secret_key")) with
      | None => Denied 401 "Token is not valid"
      | Some decoded =>
          match claim_userId decoded with
          | None => Denied 401 "User not found"
          | Some userId =>
              match isActive !! userId with
              | None => Denied 401 "User not found"
              | Some false => Denied 401 "Account is deactivated"
              | Some true => Next userId
              end
          end
      end
  end.

(** The [io.use] middleware, on [socket.handshake.auth.token]. *)
Definition handshake (token : option string) : handshakeResult :=
  match orElse token None with
  | None => Refused "Authentication error: No token provided"
  | Some token =>
      match jwtVerify token JWT_SECRET with
      | None => Refused "Authentication error: Invalid token"
      | Some decoded =>
          LetIn (orElse (claim_userId decoded) (claim_id decoded))
                   (orElse (claim_type decoded) (claim_userType decoded))
      end
  end.

End Middleware.

End Auth.

(** A verifier that knows one token, for one secret. *)
Definition one_token (token secret : string) (claims : Claims)
  : string -> string -> option Claims :=
  fun t s => if eqs t token && eqs s secret then Some claims else None.

(* ===================================================================== *)
(** * The public speciality routes (routes/public.js) *)
(* ===================================================================== *)

(** A document of the [specialities] collection, as far as listed. *)
Record Speciality := mkSpeciality {
  sp_name : string;
  sp_description : string;
  sp_isActive : bool
}.

Module Public.

(** [.sort({ name: 1 })]. *)
Definition byName (a b : Speciality) : Z :=
  JS.defaultCompare (sp_name a) (sp_name b).

(** GET /api/public/specialities: [count] and [specialities]. *)
Definition specialities (collection : list Speciality)
  : nat * list Speciality :=
  let specialities := JS.sort byName (List.filter sp_isActive collection) in
  (length specialities, specialities).

(** GET /api/public/specialities/stats: [totalActive]. *)
Definition stats (collection : list Speciality) : nat :=
  length (List.filter sp_isActive collection).

End Public.

(* ===================================================================== *)
(** * Properties *)
(* ===================================================================== *)

Lemma compare_Lt_lex_lt (s1 s2 : string) :
  String.compare s1 s2 = Lt -> lex_lt s1 s2.
Proof.
  revert s2. induction s1 as [|c1 s1 IH]; intros [|c2 s2]; simpl; try discriminate.
  - intros _. constructor.
  - unfold Ascii.compare.
    destruct (N.compare (N_of_ascii c1) (N_of_ascii c2)) eqn:E; try discriminate.
    + apply N.compare_eq in E.
      assert (c1 = c2) as ->.
      { rewrite <- (ascii_N_embedding c1), <- (ascii_N_embedding c2). by rewrite E. }
      intros H. apply lex_lt_tail, IH, H.
    + intros _. apply lex_lt_head. by apply N.compare_lt_iff.
Qed.

Lemma compare_Gt_lex_lt (s1 s2 : string) :
  String.compare s1 s2 = Gt -> lex_lt s2 s1.
Proof.
  intros H. apply compare_Lt_lex_lt.
  rewrite String.compare_antisym, H. reflexivity.
Qed.

Lemma createRoomId_le (a b : string) :
  String.compare a b <> Gt -> createRoomId a b = "chat_" +:+ a +:+ "_" +:+ b.
Proof.
  intros H. unfold createRoomId, JS.defaultCompare. simpl.
  destruct (String.compare a b); try reflexivity. congruence.
Qed.

Lemma createRoomId_gt (a b : string) :
  String.compare a b = Gt -> createRoomId a b = "chat_" +:+ b +:+ "_" +:+ a.
Proof.
  intros H. unfold createRoomId, JS.defaultCompare. simpl. by rewrite H.
Qed.

(** C5. For two different identities the room id does not depend on the
    order of the arguments, and it is [chat_<lo>_<hi>] where [lo] and [hi]
    are the two identities in lexicographic order. *)
Theorem createRoomId_symmetric_sorted (A B : string) :
  A <> B ->
  createRoomId A B = createRoomId B A /\
  exists lo hi,
    lex_lt lo hi /\
    (lo = A /\ hi = B \/ lo = B /\ hi = A) /\
    createRoomId A B = "chat_" +:+ lo +:+ "_" +:+ hi.
Proof.
  intros Hne.
  destruct (String.compare A B) eqn:E.
  - apply String.compare_eq_iff in E. contradiction.
  - assert (String.compare B A = Gt) as E'.
    { rewrite String.compare_antisym, E. reflexivity. }
    rewrite (createRoomId_le A B) by congruence.
    rewrite (createRoomId_gt B A E'). split; [reflexivity|].
    exists A, B. split; [by apply compare_Lt_lex_lt|]. split; [by left|reflexivity].
  - assert (String.compare B A = Lt) as E'.
    { rewrite String.compare_antisym, E. reflexivity. }
    rewrite (createRoomId_gt A B E).
    rewrite (createRoomId_le B A) by congruence. split; [reflexivity|].
    exists B, A. split; [by apply compare_Gt_lex_lt|]. split; [by right|reflexivity].
Qed.

Lemma createRoomId_alice_bob :
  alice <> bob /\
  createRoomId alice bob = createRoomId bob alice /\
  exists lo hi,
    lex_lt lo hi /\
    (lo = alice /\ hi = bob \/ lo = bob /\ hi = alice) /\
    createRoomId alice bob = "chat_" +:+ lo +:+ "_" +:+ hi.
Proof.
  assert (alice <> bob) as Hne by discriminate.
  split; [exact Hne|].
  exact (createRoomId_symmetric_sorted alice bob Hne).
Defined.

(** C6 (as the code has it). For every identity the room id of the pair
    (A, A) is computed without failure and is [chat_A_A]. *)
Theorem createRoomId_self (A : string) :
  roomId A A = Normal ("chat_" +:+ A +:+ "_" +:+ A) /\ ~ rejects_self_pair A.
Proof.
  assert (roomId A A = Normal ("chat_" +:+ A +:+ "_" +:+ A)) as H.
  { unfold roomId. f_equal. apply createRoomId_le.
    intros E. pose proof (String.compare_antisym A A) as Ha.
    rewrite E in Ha. discriminate. }
  split; [exact H|]. intros [e He]. congruence.
Qed.

(** C6 fails as stated: the self pair of Alice has a room id, and a message
    Alice sends to herself on the live channel is fanned out to that room. *)
Lemma self_pair_not_rejected :
  ~ rejects_self_pair alice /\
  roomId alice alice =
    Normal "chat_64b7f0a2c1d2e3f405060701_64b7f0a2c1d2e3f405060701" /\
  trace (run (Live.sendMessage clock "sock1" alice
                (Live.mkSend alice "note to self" None)) friends).2 !! 1%nat =
    Some (Emitted (ToRoom "chat_64b7f0a2c1d2e3f405060701_64b7f0a2c1d2e3f405060701"
                     "newMessage"
                     (NewMessageData
                        (mkMessageData "64c0a1b2c3d4e5f601020304" alice alice
                           "note to self" 1700000000000 false 1700000000000)))).
Proof.
  split; [|split].
  - intros [e He]. discriminate He.
  - vm_compute. reflexivity.
  - vm_compute. reflexivity.
Qed.

(* --------------------------------------------------------------------- *)
(** ** Presence *)
(* --------------------------------------------------------------------- *)

Lemma connection_registers (h id : string) (s : Presence) :
  Live.getSocketId (Live.connection h id s).1 id = Some h.
Proof. unfold Live.getSocketId. simpl. apply lookup_insert_eq. Qed.

Lemma disconnect_unregisters (h id : string) (s : Presence) :
  Live.getSocketId (Live.disconnect h id s).1 id = None.
Proof. unfold Live.getSocketId. simpl. apply lookup_delete_eq. Qed.

(** C2 (as the code has it). After [h1] and then [h2] have connected for
    [id] the registry reports [h2]; the disconnect of [h1] then removes the
    entry of [id] whatever handle it holds, although [h2] is still a known
    socket of [id], and broadcasts [userOffline] for [id]. *)
Theorem last_connection_wins_then_any_disconnect_clears
    (id h1 h2 : string) (s : Presence) :
  h1 <> h2 ->
  let s2 := (Live.connection h2 id (Live.connection h1 id s).1).1 in
  let s3 := (Live.disconnect h1 id s2).1 in
  Live.getSocketId s2 id = Some h2 /\
  Live.getSocketId s3 id = None /\
  Live.isUserOnline s3 id = false /\
  userSockets s3 !! h2 = Some id /\
  (Live.disconnect h1 id s2).2 =
    [BroadcastFrom h1 "userOffline" (PresenceData id false)].
Proof.
  intros Hne s2 s3. repeat split.
  - apply connection_registers.
  - apply disconnect_unregisters.
  - unfold Live.isUserOnline. apply bool_decide_eq_false.
    fold (Live.getSocketId s3 id). subst s3.
    rewrite disconnect_unregisters. by intros [x Hx].
  - subst s3 s2. simpl.
    rewrite lookup_delete_ne by done. apply lookup_insert_eq.
Qed.

Lemma last_connection_wins_example :
  let s2 := (Live.connection "sock2" alice
               (Live.connection "sock1" alice Live.empty).1).1 in
  let s3 := (Live.disconnect "sock1" alice s2).1 in
  Live.getSocketId s2 alice = Some "sock2" /\
  Live.getSocketId s3 alice = None /\
  Live.isUserOnline s3 alice = false /\
  userSockets s3 !! "sock2" = Some alice /\
  (Live.disconnect "sock1" alice s2).2 =
    [BroadcastFrom "sock1" "userOffline" (PresenceData alice false)].
Proof.
  apply (last_connection_wins_then_any_disconnect_clears
           alice "sock1" "sock2" Live.empty).
  discriminate.
Defined.

(** C2 fails as stated: with two sockets of Alice, the disconnect of the
    older one does not leave the newer one registered. *)
Lemma stale_disconnect_clobbers :
  ~ stale_guard alice "sock1" "sock2" Live.empty.
Proof.
  intros (_ & H & _).
  rewrite disconnect_unregisters in H. discriminate H.
Qed.

(* --------------------------------------------------------------------- *)
(** ** The dispatch of a message on the live channel *)
(* --------------------------------------------------------------------- *)

Lemma create_rejected (E : env) (i : MessageInput) (e : exn) (w : world) :
  rejection E i = Some e -> Model.create E i w = (Throw e, w).
Proof.
  unfold rejection, Model.create.
  destruct (Schema.validateContent (in_content i)).
  - intros [= ->]. reflexivity.
  - intros ->. reflexivity.
Qed.

Lemma create_accepted (E : env) (i : MessageInput) (w : world) :
  rejection E i = None ->
  Model.create E i w =
    (Normal (Model.build E i),
     mkWorld (mkDB (messages (db w) ++ [Model.build E i]) (users (db w)))
             (trace w ++ [Stored (Model.build E i)])).
Proof.
  unfold rejection, Model.create.
  destruct (Schema.validateContent (in_content i)); [discriminate|].
  intros ->. reflexivity.
Qed.

Lemma create_cases (E : env) (i : MessageInput) (w : world) :
  (exists e, rejection E i = Some e /\ Model.create E i w = (Throw e, w)) \/
  (rejection E i = None /\
   Model.create E i w =
     (Normal (Model.build E i),
      mkWorld (mkDB (messages (db w) ++ [Model.build E i]) (users (db w)))
              (trace w ++ [Stored (Model.build E i)]))).
Proof.
  destruct (rejection E i) as [e|] eqn:R.
  - left. exists e. split; [reflexivity|]. by apply create_rejected.
  - right. split; [reflexivity|]. by apply create_accepted.
Qed.

Lemma sendMessage_outcome (E : env) (socketId userId : string)
    (p : Live.SendPayload) (d : DB) :
  sendOutcome E socketId userId p d
    (run (Live.sendMessage E socketId userId p) d).2.
Proof.
  unfold run, Live.sendMessage, try_catch, bind at 1.
  destruct (create_cases E (Live.messageInput E userId p) (mkWorld d []))
    as [(e & R & ->)|(R & ->)].
  - simpl. by apply send_rejected.
  - cbn -[Model.build createRoomId].
    unfold Live.populatedId, bind, getDB, Model.findUser.
    cbn -[Model.build createRoomId].
    change (sender (Model.build E (Live.messageInput E userId p))) with userId.
    change (recipient (Model.build E (Live.messageInput E userId p)))
      with (Live.p_recipient p).
    destruct (users d !! userId) as [u|] eqn:Hu.
    + cbn -[Model.build createRoomId].
      destruct (users d !! Live.p_recipient p) as [r|] eqn:Hr.
      * cbn -[Model.build createRoomId].
        eapply send_delivered; eauto.
      * cbn -[Model.build createRoomId].
        apply (send_stored_unknown_user _ _ _ _ _ _ R eq_refl). by right.
    + cbn -[Model.build createRoomId].
      apply (send_stored_unknown_user _ _ _ _ _ _ R eq_refl). by left.
Qed.

Lemma sendMessage_completes (E : env) (socketId userId : string)
    (p : Live.SendPayload) (d : DB) :
  (run (Live.sendMessage E socketId userId p) d).1 = Normal tt.
Proof.
  unfold run, Live.sendMessage, try_catch, bind at 1.
  destruct (create_cases E (Live.messageInput E userId p) (mkWorld d []))
    as [(e & R & ->)|(R & ->)]; [reflexivity|].
  cbn -[Model.build createRoomId].
  unfold Live.populatedId, bind, getDB, Model.findUser.
  cbn -[Model.build createRoomId].
  destruct (users d !! _); [|reflexivity].
  cbn -[Model.build createRoomId].
  destruct (users d !! _); reflexivity.
Qed.


(** C9. On the live channel every message the handler writes carries the
    client's [timestamp] as [createdAt] when that timestamp is truthy, and
    the server's clock otherwise; with valid content and a store that
    accepts the write, such a message is written. *)
Theorem sendMessage_createdAt_from_client (E : env) (socketId userId : string)
    (p : Live.SendPayload) (d : DB) :
  let w := (run (Live.sendMessage E socketId userId p) d).2 in
  (forall m, In (Stored m) (trace w) ->
     match Live.p_timestamp p with
     | Some t => if t =? 0 then createdAt m = now E else createdAt m = t
     | None => createdAt m = now E
     end) /\
  (Schema.validateContent (Live.p_content p) = None -> fault E = None ->
   exists m, In (Stored m) (trace w) /\ messages (db w) = messages d ++ [m]).
Proof.
  intros w. subst w.
  assert (forall m, m = Model.build E (Live.messageInput E userId p) ->
            match Live.p_timestamp p with
            | Some t => if t =? 0 then createdAt m = now E else createdAt m = t
            | None => createdAt m = now E
            end) as Hbuild.
  { intros m ->. simpl. unfold Live.orNow, Live.truthy.
    destruct (Live.p_timestamp p) as [t|]; [|reflexivity].
    destruct (t =? 0); reflexivity. }
  pose proof (sendMessage_outcome E socketId userId p d) as H.
  destruct H as [e R | m R Hm Hu | m data R Hm Hs Hr ->].
  - split.
    + intros m [Hm|[]]. discriminate Hm.
    + intros Hv Hf. unfold rejection in R. simpl in R. rewrite Hv, Hf in R.
      discriminate.
  - split.
    + intros m' [Hm'|[Hm'|[]]]; [|discriminate Hm'].
      injection Hm' as <-. by apply Hbuild.
    + intros _ _. exists m. split; [by left|reflexivity].
  - split.
    + intros m' [Hm'|[Hm'|[Hm'|[]]]]; try discriminate.
      injection Hm' as <-. by apply Hbuild.
    + intros _ _. exists m. split; [by left|reflexivity].
Qed.


Lemma createdAt_from_client_example :
  let p := Live.mkSend bob "hello" (Some 4102444800000) in
  let w := (run (Live.sendMessage clock "sock1" alice p) friends).2 in
  exists m, In (Stored m) (trace w) /\
            messages (db w) = messages friends ++ [m] /\
            createdAt m = 4102444800000.
Proof.
  intros p w.
  destruct (sendMessage_createdAt_from_client clock "sock1" alice p friends)
    as [H1 H2].
  destruct (H2 eq_refl eq_refl) as (m & Hin & Hdb).
  exists m. split; [exact Hin|]. split; [exact Hdb|]. exact (H1 m Hin).
Defined.

(** What follows for the order of conversations: Alice writes to Bob with
    a timestamp of the year 2100, a minute later Carol writes to Bob; Bob's
    list of conversations has the one with Alice first. *)
Lemma forged_timestamp_orders_conversations :
  let d1 := db (run (Live.sendMessage clock "sock1" alice
                       (Live.mkSend bob "first" (Some 4102444800000))) trio).2 in
  let d2 := db (run (Live.sendMessage later "sock3" carol
                       (Live.mkSend bob "second" None)) d1).2 in
  exists a c,
    (run (Chat.conversations bob) d2).1 =
      Normal (mkResponse 200 (ConversationList [a; c])) /\
    sender <$> lastMessage a = Some alice /\
    sender <$> lastMessage c = Some carol /\
    Chat.time a = 4102444800000 /\ Chat.time c = 1700000060000.
Proof.
  eexists _, _. repeat split; vm_compute; reflexivity.
Qed.

(* --------------------------------------------------------------------- *)
(** ** The two send paths side by side *)
(* --------------------------------------------------------------------- *)

Lemma isConnected_run (me other : string) (u : User) (w : world) :
  users (db w) !! me = Some u ->
  Chat.isConnected me other w =
    (Normal (existsb (fun conn => eqs conn other) (connections u)), w).
Proof.
  intros H. unfold Chat.isConnected, bind, getDB, Model.findUser. simpl.
  rewrite H. reflexivity.
Qed.

(** POST /api/chat/send answers 403 and writes nothing when the recipient
    is not among the sender's connections. *)
Lemma send_checks_connection (E : env) (me to text : string) (u : User) (d : DB) :
  users d !! me = Some u ->
  existsb (fun conn => eqs conn to) (connections u) = false ->
  (eqs text "" || eqs (JS.trim text) "") = false ->
  run (Chat.send E me to text) d =
    (Normal (mkResponse 403
               (Failure "You can only send messages to connected users")),
     mkWorld d []).
Proof.
  intros Hu Hc Ht. unfold run, Chat.send, try_catch. rewrite Ht.
  unfold bind at 1. rewrite (isConnected_run me to u) by exact Hu.
  rewrite Hc. reflexivity.
Qed.

(** POST /api/chat/send answers 400 and writes nothing when the content is
    empty or white space only. *)
Lemma send_rejects_blank (E : env) (me to text : string) (d : DB) :
  JS.trim text = "" ->
  run (Chat.send E me to text) d =
    (Normal (mkResponse 400 (Failure "Message content is required")),
     mkWorld d []).
Proof.
  intros Ht. unfold run, Chat.send, try_catch. rewrite Ht.
  rewrite orb_true_r. reflexivity.
Qed.

(** The live channel never looks at the connections of the sender: two
    stores that differ only there see the same events. *)
Lemma sendMessage_ignores_connections (E : env) (socketId userId : string)
    (p : Live.SendPayload) (d1 d2 : DB) :
  messages d1 = messages d2 ->
  (forall id, is_Some (users d1 !! id) <-> is_Some (users d2 !! id)) ->
  trace (run (Live.sendMessage E socketId userId p) d1).2 =
  trace (run (Live.sendMessage E socketId userId p) d2).2.
Proof.
  intros Hm Hu.
  pose proof (sendMessage_outcome E socketId userId p d1) as H1.
  pose proof (sendMessage_outcome E socketId userId p d2) as H2.
  assert (forall id, users d1 !! id = None <-> users d2 !! id = None) as Hn.
  { intros id. rewrite !eq_None_not_Some. by rewrite Hu. }
  destruct H1 as [e1 R1 | m1 R1 -> Hu1 | m1 data1 R1 -> Hs1 Hr1 ->];
    destruct H2 as [e2 R2 | m2 R2 -> Hu2 | m2 data2 R2 -> Hs2 Hr2 ->];
    simpl; try congruence.
  - rewrite !Hn, !eq_None_not_Some in Hu1. tauto.
  - rewrite <- !Hn, !eq_None_not_Some in Hu2. tauto.
Qed.

(** The schema accepts exactly the contents of 1 to 5000 units. *)
Lemma validateContent_None (c : string) :
  Schema.validateContent c = None <->
  (1 <= String.length c <= Schema.maxlength)%nat.
Proof.
  unfold Schema.validateContent.
  destruct (Nat.eqb_spec (String.length c) 0) as [H0|H0].
  - split; [discriminate|lia].
  - destruct (Nat.ltb_spec Schema.maxlength (String.length c)) as [Hl|Hl].
    + split; [discriminate|lia].
    + split; [lia|reflexivity].
Qed.

(** On the live channel a content that the schema refuses is answered with
    a [messageError] on the sender's socket and nothing is written. *)
Lemma sendMessage_invalid_content (E : env) (socketId userId : string)
    (p : Live.SendPayload) (d : DB) :
  ~ (1 <= String.length (Live.p_content p) <= Schema.maxlength)%nat ->
  exists path kind,
    run (Live.sendMessage E socketId userId p) d =
      (Normal tt, mkWorld d [messageError socketId (ValidationError path kind)]).
Proof.
  intros Hlen. rewrite <- validateContent_None in Hlen.
  unfold run, Live.sendMessage, try_catch, bind at 1, Model.create. simpl.
  destruct (Schema.validateContent (Live.p_content p)) as [e|] eqn:Hv;
    [|congruence].
  unfold Schema.validateContent in Hv.
  destruct (Nat.eqb _ _); [injection Hv as <-; by eexists _, _|].
  destruct (Nat.ltb _ _); [injection Hv as <-; by eexists _, _|discriminate].
Qed.

(** On the live channel any content of 1 to 5000 units is written, blank
    or not, when the store accepts the write. *)
Lemma sendMessage_valid_content (E : env) (socketId userId : string)
    (p : Live.SendPayload) (d : DB) :
  (1 <= String.length (Live.p_content p) <= Schema.maxlength)%nat ->
  fault E = None ->
  messages (db (run (Live.sendMessage E socketId userId p) d).2) =
    messages d ++ [Model.build E (Live.messageInput E userId p)].
Proof.
  intros Hlen Hf. rewrite <- validateContent_None in Hlen.
  assert (rejection E (Live.messageInput E userId p) = None) as R.
  { unfold rejection. simpl. by rewrite Hlen. }
  pose proof (sendMessage_outcome E socketId userId p d) as H.
  destruct H as [e R' | m R' -> Hu | m data R' -> Hs Hr ->];
    [congruence|reflexivity|reflexivity].
Qed.

Lemma not_blank (text : string) :
  JS.trim text <> "" -> (eqs text "" || eqs (JS.trim text) "") = false.
Proof.
  intros H. apply orb_false_iff. unfold eqs. rewrite !String.eqb_neq.
  split; [|exact H]. intros ->. by apply H.
Qed.

(** POST /api/chat/send between connected users: the trimmed content is
    what is validated and written. *)
Lemma send_stores (E : env) (me to text : string) (u : User) (d : DB) :
  users d !! me = Some u -> In to (connections u) ->
  JS.trim text <> "" ->
  (String.length (JS.trim text) <= Schema.maxlength)%nat ->
  fault E = None ->
  let m := Model.build E (mkInput me to (JS.trim text) None None) in
  run (Chat.send E me to text) d =
    (Normal (mkResponse 201 (OneMessage m)),
     mkWorld (mkDB (messages d ++ [m]) (users d)) [Stored m]) /\
  read m = false.
Proof.
  intros Hu Hin Hne Hlen Hf m. split; [|reflexivity].
  unfold run, Chat.send, try_catch. rewrite (not_blank _ Hne).
  unfold bind at 1. rewrite (isConnected_run me to u) by exact Hu.
  assert (existsb (fun conn => eqs conn to) (connections u) = true) as ->.
  { apply existsb_exists. exists to. split; [exact Hin|apply String.eqb_refl]. }
  cbn [negb]. unfold bind at 1. rewrite create_accepted; [reflexivity|].
  unfold rejection. cbn [in_content].
  assert (Schema.validateContent (JS.trim text) = None) as ->; [|exact Hf].
  apply validateContent_None. split; [|exact Hlen].
  destruct (JS.trim text); [congruence|simpl; lia].
Qed.

Lemma send_too_long (E : env) (me to text : string) (u : User) (d : DB) :
  users d !! me = Some u -> In to (connections u) ->
  (Schema.maxlength < String.length (JS.trim text))%nat ->
  run (Chat.send E me to text) d =
    (Normal (mkResponse 500 (Failure "Error sending message")), mkWorld d []).
Proof.
  intros Hu Hin Hlen.
  assert (JS.trim text <> "") as Hne.
  { intros Heq. rewrite Heq in Hlen. simpl in Hlen. lia. }
  assert (Schema.validateContent (JS.trim text) <> None) as Hv.
  { rewrite validateContent_None. lia. }
  unfold run, Chat.send, try_catch. rewrite (not_blank _ Hne).
  unfold bind at 1. rewrite (isConnected_run me to u) by exact Hu.
  assert (existsb (fun conn => eqs conn to) (connections u) = true) as ->.
  { apply existsb_exists. exists to. split; [exact Hin|apply String.eqb_refl]. }
  cbn [negb]. unfold bind at 1, Model.create. cbn [in_content].
  destruct (Schema.validateContent (JS.trim text)); [reflexivity|congruence].
Qed.

(** C1, at the failing input: Alice and Bob are not connected. POST
    /api/chat/send refuses with 403 and leaves the store alone; the
    [sendMessage] event with the same sender, recipient and content writes
    the message and fans it out. *)
Theorem unconnected_pair_is_served_on_live_channel :
  let stored :=
    mkMessage "64c0a1b2c3d4e5f601020304" alice bob "hello" false None
              1700000000000 1700000000000 in
  let data :=
    NewMessageData (mkMessageData "64c0a1b2c3d4e5f601020304" alice bob "hello"
                      1700000000000 false 1700000000000) in
  Chat.isConnected alice bob (mkWorld strangers []) =
    (Normal false, mkWorld strangers []) /\
  run (Chat.send clock alice bob "hello") strangers =
    (Normal (mkResponse 403
               (Failure "You can only send messages to connected users")),
     mkWorld strangers []) /\
  run (Live.sendMessage clock "sock1" alice (Live.mkSend bob "hello" None))
      strangers =
    (Normal tt,
     mkWorld (mkDB [stored] (users strangers))
       [Stored stored;
        Emitted (ToRoom
                   "chat_64b7f0a2c1d2e3f405060701_64b7f0a2c1d2e3f405060702"
                   "newMessage" data);
        Emitted (ToSocket "sock1" "messageSent" data)]).
Proof.
  repeat split; vm_compute; reflexivity.
Qed.

(** C4, at the failing input: content of three spaces between connected
    users. POST /api/chat/send refuses with 400 and leaves the store alone;
    the [sendMessage] event writes the blank message and fans it out. *)
Theorem blank_content_is_served_on_live_channel :
  let stored :=
    mkMessage "64c0a1b2c3d4e5f601020304" alice bob "   " false None
              1700000000000 1700000000000 in
  let data :=
    NewMessageData (mkMessageData "64c0a1b2c3d4e5f601020304" alice bob "   "
                      1700000000000 false 1700000000000) in
  JS.trim "   " = "" /\
  run (Chat.send clock alice bob "   ") friends =
    (Normal (mkResponse 400 (Failure "Message content is required")),
     mkWorld friends []) /\
  run (Live.sendMessage clock "sock1" alice (Live.mkSend bob "   " None))
      friends =
    (Normal tt,
     mkWorld (mkDB [stored] (users friends))
       [Stored stored;
        Emitted (ToRoom
                   "chat_64b7f0a2c1d2e3f405060701_64b7f0a2c1d2e3f405060702"
                   "newMessage" data);
        Emitted (ToSocket "sock1" "messageSent" data)]).
Proof.
  repeat split; vm_compute; reflexivity.
Qed.

(* --------------------------------------------------------------------- *)
(** ** Sorting *)
(* --------------------------------------------------------------------- *)

Section SortFacts.
Context {A : Type} (cmp : A -> A -> Z).

Hypothesis le_total : forall x y, cmp x y <= 0 \/ cmp y x <= 0.
Hypothesis le_trans : forall x y z, cmp x y <= 0 -> cmp y z <= 0 -> cmp x z <= 0.

Lemma insert_Permutation (x : A) (l : list A) :
  Permutation (JS.insert cmp x l) (x :: l).
Proof.
  induction l as [|y l IH]; simpl; [reflexivity|].
  destruct (cmp x y <=? 0); [reflexivity|].
  rewrite IH. apply perm_swap.
Qed.

Lemma sort_Permutation (l : list A) : Permutation (JS.sort cmp l) l.
Proof.
  induction l as [|x l IH]; simpl; [reflexivity|].
  rewrite insert_Permutation. by constructor.
Qed.

Lemma sort_In (x : A) (l : list A) : In x (JS.sort cmp l) <-> In x l.
Proof.
  split; apply Permutation_in; [|symmetry]; apply sort_Permutation.
Qed.

Lemma insert_sorted (x : A) (l : list A) :
  StronglySorted (fun a b => cmp a b <= 0) l ->
  StronglySorted (fun a b => cmp a b <= 0) (JS.insert cmp x l).
Proof.
  induction 1 as [|y l Hs IH Hy]; simpl.
  - repeat constructor.
  - destruct (Z.leb_spec (cmp x y) 0) as [Hxy|Hxy].
    + constructor; [by constructor|]. constructor; [exact Hxy|].
      rewrite List.Forall_forall in Hy |- *. intros z Hz.
      apply (le_trans x y z Hxy). by apply Hy.
    + constructor; [exact IH|].
      rewrite List.Forall_forall in Hy |- *. intros z Hz.
      apply (Permutation_in _ (insert_Permutation x l)) in Hz.
      destruct Hz as [<-|Hz]; [|by apply Hy].
      destruct (le_total x y); [lia|assumption].
Qed.

Lemma sort_sorted (l : list A) :
  StronglySorted (fun a b => cmp a b <= 0) (JS.sort cmp l).
Proof.
  induction l as [|x l IH]; simpl; [constructor|]. by apply insert_sorted.
Qed.
End SortFacts.

Lemma StronglySorted_mono {A} (R S : A -> A -> Prop) (l : list A) :
  (forall x y, R x y -> S x y) -> StronglySorted R l -> StronglySorted S l.
Proof.
  intros HRS. induction 1 as [|x l Hs IH Hx]; constructor; [exact IH|].
  eapply List.Forall_impl; [|exact Hx]. intros y. apply HRS.
Qed.

Lemma oldestFirst_sorted (l : list Message) :
  StronglySorted (fun a b => createdAt a <= createdAt b) (Model.oldestFirst l).
Proof.
  eapply StronglySorted_mono; [|apply sort_sorted].
  - simpl. intros a b H. lia.
  - intros. lia.
  - intros. lia.
Qed.

Lemma newestFirst_sorted (l : list Message) :
  StronglySorted (fun a b => createdAt b <= createdAt a) (Model.newestFirst l).
Proof.
  eapply StronglySorted_mono; [|apply sort_sorted].
  - simpl. intros a b H. lia.
  - intros. lia.
  - intros. lia.
Qed.

Lemma In_take {A} (x : A) (n : nat) (l : list A) : In x (take n l) -> In x l.
Proof.
  revert n. induction l as [|y l IH]; intros [|n]; simpl; try tauto.
  intros [H|H]; [by left|right; eauto].
Qed.

Lemma StronglySorted_take {A} (R : A -> A -> Prop) (n : nat) (l : list A) :
  StronglySorted R l -> StronglySorted R (take n l).
Proof.
  intros H. revert n. induction H as [|x l Hs IH Hx]; intros [|n]; simpl;
    try constructor.
  - apply IH.
  - rewrite List.Forall_forall in Hx |- *. intros y Hy. apply Hx.
    by apply In_take in Hy.
Qed.

(* --------------------------------------------------------------------- *)
(** ** Marking one message as read *)
(* --------------------------------------------------------------------- *)

Lemma evolves_refl (m : Message) : evolves m m.
Proof. by repeat split. Qed.

Lemma evolves_markRead (t : Z) (m : Message) : evolves m (Model.markRead t m).
Proof. by repeat split. Qed.

Lemma Forall2_same {A} (R : A -> A -> Prop) (l : list A) :
  (forall x, R x x) -> Forall2 R l l.
Proof. intros H. induction l; constructor; auto. Qed.

Lemma replace_found (id : string) (t : Z) (m : Message) (l : list Message) :
  List.find (fun x => eqs (_id x) id) l = Some m ->
  List.find (fun x => eqs (_id x) id) (Model.replace (Model.markRead t m) l)
    = Some (Model.markRead t m) /\
  Forall2 evolves l (Model.replace (Model.markRead t m) l) /\
  Forall2 (fun a b => b = a \/ a = m /\ b = Model.markRead t m)
          l (Model.replace (Model.markRead t m) l).
Proof.
  induction l as [|x l IH]; simpl; [discriminate|].
  destruct (eqs (_id x) id) eqn:Hx.
  - intros [= ->]. simpl. rewrite String.eqb_refl. simpl. rewrite Hx.
    split; [reflexivity|]. split.
    + constructor; [apply evolves_markRead|].
      apply Forall2_same, evolves_refl.
    + constructor; [by right|]. apply Forall2_same. by left.
  - intros Hf. assert (_id m = id) as Hid.
    { apply List.find_some in Hf as [_ Hf]. by apply String.eqb_eq in Hf. }
    simpl. rewrite Hid, Hx. simpl. rewrite Hx.
    destruct (IH Hf) as (H1 & H2 & H3).
    split; [exact H1|]. split; constructor; auto using evolves_refl.
Qed.

Lemma findById_cast (id : string) (d : DB) (m : Message) :
  Model.findById id d = Some m ->
  exists oid, ObjectId.cast id = Some oid /\
              List.find (fun x => eqs (_id x) oid) (messages d) = Some m.
Proof.
  unfold Model.findById. destruct (ObjectId.cast id) as [oid|]; [|discriminate].
  intros Hf. by exists oid.
Qed.

Lemma find_id_unique (oid : string) (m : Message) (l : list Message) :
  List.NoDup (List.map _id l) -> In m l -> _id m = oid ->
  List.find (fun x => eqs (_id x) oid) l = Some m.
Proof.
  induction l as [|x l IH]; simpl; [tauto|].
  intros Hnd Hin Hid. apply List.NoDup_cons_iff in Hnd as [Hx Hnd].
  destruct (eqs (_id x) oid) eqn:Hxo.
  - destruct Hin as [->|Hin]; [reflexivity|].
    apply String.eqb_eq in Hxo. exfalso. apply Hx.
    apply List.in_map_iff. exists m. split; [congruence|exact Hin].
  - destruct Hin as [->|Hin]; [|by apply IH].
    unfold eqs in Hxo. rewrite Hid, String.eqb_refl in Hxo. discriminate.
Qed.

Lemma find_id_none (oid : string) (l : list Message) :
  (forall m, In m l -> _id m <> oid) ->
  List.find (fun x => eqs (_id x) oid) l = None.
Proof.
  intros H. destruct (List.find _ l) as [m|] eqn:Hf; [|reflexivity].
  apply List.find_some in Hf as [Hin Hid]. apply String.eqb_eq in Hid.
  by destruct (H m Hin).
Qed.

(** The four ways out of PUT /api/chat/mark-read/:messageId. *)
Lemma markRead_malformed (E : env) (c id : string) (d : DB) :
  ObjectId.cast id = None ->
  run (Chat.markRead E c id) d =
    (Normal (mkResponse 500 (Failure "Error marking message as read")),
     mkWorld d []).
Proof.
  intros Hc. unfold run, Chat.markRead, Model.awaitFindById, try_catch, bind.
  rewrite Hc. reflexivity.
Qed.

Lemma markRead_absent (E : env) (c id : string) (d : DB) :
  is_Some (ObjectId.cast id) -> Model.findById id d = None ->
  run (Chat.markRead E c id) d =
    (Normal (mkResponse 404 (Failure "Message not found")), mkWorld d []).
Proof.
  intros [oid Hc] Hf.
  unfold run, Chat.markRead, Model.awaitFindById, try_catch, bind, getDB.
  rewrite Hc. simpl. rewrite Hf. reflexivity.
Qed.

Lemma markRead_refused (E : env) (c id : string) (d : DB) (m : Message) :
  Model.findById id d = Some m -> recipient m <> c ->
  run (Chat.markRead E c id) d =
    (Normal (mkResponse 403 (Failure "Not authorized")), mkWorld d []).
Proof.
  intros Hf Hr. destruct (findById_cast id d m Hf) as (oid & Hc & _).
  unfold run, Chat.markRead, Model.awaitFindById, try_catch, bind, getDB.
  rewrite Hc. simpl. rewrite Hf.
  apply String.eqb_neq in Hr. unfold eqs. rewrite Hr. reflexivity.
Qed.

Lemma markRead_run (E : env) (c id : string) (d : DB) (m : Message) :
  Model.findById id d = Some m -> recipient m = c ->
  run (Chat.markRead E c id) d =
    (Normal (mkResponse 200 (OneMessage (Model.markRead (now E) m))),
     mkWorld (Model.save (Model.markRead (now E) m) d) []).
Proof.
  intros Hf Hr. destruct (findById_cast id d m Hf) as (oid & Hc & _).
  unfold run, Chat.markRead, Model.awaitFindById, try_catch, bind, getDB.
  rewrite Hc. simpl. rewrite Hf.
  unfold eqs. rewrite Hr, String.eqb_refl. reflexivity.
Qed.

(** C10. PUT /api/chat/mark-read/:messageId, on a store whose documents
    have distinct ids. When [id] names an ObjectId [oid]: the answer is 404
    if no stored message has that id; for the stored message [m] with that
    id it is 403 if the caller is not the recipient of [m], and in both
    cases the store is untouched; if the caller is the recipient of [m] it
    is 200, and [m] is stored with [read = true] and [readAt] the current
    time while every other message is as it was. When [id] names no
    ObjectId (and is not 12 characters long, see [ObjectId.cast]) the
    lookup throws, and the answer is 500 with the store untouched. The
    answer is 200 only when the caller is the recipient of the message that
    [id] names, and whatever happens no stored message goes from read to
    unread. *)
Theorem markRead_recipient_only (E : env) (c id : string) (d : DB) :
  List.NoDup (List.map _id (messages d)) ->
  let r := run (Chat.markRead E c id) d in
  let d' := db r.2 in
  match ObjectId.cast id with
  | None =>
      String.length id <> 12%nat ->
      r = (Normal (mkResponse 500 (Failure "Error marking message as read")),
           mkWorld d [])
  | Some oid =>
      ((forall m, In m (messages d) -> _id m <> oid) ->
       r = (Normal (mkResponse 404 (Failure "Message not found")),
            mkWorld d [])) /\
      (forall m, In m (messages d) -> _id m = oid ->
         (recipient m <> c ->
          r = (Normal (mkResponse 403 (Failure "Not authorized")),
               mkWorld d [])) /\
         (recipient m = c ->
          let m' := Model.markRead (now E) m in
          r.1 = Normal (mkResponse 200 (OneMessage m')) /\
          In m' (messages d') /\
          read m' = true /\ readAt m' = Some (now E) /\ evolves m m' /\
          Forall2 (fun a b => b = a \/ a = m /\ b = m')
                  (messages d) (messages d')))
  end /\
  (forall body, r.1 = Normal (mkResponse 200 body) ->
     exists m, In m (messages d) /\ ObjectId.cast id = Some (_id m) /\
               recipient m = c) /\
  Forall2 evolves (messages d) (messages d').
Proof.
  intros Hnd r d'. subst d' r.
  destruct (ObjectId.cast id) as [oid|] eqn:Hc.
  - assert (Model.findById id d =
            List.find (fun x => eqs (_id x) oid) (messages d)) as Hfind.
    { unfold Model.findById. by rewrite Hc. }
    split; [split|split].
    + intros Hno. apply markRead_absent; [by rewrite Hc|].
      rewrite Hfind. by apply find_id_none.
    + intros m Hin Hid.
      assert (Model.findById id d = Some m) as Hf.
      { rewrite Hfind. by apply find_id_unique. }
      split; intros Hr.
      * by apply markRead_refused with m.
      * rewrite (markRead_run E c id d m Hf Hr). cbn [fst snd db Model.save messages].
        rewrite Hfind in Hf.
        destruct (replace_found oid (now E) m (messages d) Hf) as (H1 & _ & H3).
        split; [reflexivity|]. split.
        { by apply List.find_some in H1 as [H1 _]. }
        repeat split. exact H3.
    + intros body Hb.
      destruct (Model.findById id d) as [m|] eqn:Hf.
      * destruct (String.eqb_spec (recipient m) c) as [Hr|Hr].
        -- exists m. symmetry in Hfind.
           apply List.find_some in Hfind as [Hin Hid]. apply String.eqb_eq in Hid.
           split; [exact Hin|]. split; [by rewrite Hid|exact Hr].
        -- rewrite (markRead_refused E c id d m Hf Hr) in Hb. discriminate Hb.
      * rewrite (markRead_absent E c id d) in Hb; [discriminate Hb| |exact Hf].
        by rewrite Hc.
    + destruct (Model.findById id d) as [m|] eqn:Hf.
      * destruct (String.eqb_spec (recipient m) c) as [Hr|Hr].
        -- rewrite (markRead_run E c id d m Hf Hr). cbn [snd db Model.save messages].
           symmetry in Hfind.
           by destruct (replace_found oid (now E) m (messages d) Hfind)
             as (_ & H2 & _).
        -- rewrite (markRead_refused E c id d m Hf Hr).
           apply Forall2_same, evolves_refl.
      * rewrite (markRead_absent E c id d); [| by rewrite Hc | exact Hf].
        apply Forall2_same, evolves_refl.
  - rewrite (markRead_malformed E c id d Hc).
    split; [intros _; reflexivity|]. split; [intros body [=]|].
    apply Forall2_same, evolves_refl.
Qed.

(** Alice marks Bob's message, naming it in upper case; the same request
    for a string that is no ObjectId is answered 500. *)
Lemma markRead_recipient_only_example :
  List.NoDup (List.map _id (messages unread_from_stranger)) /\
  (run (Chat.markRead clock alice "64C0A1B2C3D4E5F601020399")
       unread_from_stranger).1 =
    Normal (mkResponse 200
              (OneMessage (mkMessage "64c0a1b2c3d4e5f601020399" bob alice
                             "ping" true (Some 1700000000000) 1690000000000
                             1700000000000))) /\
  run (Chat.markRead clock alice "nope") unread_from_stranger =
    (Normal (mkResponse 500 (Failure "Error marking message as read")),
     mkWorld unread_from_stranger []).
Proof.
  assert (List.NoDup (List.map _id (messages unread_from_stranger))) as Hnd.
  { simpl. constructor; [simpl; tauto|constructor]. }
  split; [exact Hnd|]. split.
  - pose proof (markRead_recipient_only clock alice "64C0A1B2C3D4E5F601020399"
                  unread_from_stranger Hnd) as H.
    cbv zeta in H. destruct H as [H _].
    change (ObjectId.cast "64C0A1B2C3D4E5F601020399")
      with (Some "64c0a1b2c3d4e5f601020399") in H.
    destruct H as [_ H].
    destruct (H (mkMessage "64c0a1b2c3d4e5f601020399" bob alice "ping"
                   false None 1690000000000 1690000000000)
                (or_introl eq_refl) eq_refl) as [_ H'].
    exact (proj1 (H' eq_refl)).
  - pose proof (markRead_recipient_only clock alice "nope"
                  unread_from_stranger Hnd) as H.
    cbv zeta in H. apply (proj1 H). simpl. discriminate.
Defined.

(* --------------------------------------------------------------------- *)
(** ** History and the unread total *)
(* --------------------------------------------------------------------- *)

Lemma between_exchanged (a b : string) (m : Message) :
  Chat.between a b m = true <-> exchanged a b m.
Proof.
  unfold Chat.between, exchanged, eqs.
  rewrite orb_true_iff, !andb_true_iff, !String.eqb_eq. tauto.
Qed.

Lemma unreadFrom_true (from to : string) (m : Message) :
  Chat.unreadFrom from to m = true <->
  sender m = from /\ recipient m = to /\ read m = false.
Proof.
  unfold Chat.unreadFrom, eqs.
  rewrite !andb_true_iff, !String.eqb_eq, negb_true_iff. tauto.
Qed.

Lemma updateMany_marks (A B : string) (t : Z) (l : list Message) :
  Forall2 (fun m m' => evolves m m' /\
             if Chat.unreadFrom B A m
             then read m' = true /\ readAt m' = Some t
             else m' = m)
    l (List.map (fun m => if Chat.unreadFrom B A m
                          then Model.markRead t m else m) l).
Proof.
  induction l as [|m l IH]; simpl; constructor; [|exact IH].
  destruct (Chat.unreadFrom B A m).
  - split; [apply evolves_markRead|by split].
  - split; [apply evolves_refl|reflexivity].
Qed.

Lemma updateMany_none_left (A B : string) (t : Z) (l : list Message) (m : Message) :
  In m (List.map (fun m => if Chat.unreadFrom B A m
                           then Model.markRead t m else m) l) ->
  sender m = B -> recipient m = A -> read m = true.
Proof.
  rewrite in_map_iff. intros (x & <- & _).
  destruct (Chat.unreadFrom B A x) eqn:Hx; [reflexivity|].
  intros Hs Hr. destruct (read x) eqn:Hread; [reflexivity|].
  assert (Chat.unreadFrom B A x = true) as Hx'.
  { by apply unreadFrom_true. }
  congruence.
Qed.

Lemma length_filter_map {A B} (f : A -> B) (P : B -> bool) (Q : A -> bool)
    (l : list A) :
  (forall x, P (f x) = Q x) ->
  length (List.filter P (List.map f l)) = length (List.filter Q l).
Proof.
  intros H. induction l as [|x l IH]; simpl; [reflexivity|].
  rewrite H. destruct (Q x); simpl; by rewrite IH.
Qed.

Lemma unread_after_updateMany (A B : string) (t : Z) (l : list Message) :
  length (List.filter (fun m => eqs (recipient m) A && negb (read m))
            (List.map (fun m => if Chat.unreadFrom B A m
                                then Model.markRead t m else m) l)) =
  length (List.filter (fun m => eqs (recipient m) A && negb (read m)
                                && negb (eqs (sender m) B)) l).
Proof.
  apply length_filter_map. intros m. unfold Chat.unreadFrom.
  destruct (eqs (sender m) B), (eqs (recipient m) A) eqn:Hr, (read m) eqn:Hread;
    simpl; rewrite ?Hr, ?Hread; reflexivity.
Qed.

Lemma getMessages_connected (E : env) (A B : string) (d : DB) (u : User) :
  users d !! A = Some u -> In B (connections u) ->
  run (Chat.getMessages E A B) d =
    (Normal (mkResponse 200
               (MessageList
                  (take 100 (Model.oldestFirst (Model.find (Chat.between A B) d))))),
     mkWorld (Model.updateMany (Chat.unreadFrom B A) (now E) d) []).
Proof.
  intros Hu Hin. unfold run, Chat.getMessages, try_catch, bind at 1.
  rewrite (isConnected_run A B u) by exact Hu.
  assert (existsb (fun conn => eqs conn B) (connections u) = true) as ->.
  { apply existsb_exists. exists B. split; [exact Hin|apply String.eqb_refl]. }
  reflexivity.
Qed.

Lemma getMessages_unconnected (E : env) (A B : string) (d : DB) (u : User) :
  users d !! A = Some u -> ~ In B (connections u) ->
  run (Chat.getMessages E A B) d =
    (Normal (mkResponse 403 (Failure "You can only chat with connected users")),
     mkWorld d []).
Proof.
  intros Hu Hin. unfold run, Chat.getMessages, try_catch, bind at 1.
  rewrite (isConnected_run A B u) by exact Hu.
  assert (existsb (fun conn => eqs conn B) (connections u) = false) as ->.
  { apply not_true_is_false. intros H. apply existsb_exists in H as (x & Hx & Heq).
    apply String.eqb_eq in Heq. congruence. }
  reflexivity.
Qed.

(** C7. For a pair that passes the connection check of the history
    operation ([B] is among the connections of [A]), GET
    /api/chat/messages/B by [A] answers the messages between the two,
    oldest first and at most 100 of them; it marks every unread message
    from [B] to [A] as read at the current time and changes nothing else,
    and the unread total of [A] afterwards counts none of them. *)
Theorem getMessages_marks_read (E : env) (A B : string) (d : DB) (u : User) :
  users d !! A = Some u -> In B (connections u) ->
  let r := run (Chat.getMessages E A B) d in
  let d' := db r.2 in
  let page := take 100 (Model.oldestFirst (Model.find (Chat.between A B) d)) in
  r.1 = Normal (mkResponse 200 (MessageList page)) /\
  (length page <= 100)%nat /\
  StronglySorted (fun a b => createdAt a <= createdAt b) page /\
  (forall m, In m page -> In m (messages d) /\ exchanged A B m) /\
  ((length (Model.find (Chat.between A B) d) <= 100)%nat ->
   forall m, In m (messages d) -> exchanged A B m -> In m page) /\
  Forall2 (fun m m' => evolves m m' /\
             if Chat.unreadFrom B A m
             then read m' = true /\ readAt m' = Some (now E)
             else m' = m)
          (messages d) (messages d') /\
  history_marks_read E A B d.
Proof.
  intros Hu Hin r d' page. subst r d'. unfold history_marks_read.
  rewrite (getMessages_connected E A B d u Hu Hin). simpl.
  split; [reflexivity|]. split.
  { subst page. rewrite length_take. lia. }
  split.
  { apply StronglySorted_take, oldestFirst_sorted. }
  split.
  { intros m Hm. apply In_take in Hm. apply sort_In in Hm.
    apply filter_In in Hm as [Hm Hb]. split; [exact Hm|].
    by apply between_exchanged. }
  split.
  { intros Hlen m Hm Hex. subst page. rewrite take_ge.
    - apply sort_In. apply filter_In. split; [exact Hm|].
      by apply between_exchanged.
    - unfold Model.oldestFirst.
      rewrite (Permutation_length (sort_Permutation _ _)). lia. }
  split.
  { apply updateMany_marks. }
  split.
  { apply updateMany_none_left. }
  unfold run, Chat.unreadTotal, try_catch, bind, getDB. simpl.
  unfold Model.countDocuments, Model.find. simpl.
  by rewrite unread_after_updateMany.
Qed.

Lemma getMessages_marks_read_example :
  users friends !! alice = Some (mkUser "alice" [bob]) /\
  In bob (connections (mkUser "alice" [bob])) /\
  history_marks_read clock alice bob
    (mkDB (messages unread_from_stranger) (users friends)).
Proof.
  assert (users friends !! alice = Some (mkUser "alice" [bob])) as Hu.
  { vm_compute. reflexivity. }
  assert (In bob (connections (mkUser "alice" [bob]))) as Hin.
  { simpl. by left. }
  split; [exact Hu|]. split; [exact Hin|].
  apply (getMessages_marks_read clock alice bob
           (mkDB (messages unread_from_stranger) (users friends))
           (mkUser "alice" [bob]) Hu Hin).
Defined.

(** The other side of the connection check. Bob has written to Alice, who
    is not connected to him: her request for the history is refused with
    403, the message stays unread and still counts in her unread total. *)
Lemma unconnected_history_marks_nothing :
  ~ history_marks_read clock alice bob unread_from_stranger /\
  run (Chat.getMessages clock alice bob) unread_from_stranger =
    (Normal (mkResponse 403 (Failure "You can only chat with connected users")),
     mkWorld unread_from_stranger []) /\
  (run (Chat.unreadTotal alice) unread_from_stranger).1 =
    Normal (mkResponse 200 (Count 1)).
Proof.
  assert (run (Chat.getMessages clock alice bob) unread_from_stranger =
    (Normal (mkResponse 403 (Failure "You can only chat with connected users")),
     mkWorld unread_from_stranger [])) as Hrun.
  { vm_compute. reflexivity. }
  split; [|split; [exact Hrun| vm_compute; reflexivity]].
  intros [H _]. rewrite Hrun in H. simpl in H.
  specialize (H _ (or_introl eq_refl) eq_refl eq_refl). discriminate H.
Qed.

(* --------------------------------------------------------------------- *)
(** ** The list of conversations *)
(* --------------------------------------------------------------------- *)

Lemma Set_add_In (x y : string) (set : list string) :
  In y (Chat.Set_add x set) <-> y = x \/ In y set.
Proof.
  unfold Chat.Set_add. destruct (existsb (eqs x) set) eqn:Hx.
  - apply existsb_exists in Hx as (z & Hz & Heq).
    apply String.eqb_eq in Heq. subst z. split; [tauto|].
    intros [->|H]; assumption.
  - rewrite in_app_iff. simpl. intuition congruence.
Qed.

Lemma Set_add_NoDup (x : string) (set : list string) :
  List.NoDup set -> List.NoDup (Chat.Set_add x set).
Proof.
  intros Hnd. unfold Chat.Set_add. destruct (existsb (eqs x) set) eqn:Hx;
    [exact Hnd|].
  assert (~ In x set) as Hnin.
  { intros Hin. assert (existsb (eqs x) set = true) as Ht; [|congruence].
    apply existsb_exists. exists x. split; [exact Hin|apply String.eqb_refl]. }
  clear Hx. induction Hnd as [|y l Hy Hnd IH]; simpl.
  - constructor; [tauto|constructor].
  - constructor.
    + rewrite in_app_iff. simpl in *. intuition congruence.
    + apply IH. simpl in Hnin. tauto.
Qed.

Lemma addPartners_In (me p : string) (set : list string) (msg : Message) :
  In p (Chat.addPartners me set msg) <->
  In p set \/ p <> me /\ (sender msg = p \/ recipient msg = p).
Proof.
  unfold Chat.addPartners, eqs.
  destruct (String.eqb_spec (sender msg) me) as [Hs|Hs];
    destruct (String.eqb_spec (recipient msg) me) as [Hr|Hr]; simpl;
    rewrite ?Set_add_In; intuition congruence.
Qed.

Lemma addPartners_NoDup (me : string) (set : list string) (msg : Message) :
  List.NoDup set -> List.NoDup (Chat.addPartners me set msg).
Proof.
  intros H. unfold Chat.addPartners.
  destruct (negb (eqs (sender msg) me)), (negb (eqs (recipient msg) me));
    auto using Set_add_NoDup.
Qed.

Lemma partners_fold (me : string) (l : list Message) (acc : list string) :
  List.NoDup acc ->
  List.NoDup (fold_left (Chat.addPartners me) l acc) /\
  forall p, In p (fold_left (Chat.addPartners me) l acc) <->
            In p acc \/
            p <> me /\ exists m, In m l /\ (sender m = p \/ recipient m = p).
Proof.
  revert acc. induction l as [|m l IH]; intros acc Hnd; simpl.
  - split; [exact Hnd|]. intros p. split; [tauto|].
    intros [H|(_ & m & [] & _)]. exact H.
  - destruct (IH _ (addPartners_NoDup me acc m Hnd)) as [H1 H2].
    split; [exact H1|]. intros p. rewrite H2, addPartners_In. split.
    + intros [[H|(Hp & H)]|(Hp & x & Hx & H)];
        [by left|right|right]; (split; [exact Hp|]); eauto.
    + intros [H|(Hp & x & [<-|Hx] & H)]; [tauto|tauto|].
      right. split; [exact Hp|]. eauto.
Qed.

Lemma conversationPartners_spec (me : string) (d : DB) :
  List.NoDup (Chat.conversationPartners me d) /\
  forall p, In p (Chat.conversationPartners me d) <->
            p <> me /\ exists m, In m (messages d) /\ exchanged me p m.
Proof.
  unfold Chat.conversationPartners.
  destruct (partners_fold me
              (Model.newestFirst
                 (Model.find (fun m => eqs (sender m) me || eqs (recipient m) me) d))
              [] (List.NoDup_nil _)) as [H1 H2].
  split; [exact H1|]. intros p. rewrite H2. simpl. split.
  - intros [[]|(Hp & m & Hm & Hsr)]. split; [exact Hp|]. exists m.
    apply sort_In in Hm. apply filter_In in Hm as [Hm Hq].
    split; [exact Hm|]. unfold eqs in Hq.
    rewrite orb_true_iff, !String.eqb_eq in Hq. unfold exchanged.
    intuition congruence.
  - intros (Hp & m & Hm & Hex). right. split; [exact Hp|]. exists m. split.
    + apply sort_In. apply filter_In. split; [exact Hm|]. unfold eqs.
      rewrite orb_true_iff, !String.eqb_eq. unfold exchanged in Hex. tauto.
    + unfold exchanged in Hex. tauto.
Qed.

Lemma findNewest_spec (q : Message -> bool) (d : DB) :
  (exists m, In m (messages d) /\ q m = true) ->
  exists m0, Model.findNewest q d = Some m0 /\ In m0 (messages d) /\
             q m0 = true /\
             forall m', In m' (messages d) -> q m' = true ->
                        createdAt m' <= createdAt m0.
Proof.
  intros (m & Hm & Hq). unfold Model.findNewest.
  pose proof (newestFirst_sorted (Model.find q d)) as Hs.
  assert (forall x, In x (Model.newestFirst (Model.find q d)) <->
                    In x (messages d) /\ q x = true) as Hin.
  { intros x. unfold Model.newestFirst. rewrite sort_In. apply filter_In. }
  destruct (Model.newestFirst (Model.find q d)) as [|m0 l].
  - exfalso. apply (Hin m). tauto.
  - exists m0. simpl. split; [reflexivity|].
    destruct (proj1 (Hin m0) (or_introl eq_refl)) as [H0 Hq0].
    split; [exact H0|]. split; [exact Hq0|].
    intros m' Hm' Hq'. destruct (proj2 (Hin m') (conj Hm' Hq')) as [<-|Hl]; [lia|].
    apply StronglySorted_inv in Hs as [_ Hall].
    rewrite List.Forall_forall in Hall. by apply Hall.
Qed.

Lemma unreadFrom_decide (me p : string) (m : Message) :
  Chat.unreadFrom p me m =
  bool_decide (recipient m = me /\ sender m = p /\ read m = false).
Proof.
  destruct (Chat.unreadFrom p me m) eqn:H; symmetry.
  - apply bool_decide_eq_true. apply unreadFrom_true in H. tauto.
  - apply bool_decide_eq_false. intros (Hr & Hs & Hread).
    assert (Chat.unreadFrom p me m = true) as H'; [|congruence].
    by apply unreadFrom_true.
Qed.

(** C8. GET /api/chat/conversations answers one entry for each identity
    other than the caller with whom a message has been exchanged, and no
    other entry. The entry of a partner carries a latest message between
    the two and the number of unread messages from the partner to the
    caller; the entries come by latest message, newest first. *)
Theorem conversations_listed (me : string) (d : DB) :
  exists partners result,
    run (Chat.conversations me) d =
      (Normal (mkResponse 200 (ConversationList result)), mkWorld d []) /\
    List.NoDup partners /\
    (forall p, In p partners <->
       p <> me /\ exists m, In m (messages d) /\ exchanged me p m) /\
    Permutation result (List.map (Chat.conversationWith me d) partners) /\
    (forall p, In p partners ->
       let c := Chat.conversationWith me d p in
       partner c = users d !! p /\
       (exists m, lastMessage c = Some m /\ In m (messages d) /\
                  exchanged me p m /\
                  forall m', In m' (messages d) -> exchanged me p m' ->
                             createdAt m' <= createdAt m) /\
       unreadCount c =
         length (List.filter
                   (fun m => bool_decide (recipient m = me /\ sender m = p /\
                                          read m = false))
                   (messages d))) /\
    StronglySorted (fun a b => Chat.time b <= Chat.time a) result /\
    (forall c, In c result ->
       exists m, lastMessage c = Some m /\ Chat.time c = createdAt m).
Proof.
  destruct (conversationPartners_spec me d) as [Hnd Hin].
  assert (forall p, In p (Chat.conversationPartners me d) ->
            exists m, lastMessage (Chat.conversationWith me d p) = Some m /\
                      In m (messages d) /\ exchanged me p m /\
                      forall m', In m' (messages d) -> exchanged me p m' ->
                                 createdAt m' <= createdAt m) as Hlast.
  { intros p Hp. apply Hin in Hp as (_ & m & Hm & Hex).
    destruct (findNewest_spec (Chat.between me p) d) as (m0 & H0 & H1 & H2 & H3).
    - exists m. split; [exact Hm|]. by apply between_exchanged.
    - exists m0. simpl. split; [exact H0|]. split; [exact H1|].
      split; [by apply between_exchanged|].
      intros m' Hm' Hex'. apply H3; [exact Hm'|]. by apply between_exchanged. }
  exists (Chat.conversationPartners me d).
  exists (JS.sort (fun a b => Chat.time b - Chat.time a)
            (List.map (Chat.conversationWith me d)
                      (Chat.conversationPartners me d))).
  split; [reflexivity|]. split; [exact Hnd|]. split; [exact Hin|].
  split; [apply sort_Permutation|]. split; [|split].
  - intros p Hp c. subst c. split; [reflexivity|]. split; [by apply Hlast|].
    simpl. unfold Model.countDocuments, Model.find. f_equal.
    apply List.filter_ext. intros m. apply unreadFrom_decide.
  - eapply StronglySorted_mono; [|apply sort_sorted].
    + simpl. intros a b H. lia.
    + intros. lia.
    + intros. lia.
  - intros c Hc. apply sort_In in Hc. apply in_map_iff in Hc as (p & <- & Hp).
    destruct (Hlast p Hp) as (m & Hm & _). exists m. split; [exact Hm|].
    unfold Chat.time. by rewrite Hm.
Qed.

(* --------------------------------------------------------------------- *)
(** ** Rooms and presence over the life of the process *)
(* --------------------------------------------------------------------- *)

Lemma elem_of_members (h : Hub) (roomId socketId : string) :
  socketId ∈ Rooms.members h roomId <->
  exists rooms, joined h !! socketId = Some rooms /\ roomId ∈ rooms.
Proof.
  unfold Rooms.members. rewrite elem_of_dom. split.
  - intros [rooms H]. apply map_lookup_filter_Some in H as [H1 H2]. eauto.
  - intros (rooms & H1 & H2). exists rooms.
    apply map_lookup_filter_Some. split; assumption.
Qed.

(** X1. In every state the sockets can bring about, a user that
    [onlineUsers] reports is reported with a socket that is connected and
    is that user's; [userRooms] has an entry for exactly the users
    [onlineUsers] has one for, and [userSockets] knows exactly the
    connected sockets. *)
Theorem online_means_connected (h : Hub) :
  reachable h ->
  (forall userId socketId,
     Live.getSocketId (presence h) userId = Some socketId ->
     userSockets (presence h) !! socketId = Some userId /\
     is_Some (joined h !! socketId)) /\
  dom (userRooms (presence h)) = dom (onlineUsers (presence h)) /\
  dom (userSockets (presence h)) = dom (joined h).
Proof.
  unfold Live.getSocketId.
  induction 1 as [|h s u Hr (IH1 & IH2 & IH3) Hfresh
                  |h s u Hr (IH1 & IH2 & IH3) Hs
                  |h s u r Hr (IH1 & IH2 & IH3) Hs
                  |h s u r Hr (IH1 & IH2 & IH3) Hs]; simpl.
  - split; [|split; reflexivity]. intros u s H.
    rewrite lookup_empty in H. discriminate.
  - assert (userSockets (presence h) !! s = None) as Hfresh'.
    { apply not_elem_of_dom. rewrite IH3. by apply not_elem_of_dom. }
    split; [|split].
    + intros u' s' H. destruct (decide (u = u')) as [->|Hne].
      * rewrite lookup_insert_eq in H. injection H as <-.
        rewrite !lookup_insert_eq. split; [reflexivity|by eexists].
      * rewrite lookup_insert_ne in H by done.
        destruct (IH1 u' s' H) as [H1 H2].
        assert (s <> s') as Hss by congruence.
        rewrite !lookup_insert_ne by done. by split.
    + rewrite !dom_insert_L. by rewrite IH2.
    + rewrite !dom_insert_L. by rewrite IH3.
  - split; [|split].
    + intros u' s' H. destruct (decide (u = u')) as [->|Hne].
      * rewrite lookup_delete_eq in H. discriminate.
      * rewrite lookup_delete_ne in H by done.
        destruct (IH1 u' s' H) as [H1 H2].
        assert (s <> s') as Hss by congruence.
        rewrite !lookup_delete_ne by done. by split.
    + rewrite !dom_delete_L. by rewrite IH2.
    + rewrite !dom_delete_L. by rewrite IH3.
  - split; [|split].
    + intros u' s' H. destruct (IH1 u' s' H) as [H1 H2].
      split; [exact H1|]. rewrite lookup_alter.
      case_decide; [subst; by apply fmap_is_Some|exact H2].
    + rewrite dom_alter_L. exact IH2.
    + rewrite dom_alter_L. exact IH3.
  - split; [|split].
    + intros u' s' H. destruct (IH1 u' s' H) as [H1 H2].
      split; [exact H1|]. rewrite lookup_alter.
      case_decide; [subst; by apply fmap_is_Some|exact H2].
    + rewrite dom_alter_L. exact IH2.
    + rewrite dom_alter_L. exact IH3.
Qed.

Lemma online_means_connected_example :
  reachable (Rooms.connection "sock1" alice Rooms.start).1 /\
  userSockets (presence (Rooms.connection "sock1" alice Rooms.start).1)
    !! "sock1" = Some alice.
Proof.
  assert (reachable (Rooms.connection "sock1" alice Rooms.start).1) as Hr.
  { apply reach_connection; [apply reach_start|reflexivity]. }
  split; [exact Hr|].
  apply (proj1 (online_means_connected _ Hr) alice "sock1").
  vm_compute. reflexivity.
Defined.

Lemma Hub_eq (h : Hub) (ur : gmap string (gset string))
    (j : gmap string (gset string)) :
  ur = userRooms (presence h) -> j = joined h ->
  mkHub (mkPresence (onlineUsers (presence h)) (userSockets (presence h)) ur) j
  = h.
Proof. intros -> ->. by destruct h as [[? ? ?] ?]. Qed.

(** X2. Joining a room twice is joining it once; leaving a room the socket
    and its user are not recorded in changes nothing, and leaving such a
    room right after joining it gives the state back. *)
Theorem joinRoom_idempotent_leaveRoom_undoes (h : Hub) (s u r : string) :
  (forall rooms, joined h !! s = Some rooms -> r ∉ rooms) ->
  (forall rooms, userRooms (presence h) !! u = Some rooms -> r ∉ rooms) ->
  Rooms.joinRoom s u r (Rooms.joinRoom s u r h) = Rooms.joinRoom s u r h /\
  Rooms.leaveRoom s u r (Rooms.joinRoom s u r h) = h /\
  Rooms.leaveRoom s u r h = h.
Proof.
  intros Hj Hu.
  assert (forall (k : string) (m : gmap string (gset string)),
            alter (fun rooms => rooms ∪ {[r]}) k
              (alter (fun rooms => rooms ∪ {[r]}) k m) =
            alter (fun rooms => rooms ∪ {[r]}) k m) as Hidem.
  { intros k m. rewrite alter_alter_eq. apply alter_ext.
    intros x _. simpl. by rewrite <- (assoc_L (∪)), (idemp_L (∪)). }
  assert (forall (k : string) (m : gmap string (gset string)),
            (forall rooms, m !! k = Some rooms -> r ∉ rooms) ->
            alter (fun rooms => rooms ∖ {[r]}) k
              (alter (fun rooms => rooms ∪ {[r]}) k m) = m) as Hundo.
  { intros k m Hm. rewrite alter_alter_eq. apply alter_id.
    intros x Hx. simpl. specialize (Hm x Hx).
    apply set_eq. intros y. rewrite elem_of_difference, elem_of_union,
      elem_of_singleton. split; [tauto|]. intros Hy. split; [by left|].
    intros ->. contradiction. }
  assert (forall (k : string) (m : gmap string (gset string)),
            (forall rooms, m !! k = Some rooms -> r ∉ rooms) ->
            alter (fun rooms => rooms ∖ {[r]}) k m = m) as Hnop.
  { intros k m Hm. apply alter_id.
    intros x Hx. specialize (Hm x Hx).
    apply set_eq. intros y. rewrite elem_of_difference, elem_of_singleton.
    split; [tauto|]. intros Hy. split; [exact Hy|].
    intros ->. contradiction. }
  split; [|split].
  - unfold Rooms.joinRoom. simpl. by rewrite !Hidem.
  - unfold Rooms.leaveRoom, Rooms.joinRoom. simpl.
    apply Hub_eq; by apply Hundo.
  - unfold Rooms.leaveRoom. apply Hub_eq; by apply Hnop.
Qed.

Lemma joinRoom_leaveRoom_example :
  let h := (Rooms.connection "sock1" alice Rooms.start).1 in
  Rooms.joinRoom "sock1" alice "chat_a_b" (Rooms.joinRoom "sock1" alice "chat_a_b" h)
    = Rooms.joinRoom "sock1" alice "chat_a_b" h /\
  Rooms.leaveRoom "sock1" alice "chat_a_b" (Rooms.joinRoom "sock1" alice "chat_a_b" h)
    = h /\
  Rooms.leaveRoom "sock1" alice "chat_a_b" h = h.
Proof.
  intros h.
  apply (joinRoom_idempotent_leaveRoom_undoes h "sock1" alice "chat_a_b").
  - intros rooms Hr. subst h. simpl in Hr. rewrite lookup_insert_eq in Hr.
    injection Hr as <-. rewrite elem_of_singleton. discriminate.
  - intros rooms Hr. subst h. simpl in Hr. rewrite lookup_insert_eq in Hr.
    injection Hr as <-. apply not_elem_of_empty.
Defined.

(** X3. The rooms are recorded per user but joined per socket. When a
    second socket of a user connects, the record of the user's rooms is
    emptied although the first socket stays in its room; when that second
    socket disconnects the record is gone and the user is reported
    offline, the first socket is still in its room, and a room it joins
    from then on is joined but not recorded. *)
Theorem room_record_is_per_user (h : Hub) (u s1 s2 r r' : string) :
  s1 <> s2 ->
  let h1 := Rooms.joinRoom s1 u r (Rooms.connection s1 u h).1 in
  let h2 := (Rooms.connection s2 u h1).1 in
  let h3 := (Rooms.disconnect s2 u h2).1 in
  let h4 := Rooms.joinRoom s1 u r' h3 in
  userRooms (presence h1) !! u = Some {[r]} /\
  userRooms (presence h2) !! u = Some ∅ /\
  s1 ∈ Rooms.members h2 r /\
  userRooms (presence h4) !! u = None /\
  Live.isUserOnline (presence h4) u = false /\
  s1 ∈ Rooms.members h4 r /\
  s1 ∈ Rooms.members h4 r'.
Proof.
  intros Hne h1 h2 h3 h4.
  assert (joined h4 !! s1 = Some (({[s1]} ∪ {[r]}) ∪ {[r']})) as Hj4.
  { unfold h4, h3, h2, h1. simpl.
    rewrite lookup_alter, decide_True by done.
    rewrite lookup_delete_ne by done. rewrite lookup_insert_ne by done.
    rewrite lookup_alter, decide_True by done.
    by rewrite lookup_insert_eq. }
  repeat split.
  - unfold h1. simpl. rewrite lookup_alter, decide_True by done.
    rewrite lookup_insert_eq. simpl. f_equal. apply union_empty_l_L.
  - unfold h2. simpl. apply lookup_insert_eq.
  - apply elem_of_members. exists ({[s1]} ∪ {[r]}).
    split; [|apply elem_of_union_r; by apply elem_of_singleton].
    unfold h2, h1. simpl. rewrite lookup_insert_ne by done.
    rewrite lookup_alter, decide_True by done.
    by rewrite lookup_insert_eq.
  - unfold h4, h3. simpl. rewrite lookup_alter, decide_True by done.
    by rewrite lookup_delete_eq.
  - unfold Live.isUserOnline. apply bool_decide_eq_false.
    unfold h4, h3. simpl. rewrite lookup_delete_eq. by intros [x Hx].
  - apply elem_of_members. exists (({[s1]} ∪ {[r]}) ∪ {[r']}).
    split; [exact Hj4|].
    apply elem_of_union_l, elem_of_union_r. by apply elem_of_singleton.
  - apply elem_of_members. exists (({[s1]} ∪ {[r]}) ∪ {[r']}).
    split; [exact Hj4|].
    apply elem_of_union_r. by apply elem_of_singleton.
Qed.

Lemma room_record_is_per_user_example :
  let h1 := Rooms.joinRoom "sock1" alice "chat_a_b"
              (Rooms.connection "sock1" alice Rooms.start).1 in
  let h2 := (Rooms.connection "sock2" alice h1).1 in
  let h3 := (Rooms.disconnect "sock2" alice h2).1 in
  let h4 := Rooms.joinRoom "sock1" alice "chat_a_c" h3 in
  userRooms (presence h1) !! alice = Some {[ "chat_a_b" ]} /\
  userRooms (presence h2) !! alice = Some ∅ /\
  "sock1" ∈ Rooms.members h2 "chat_a_b" /\
  userRooms (presence h4) !! alice = None /\
  Live.isUserOnline (presence h4) alice = false /\
  "sock1" ∈ Rooms.members h4 "chat_a_b" /\
  "sock1" ∈ Rooms.members h4 "chat_a_c".
Proof.
  apply (room_record_is_per_user Rooms.start alice "sock1" "sock2"
           "chat_a_b" "chat_a_c").
  discriminate.
Defined.

(* --------------------------------------------------------------------- *)
(** ** Who receives the events of a room *)
(* --------------------------------------------------------------------- *)

Lemma sendMessage_delivered (E : env) (socketId userId : string)
    (p : Live.SendPayload) (d : DB) :
  Schema.validateContent (Live.p_content p) = None ->
  fault E = None ->
  is_Some (users d !! userId) ->
  is_Some (users d !! Live.p_recipient p) ->
  let m := Model.build E (Live.messageInput E userId p) in
  let data := NewMessageData
                (mkMessageData (_id m) userId (Live.p_recipient p) (content m)
                   (createdAt m) (read m) (updatedAt m)) in
  (run (Live.sendMessage E socketId userId p) d).2 =
    mkWorld (mkDB (messages d ++ [m]) (users d))
      [Stored m;
       Emitted (ToRoom (createRoomId userId (Live.p_recipient p))
                  "newMessage" data);
       Emitted (ToSocket socketId "messageSent" data)].
Proof.
  intros Hv Hf Hs Hr m data.
  assert (rejection E (Live.messageInput E userId p) = None) as R.
  { unfold rejection. simpl. by rewrite Hv. }
  pose proof (sendMessage_outcome E socketId userId p d) as H.
  destruct H as [e R' | m' R' -> Hu | m' data' R' -> Hs' Hr' ->].
  - congruence.
  - destruct Hu as [Hu|Hu]; rewrite Hu in *; by destruct Hs, Hr.
  - reflexivity.
Qed.

(** X4. [joinRoom] takes any room id from any socket. A connected socket
    that has joined the room of two users, whoever its own user is, is
    among the receivers of the [newMessage] of every delivered message
    between the two, and of the typing signals another socket sends into
    that room; the sending socket itself never receives its own typing
    signal. *)
Theorem room_events_reach_whoever_joined (E : env) (h : Hub) (d : DB)
    (a b c sa sc text : string) (timestamp : option Z) :
  is_Some (joined h !! sc) ->
  sa <> sc ->
  Schema.validateContent text = None ->
  fault E = None ->
  is_Some (users d !! a) ->
  is_Some (users d !! b) ->
  let room := createRoomId a b in
  let h' := Rooms.joinRoom sc c room h in
  let w := (run (Live.sendMessage E sa a (Live.mkSend b text timestamp)) d).2 in
  (exists data,
     trace w !! 1%nat = Some (Emitted (ToRoom room "newMessage" data)) /\
     sc ∈ Rooms.receivers h' (ToRoom room "newMessage" data)) /\
  (forall r, In r (Rooms.typing sa a room b ++ Rooms.stopTyping sa a room b) ->
     sc ∈ Rooms.relayReceivers h' r /\ sa ∉ Rooms.relayReceivers h' r).
Proof.
  intros [rooms Hsc] Hne Hv Hf Ha Hb room h' w.
  assert (sc ∈ Rooms.members h' room) as Hmem.
  { apply elem_of_members. exists (rooms ∪ {[room]}). split.
    - unfold h'. simpl. rewrite lookup_alter, decide_True by done.
      by rewrite Hsc.
    - apply elem_of_union_r. by apply elem_of_singleton. }
  split.
  - unfold w.
    rewrite (sendMessage_delivered E sa a (Live.mkSend b text timestamp) d
               Hv Hf Ha Hb).
    eexists. split; [reflexivity|exact Hmem].
  - intros r [<-|[<-|[]]]; simpl; split.
    + apply elem_of_difference. split; [exact Hmem|].
      rewrite elem_of_singleton. congruence.
    + rewrite elem_of_difference, elem_of_singleton. intros [_ H]. by apply H.
    + apply elem_of_difference. split; [exact Hmem|].
      rewrite elem_of_singleton. congruence.
    + rewrite elem_of_difference, elem_of_singleton. intros [_ H]. by apply H.
Qed.

Lemma room_events_reach_whoever_joined_example :
  let h := (Rooms.connection "sock3" carol Rooms.start).1 in
  let room := createRoomId alice bob in
  let h' := Rooms.joinRoom "sock3" carol room h in
  let w := (run (Live.sendMessage clock "sock1" alice
                   (Live.mkSend bob "hello" None)) friends).2 in
  (exists data,
     trace w !! 1%nat = Some (Emitted (ToRoom room "newMessage" data)) /\
     "sock3" ∈ Rooms.receivers h' (ToRoom room "newMessage" data)) /\
  (forall r, In r (Rooms.typing "sock1" alice room bob
                   ++ Rooms.stopTyping "sock1" alice room bob) ->
     "sock3" ∈ Rooms.relayReceivers h' r /\
     "sock1" ∉ Rooms.relayReceivers h' r).
Proof.
  apply (room_events_reach_whoever_joined clock
           (Rooms.connection "sock3" carol Rooms.start).1 friends
           alice bob carol "sock1" "sock3" "hello" None).
  - simpl. rewrite lookup_insert_eq. by eexists.
  - discriminate.
  - reflexivity.
  - reflexivity.
  - vm_compute. by eexists.
  - vm_compute. by eexists.
Defined.




(* --------------------------------------------------------------------- *)
(** ** Unread counts across the chat routes *)
(* --------------------------------------------------------------------- *)

Lemma list_sum_Permutation (l1 l2 : list nat) :
  Permutation l1 l2 -> list_sum l1 = list_sum l2.
Proof. induction 1; simpl; lia. Qed.

Lemma list_sum_map_add {A} (f g : A -> nat) (l : list A) :
  list_sum (List.map (fun x => (f x + g x)%nat) l) =
  (list_sum (List.map f l) + list_sum (List.map g l))%nat.
Proof. induction l as [|x l IH]; simpl; lia. Qed.

Lemma list_sum_map_zero {A} (f : A -> nat) (l : list A) :
  (forall x, In x l -> f x = 0%nat) -> list_sum (List.map f l) = 0%nat.
Proof.
  induction l as [|x l IH]; simpl; [reflexivity|]. intros H.
  rewrite (H x) by (by left). rewrite IH; [reflexivity|]. intros y Hy.
  apply H. by right.
Qed.

(** One message counts for at most one partner. *)
Lemma unread_indicator_sum (me : string) (m : Message) (ps : list string) :
  List.NoDup ps ->
  list_sum (List.map (fun p => if Chat.unreadFrom p me m then 1%nat else 0%nat) ps)
  = if existsb (eqs (sender m)) ps && eqs (recipient m) me && negb (read m)
    then 1%nat else 0%nat.
Proof.
  induction 1 as [|p ps Hp Hnd IH]; simpl; [reflexivity|].
  rewrite IH. unfold Chat.unreadFrom.
  destruct (eqs (sender m) p) eqn:Hs; simpl.
  - assert (existsb (eqs (sender m)) ps = false) as ->.
    { apply String.eqb_eq in Hs. apply not_true_is_false. intros Hex.
      apply existsb_exists in Hex as (x & Hx & Heq).
      apply String.eqb_eq in Heq. congruence. }
    simpl. destruct (eqs (recipient m) me && negb (read m)); reflexivity.
  - destruct (existsb (eqs (sender m)) ps && eqs (recipient m) me
              && negb (read m)); reflexivity.
Qed.

Lemma unread_partition (me : string) (ps : list string) (l : list Message) :
  List.NoDup ps -> ~ In me ps ->
  (forall m, In m l -> recipient m = me -> sender m <> me -> In (sender m) ps) ->
  length (List.filter (fun m => eqs (recipient m) me && negb (read m)) l) =
  (list_sum (List.map (fun p => length (List.filter (Chat.unreadFrom p me) l)) ps)
   + length (List.filter (Chat.unreadFrom me me) l))%nat.
Proof.
  intros Hnd Hme. induction l as [|m l IH]; intros Hin.
  - simpl. rewrite list_sum_map_zero; [reflexivity|done].
  - assert (forall q : Message -> bool,
              length (List.filter q (m :: l)) =
              ((if q m then 1 else 0) + length (List.filter q l))%nat) as Hcons.
    { intros q. simpl. destruct (q m); reflexivity. }
    rewrite (Hcons (fun m => eqs (recipient m) me && negb (read m))).
    rewrite (Hcons (Chat.unreadFrom me me)).
    rewrite (List.map_ext _
               (fun p => ((if Chat.unreadFrom p me m then 1 else 0)
                          + length (List.filter (Chat.unreadFrom p me) l))%nat))
      by (intros p; apply Hcons).
    rewrite list_sum_map_add, (unread_indicator_sum me m ps Hnd).
    rewrite IH by (intros x Hx; apply Hin; by right).
    assert ((if eqs (recipient m) me && negb (read m) then 1 else 0)%nat =
            ((if existsb (eqs (sender m)) ps && eqs (recipient m) me
                 && negb (read m) then 1 else 0)
             + (if Chat.unreadFrom me me m then 1 else 0))%nat) as ->; [|lia].
    unfold Chat.unreadFrom.
    destruct (eqs (recipient m) me) eqn:Hr; simpl;
      [|by rewrite !andb_false_r].
    destruct (read m); simpl; [by rewrite !andb_false_r|].
    rewrite !andb_true_r.
    destruct (eqs (sender m) me) eqn:Hs.
    + assert (existsb (eqs (sender m)) ps = false) as ->; [|reflexivity].
      apply String.eqb_eq in Hs. apply not_true_is_false. intros Hex.
      apply existsb_exists in Hex as (x & Hx & Heq).
      apply String.eqb_eq in Heq. congruence.
    + assert (existsb (eqs (sender m)) ps = true) as ->; [|reflexivity].
      apply existsb_exists. exists (sender m).
      split; [|apply String.eqb_refl].
      apply Hin; [by left|by apply String.eqb_eq|by apply String.eqb_neq].
Qed.

(** X6. The unread total of GET /api/chat/unread-count is the sum of the
    unread counts of the entries of GET /api/chat/conversations, plus the
    unread messages the caller has sent to themselves, which no
    conversation shows. *)
Theorem unread_total_is_sum_of_conversations (me : string) (d : DB) :
  exists result,
    (run (Chat.conversations me) d).1 =
      Normal (mkResponse 200 (ConversationList result)) /\
    (run (Chat.unreadTotal me) d).1 =
      Normal (mkResponse 200
        (Count (list_sum (List.map unreadCount result)
                + Model.countDocuments (Chat.unreadFrom me me) d)%nat)).
Proof.
  eexists. split; [reflexivity|].
  unfold run, Chat.unreadTotal, try_catch, bind, getDB. simpl.
  do 3 f_equal.
  rewrite (list_sum_Permutation _ _
             (Permutation_map unreadCount (sort_Permutation _ _))).
  rewrite List.map_map. simpl.
  destruct (conversationPartners_spec me d) as [Hnd Hin].
  unfold Model.countDocuments, Model.find.
  apply unread_partition; [exact Hnd| |].
  - intros Hme. apply Hin in Hme as [Hme _]. by apply Hme.
  - intros m Hm Hr Hs. apply Hin. split; [exact Hs|].
    exists m. split; [exact Hm|]. right. by split.
Qed.

Lemma unread_after_replace (c id : string) (t : Z) (m : Message)
    (l : list Message) :
  List.find (fun x => eqs (_id x) id) l = Some m -> recipient m = c ->
  length (List.filter (fun x => eqs (recipient x) c && negb (read x)) l) =
  ((if read m then 0 else 1) +
   length (List.filter (fun x => eqs (recipient x) c && negb (read x))
             (Model.replace (Model.markRead t m) l)))%nat.
Proof.
  intros Hf Hr. induction l as [|x l IH]; simpl in *; [discriminate|].
  assert (_id m = id) as Hid.
  { apply (List.find_some (fun x => eqs (_id x) id) (x :: l)) in Hf as [_ Hf].
    by apply String.eqb_eq in Hf. }
  rewrite Hid. destruct (eqs (_id x) id) eqn:Hx.
  - injection Hf as ->. simpl. subst c. unfold eqs.
    rewrite !String.eqb_refl. simpl. destruct (read m); reflexivity.
  - simpl. destruct (eqs (recipient x) c && negb (read x)); simpl;
      rewrite (IH Hf); lia.
Qed.

(** X7. Marking a message as read lowers the recipient's unread total by
    one if the message was unread and leaves it as it was otherwise.
    Marking it again succeeds too: the total stays and the stored [readAt]
    becomes the time of the second call. *)
Theorem markRead_counts_once_and_restamps (E E2 : env) (c id : string)
    (d : DB) (m : Message) :
  Model.findById id d = Some m -> recipient m = c ->
  let unread := Model.countDocuments
                  (fun x => eqs (recipient x) c && negb (read x)) in
  let d1 := db (run (Chat.markRead E c id) d).2 in
  let r2 := run (Chat.markRead E2 c id) d1 in
  unread d = ((if read m then 0 else 1) + unread d1)%nat /\
  status <$> (match r2.1 with Normal r => Some r | Throw _ => None end)
    = Some 200%nat /\
  unread (db r2.2) = unread d1 /\
  exists m2, Model.findById id (db r2.2) = Some m2 /\
             readAt m2 = Some (now E2) /\ evolves m m2.
Proof.
  intros Hf Hr unread d1 r2.
  assert (d1 = Model.save (Model.markRead (now E) m) d) as Hd1.
  { unfold d1. by rewrite (markRead_run E c id d m Hf Hr). }
  destruct (findById_cast id d m Hf) as (oid & Hc & Hfo).
  assert (forall d0, Model.findById id d0 =
            List.find (fun x => eqs (_id x) oid) (messages d0)) as Hfind.
  { intros d0. unfold Model.findById. by rewrite Hc. }
  destruct (replace_found oid (now E) m (messages d) Hfo) as (Hf1 & _ & _).
  assert (Model.findById id d1 = Some (Model.markRead (now E) m)) as Hf1'.
  { rewrite Hfind, Hd1. exact Hf1. }
  assert (List.find (fun x => eqs (_id x) oid) (messages d1)
          = Some (Model.markRead (now E) m)) as Hfo1.
  { by rewrite <- Hfind. }
  assert (r2 = (Normal (mkResponse 200
                          (OneMessage (Model.markRead (now E2)
                                         (Model.markRead (now E) m)))),
                mkWorld (Model.save (Model.markRead (now E2)
                                       (Model.markRead (now E) m)) d1) []))
    as Hr2.
  { unfold r2. exact (markRead_run E2 c id d1 _ Hf1' Hr). }
  split; [|split; [|split]].
  - unfold unread, Model.countDocuments, Model.find. rewrite Hd1. simpl.
    exact (unread_after_replace c oid (now E) m (messages d) Hfo Hr).
  - rewrite Hr2. reflexivity.
  - rewrite Hr2. cbn [snd db].
    unfold unread, Model.countDocuments, Model.find. simpl.
    pose proof (unread_after_replace c oid (now E2) (Model.markRead (now E) m)
                  (messages d1) Hfo1 Hr) as H.
    simpl in H. symmetry. exact H.
  - rewrite Hr2. cbn [snd db].
    destruct (replace_found oid (now E2) (Model.markRead (now E) m)
                (messages d1) Hfo1) as (Hf2 & _ & _).
    eexists. split; [rewrite Hfind; exact Hf2|].
    split; [reflexivity|]. by repeat split.
Qed.

Lemma markRead_counts_once_example :
  let unread := Model.countDocuments
                  (fun x => eqs (recipient x) alice && negb (read x)) in
  let d1 := db (run (Chat.markRead clock alice "64c0a1b2c3d4e5f601020399")
                  unread_from_stranger).2 in
  let r2 := run (Chat.markRead later alice "64c0a1b2c3d4e5f601020399") d1 in
  unread unread_from_stranger = (1 + unread d1)%nat /\
  status <$> (match r2.1 with Normal r => Some r | Throw _ => None end)
    = Some 200%nat /\
  unread (db r2.2) = unread d1 /\
  exists m2, Model.findById "64c0a1b2c3d4e5f601020399" (db r2.2) = Some m2 /\
             readAt m2 = Some 1700000060000 /\
             evolves (mkMessage "64c0a1b2c3d4e5f601020399" bob alice "ping"
                        false None 1690000000000 1690000000000) m2.
Proof.
  apply (markRead_counts_once_and_restamps clock later alice
           "64c0a1b2c3d4e5f601020399" unread_from_stranger
           (mkMessage "64c0a1b2c3d4e5f601020399" bob alice "ping"
              false None 1690000000000 1690000000000));
    reflexivity.
Defined.

Lemma StronglySorted_app_In {A} (R : A -> A -> Prop) (l1 l2 : list A) (x y : A) :
  StronglySorted R (l1 ++ l2) -> In x l1 -> In y l2 -> R x y.
Proof.
  induction l1 as [|z l1 IH]; simpl; [tauto|].
  intros Hs [->|Hx] Hy; apply StronglySorted_inv in Hs as [Hs Hall].
  - rewrite List.Forall_forall in Hall. apply Hall, in_or_app. by right.
  - by apply IH.
Qed.

(** X8. The page GET /api/chat/messages/:userId answers is the oldest end
    of the conversation: no message it leaves out is older than one it
    returns, it leaves none out while the conversation has at most 100
    messages, and the unread messages from the partner that it leaves out
    are marked as read in the store all the same. *)
Theorem history_page_is_the_oldest_end (E : env) (A B : string) (d : DB)
    (u : User) :
  users d !! A = Some u -> In B (connections u) ->
  let r := run (Chat.getMessages E A B) d in
  exists page rest,
    r.1 = Normal (mkResponse 200 (MessageList page)) /\
    Permutation (page ++ rest) (Model.find (Chat.between A B) d) /\
    length page = Nat.min 100 (length (Model.find (Chat.between A B) d)) /\
    (forall m m', In m page -> In m' rest -> createdAt m <= createdAt m') /\
    (forall m', In m' rest -> Chat.unreadFrom B A m' = true ->
                In (Model.markRead (now E) m') (messages (db r.2))).
Proof.
  intros Hu Hin r. unfold r. rewrite (getMessages_connected E A B d u Hu Hin).
  set (all := Model.oldestFirst (Model.find (Chat.between A B) d)).
  exists (take 100 all), (drop 100 all). cbn [fst snd db].
  assert (Permutation all (Model.find (Chat.between A B) d)) as Hperm.
  { apply sort_Permutation. }
  split; [reflexivity|]. split; [by rewrite take_drop|]. split.
  { rewrite length_take. by rewrite (Permutation_length Hperm). }
  split.
  - intros m m' Hm Hm'.
    pose proof (oldestFirst_sorted (Model.find (Chat.between A B) d)) as Hs.
    fold all in Hs. rewrite <- (take_drop 100 all) in Hs.
    exact (StronglySorted_app_In _ _ _ m m' Hs Hm Hm').
  - intros m' Hm' Hunread. simpl. apply in_map_iff. exists m'.
    rewrite Hunread. split; [reflexivity|].
    assert (In m' all) as Hall.
    { rewrite <- (take_drop 100 all). apply in_or_app. by right. }
    apply (Permutation_in _ Hperm) in Hall.
    by apply filter_In in Hall as [Hall _].
Qed.

Lemma history_page_example :
  users friends !! alice = Some (mkUser "alice" [bob]) /\
  exists page rest,
    (run (Chat.getMessages clock alice bob)
       (mkDB (messages unread_from_stranger) (users friends))).1 =
      Normal (mkResponse 200 (MessageList page)) /\
    length (page ++ rest) = 1%nat.
Proof.
  assert (users friends !! alice = Some (mkUser "alice" [bob])) as Hu.
  { vm_compute. reflexivity. }
  split; [exact Hu|].
  destruct (history_page_is_the_oldest_end clock alice bob
              (mkDB (messages unread_from_stranger) (users friends))
              (mkUser "alice" [bob]) Hu (or_introl eq_refl))
    as (page & rest & H1 & H2 & _).
  exists page, rest. split; [exact H1|].
  apply (Permutation_length H2).
Defined.

(* --------------------------------------------------------------------- *)
(** ** What POST /api/chat/send writes *)
(* --------------------------------------------------------------------- *)

Lemma trimStart_head (s t : string) (c : ascii) :
  JS.trimStart s = String c t -> JS.isWhiteSpace c = false.
Proof.
  induction s as [|a s IH]; simpl; [discriminate|].
  destruct (JS.isWhiteSpace a) eqn:Ha; [exact IH|].
  intros [= <- _]. exact Ha.
Qed.

Lemma trimEnd_head (s t : string) (a c : ascii) :
  JS.trimEnd (String a s) = String c t -> c = a.
Proof.
  simpl. destruct (JS.trimEnd s); [destruct (JS.isWhiteSpace a)|];
    congruence.
Qed.

Lemma trimEnd_last (s t : string) (c : ascii) :
  JS.trimEnd s = t +:+ String c EmptyString -> JS.isWhiteSpace c = false.
Proof.
  revert t. induction s as [|a s IH]; intros t; simpl.
  - destruct t; discriminate.
  - destruct (JS.trimEnd s) as [|b r] eqn:Hs.
    + destruct (JS.isWhiteSpace a) eqn:Ha; [destruct t; discriminate|].
      destruct t as [|a' [|? ?]]; simpl; intros H; try discriminate.
      by injection H as <-.
    + destruct t as [|a' t']; simpl; intros H; [discriminate|].
      injection H as _ H. by apply (IH t').
Qed.

(** X9. POST /api/chat/send between connected users answers 201 exactly
    when the trimmed content has 1 to 5000 units and the store accepts the
    write. What it writes is one message with the trimmed content, which
    neither starts nor ends with white space, the server's clock as
    [createdAt], and [read = false]. *)
Theorem send_writes_trimmed_content (E : env) (me to text : string)
    (u : User) (d : DB) :
  users d !! me = Some u -> In to (connections u) -> fault E = None ->
  let r := run (Chat.send E me to text) d in
  (status <$> (match r.1 with Normal x => Some x | Throw _ => None end)
     = Some 201%nat <->
   (1 <= String.length (JS.trim text) <= Schema.maxlength)%nat) /\
  ((1 <= String.length (JS.trim text) <= Schema.maxlength)%nat ->
   exists m,
     r = (Normal (mkResponse 201 (OneMessage m)),
          mkWorld (mkDB (messages d ++ [m]) (users d)) [Stored m]) /\
     sender m = me /\ recipient m = to /\ content m = JS.trim text /\
     read m = false /\ readAt m = None /\ createdAt m = now E /\
     (forall c t, content m = String c t -> JS.isWhiteSpace c = false) /\
     (forall t c, content m = t +:+ String c EmptyString ->
                  JS.isWhiteSpace c = false)).
Proof.
  intros Hu Hin Hf r.
  assert ((1 <= String.length (JS.trim text) <= Schema.maxlength)%nat ->
          exists m,
            r = (Normal (mkResponse 201 (OneMessage m)),
                 mkWorld (mkDB (messages d ++ [m]) (users d)) [Stored m]) /\
            sender m = me /\ recipient m = to /\ content m = JS.trim text /\
            read m = false /\ readAt m = None /\ createdAt m = now E /\
            (forall c t, content m = String c t -> JS.isWhiteSpace c = false) /\
            (forall t c, content m = t +:+ String c EmptyString ->
                         JS.isWhiteSpace c = false)) as Hok.
  { intros [Hlo Hhi].
    assert (JS.trim text <> "") as Hne.
    { intros Heq. rewrite Heq in Hlo. simpl in Hlo. lia. }
    destruct (send_stores E me to text u d Hu Hin Hne Hhi Hf) as [Hrun _].
    eexists. split; [exact Hrun|]. simpl. repeat split.
    - intros c t Hc. unfold JS.trim in Hc.
      destruct (JS.trimStart text) as [|a s] eqn:Hs; [discriminate|].
      apply trimEnd_head in Hc as ->. exact (trimStart_head text s a Hs).
    - intros t c Hc. exact (trimEnd_last _ t c Hc). }
  split; [|exact Hok]. split.
  - intros Hst.
    destruct (Nat.eq_dec (String.length (JS.trim text)) 0%nat) as [H0|H0].
    + assert (JS.trim text = "") as Hblank.
      { destruct (JS.trim text); [reflexivity|discriminate]. }
      unfold r in Hst. rewrite (send_rejects_blank E me to text d Hblank) in Hst.
      discriminate.
    + destruct (Nat.le_gt_cases (String.length (JS.trim text)) Schema.maxlength)
        as [Hle|Hgt]; [lia|].
      unfold r in Hst. rewrite (send_too_long E me to text u d Hu Hin Hgt) in Hst.
      discriminate.
  - intros Hlen. destruct (Hok Hlen) as (m & -> & _). reflexivity.
Qed.

Lemma send_writes_trimmed_content_example :
  users friends !! alice = Some (mkUser "alice" [bob]) /\
  exists m,
    run (Chat.send clock alice bob "  hello ") friends =
      (Normal (mkResponse 201 (OneMessage m)),
       mkWorld (mkDB (messages friends ++ [m]) (users friends)) [Stored m]) /\
    content m = "hello".
Proof.
  assert (users friends !! alice = Some (mkUser "alice" [bob])) as Hu.
  { vm_compute. reflexivity. }
  split; [exact Hu|].
  destruct (send_writes_trimmed_content clock alice bob "  hello "
              (mkUser "alice" [bob]) friends Hu (or_introl eq_refl) eq_refl)
    as [_ H].
  destruct H as (m & Hrun & _ & _ & Hc & _).
  { vm_compute. split; lia. }
  exists m. split; [exact Hrun|exact Hc].
Defined.

(* --------------------------------------------------------------------- *)
(** ** Connection requests *)
(* --------------------------------------------------------------------- *)

Lemma links_sym (a b : string) (c : Connection) :
  Connections.links a b c = Connections.links b a c.
Proof. unfold Connections.links. apply orb_comm. Qed.

Lemma links_withStatus (a b : string) (s : Status) (c : Connection) :
  Connections.links a b (Connections.withStatus s c) = Connections.links a b c.
Proof. reflexivity. Qed.

Lemma status_le_refl (s : Status) : status_le s s.
Proof. by destruct s. Qed.

Lemma status_le_trans (s t u : Status) :
  status_le s t -> status_le t u -> status_le s u.
Proof. by destruct s, t, u. Qed.

Lemma conn_evolves_refl (c : Connection) : conn_evolves c c.
Proof. repeat split. apply status_le_refl. Qed.

Lemma conn_evolves_trans (c1 c2 c3 : Connection) :
  conn_evolves c1 c2 -> conn_evolves c2 c3 -> conn_evolves c1 c3.
Proof.
  intros (H1 & H2 & H3 & H4 & H5) (G1 & G2 & G3 & G4 & G5).
  repeat split; try congruence. by eapply status_le_trans.
Qed.

Lemma conn_evolves_links (a b : string) (c c' : Connection) :
  conn_evolves c c' -> Connections.links a b c' = Connections.links a b c.
Proof.
  intros (_ & H2 & H3 & _). unfold Connections.links. by rewrite H2, H3.
Qed.

(** What [updateFirst] does to each document. *)
Lemma updateFirst_Forall2 (q : Connection -> bool)
    (f : Connection -> Connection) (l : list Connection) :
  Forall2 (fun c c' => c' = c \/ q c = true /\ c' = f c)
          l (Connections.updateFirst q f l).
Proof.
  induction l as [|c l IH]; simpl; [constructor|].
  destruct (q c) eqn:Hq.
  - constructor; [by right|]. apply Forall2_same. by left.
  - constructor; [by left|exact IH].
Qed.

(** Rewriting the document that [find] has just returned. *)
Lemma updateFirst_found (q : Connection -> bool) (c0 c1 : Connection)
    (l : list Connection) :
  List.find q l = Some c0 ->
  Forall2 (fun c c' => c' = c \/ c = c0 /\ c' = c1)
          l (Connections.updateFirst q (fun _ => c1) l).
Proof.
  induction l as [|c l IH]; simpl; [discriminate|].
  destruct (q c) eqn:Hq.
  - intros [= ->]. constructor; [by right|]. apply Forall2_same. by left.
  - intros Hf. constructor; [by left|by apply IH].
Qed.

Lemma Forall2_weaken {A B} (P Q : A -> B -> Prop) (l : list A) (k : list B) :
  (forall x y, In x l -> P x y -> Q x y) -> Forall2 P l k -> Forall2 Q l k.
Proof.
  intros H HF. induction HF as [|x y l k Hxy HF IH]; constructor.
  - apply H; [by left|exact Hxy].
  - apply IH. intros x' y' Hx'. apply H. by right.
Qed.

Lemma Forall2_In_l {A B} (P : A -> B -> Prop) (l : list A) (k : list B) (x : A) :
  Forall2 P l k -> In x l -> exists y, In y k /\ P x y.
Proof.
  induction 1 as [|x' y l k Hxy HF IH]; simpl; [tauto|].
  intros [->|Hx]; [eauto|]. destruct (IH Hx) as (y' & Hy' & HP). eauto.
Qed.

Lemma Forall2_In_r {A B} (P : A -> B -> Prop) (l : list A) (k : list B) (y : B) :
  Forall2 P l k -> In y k -> exists x, In x l /\ P x y.
Proof.
  induction 1 as [|x y' l k Hxy HF IH]; simpl; [tauto|].
  intros [->|Hy]; [eauto|]. destruct (IH Hy) as (x' & Hx' & HP). eauto.
Qed.

Lemma find_id_some (id : string) (l : list Connection) (c : Connection) :
  List.find (fun x => eqs (conn_id x) id) l = Some c ->
  In c l /\ conn_id c = id.
Proof.
  intros H. apply List.find_some in H as [H1 H2]. split; [exact H1|].
  by apply String.eqb_eq.
Qed.

Lemma status_eqb_eq (s t : Status) :
  Connections.status_eqb s t = true <-> s = t.
Proof. destruct s, t; simpl; split; congruence. Qed.

(** What a call does to the connection documents: each one evolves, and at
    most a [pending] one between two users that had none is added. *)
Lemma serve_documents (c : call) (n : Network) :
  exists docs1 extra,
    connectionDocs (serve c n).1 = docs1 ++ extra /\
    Forall2 conn_evolves (connectionDocs n) docs1 /\
    Forall (fun x => conn_status x = pending /\
                     ~ linked (conn_requester x) (conn_recipient x) n) extra.
Proof.
  assert (exists docs1 extra,
            connectionDocs n = docs1 ++ extra /\
            Forall2 conn_evolves (connectionDocs n) docs1 /\
            Forall (fun x => conn_status x = pending /\
                     ~ linked (conn_requester x) (conn_recipient x) n) extra)
    as Hsame.
  { exists (connectionDocs n), []. rewrite app_nil_r.
    split; [reflexivity|]. split; [|constructor].
    apply Forall2_same, conn_evolves_refl. }
  destruct c as [E a b msg|a id|a id|a b]; simpl.
  - unfold Connections.request.
    destruct (eqs b a); [exact Hsame|].
    destruct (accounts n !! b) as [rb|]; [|exact Hsame].
    destruct (List.find (Connections.links a b) (connectionDocs n)) eqn:Hf;
      [exact Hsame|].
    destruct (Connections.validMessage msg && bool_decide (fault E = None));
      [|exact Hsame].
    simpl. exists (connectionDocs n), [mkConnection (newId E) a b pending msg].
    split; [reflexivity|]. split; [apply Forall2_same, conn_evolves_refl|].
    constructor; [|constructor]. simpl. split; [reflexivity|].
    intros (x & Hx & Hl).
    pose proof (List.find_none _ _ Hf x Hx) as Hn. simpl in Hn. congruence.
  - unfold Connections.accept.
    destruct (List.find _ (connectionDocs n)) as [c0|] eqn:Hf; [|exact Hsame].
    destruct (negb (eqs (conn_recipient c0) a)); [exact Hsame|].
    destruct (negb (Connections.status_eqb (conn_status c0) pending)) eqn:Hp;
      [exact Hsame|].
    apply negb_false_iff, status_eqb_eq in Hp.
    simpl. eexists _, []. rewrite app_nil_r. split; [reflexivity|].
    split; [|constructor].
    destruct (find_id_some _ _ _ Hf) as [_ Hid].
    rewrite Hid.
    eapply Forall2_weaken; [|apply (updateFirst_found _ c0 _ _ Hf)].
    intros x y _ [->|[-> ->]]; [apply conn_evolves_refl|].
    repeat split. rewrite Hp. exact I.
  - unfold Connections.reject.
    destruct (List.find _ (connectionDocs n)) as [c0|] eqn:Hf; [|exact Hsame].
    destruct (negb (eqs (conn_recipient c0) a)); [exact Hsame|].
    destruct (negb (Connections.status_eqb (conn_status c0) pending)) eqn:Hp;
      [exact Hsame|].
    apply negb_false_iff, status_eqb_eq in Hp.
    simpl. eexists _, []. rewrite app_nil_r. split; [reflexivity|].
    split; [|constructor].
    destruct (find_id_some _ _ _ Hf) as [_ Hid].
    rewrite Hid.
    eapply Forall2_weaken; [|apply (updateFirst_found _ c0 _ _ Hf)].
    intros x y _ [->|[-> ->]]; [apply conn_evolves_refl|].
    repeat split. rewrite Hp. exact I.
  - eexists _, []. rewrite app_nil_r. split; [reflexivity|].
    split; [|constructor].
    eapply Forall2_weaken; [|apply updateFirst_Forall2].
    intros x y _ [->|[_ ->]]; [apply conn_evolves_refl|].
    repeat split. simpl. by destruct (conn_status x).
Qed.

Lemma lookup_alter2 {A} (f g : A -> A) (i j x : string) (m : gmap string A) :
  alter f i (alter g j m) !! x =
  (if decide (i = x) then f else fun a => a)
    <$> ((if decide (j = x) then g else fun a => a) <$> m !! x).
Proof.
  rewrite lookup_alter. case_decide as Hi.
  - subst. rewrite lookup_alter. case_decide; subst; by destruct (m !! x).
  - rewrite lookup_alter. case_decide; subst; by destruct (m !! x).
Qed.

(** What a call does to the connections of a user: the user stays, and
    gains a connection only through a [pending] document between the two. *)
Lemma serve_connections (c : call) (n : Network) (x : string) (ax' : Account) :
  accounts (serve c n).1 !! x = Some ax' ->
  exists ax,
    accounts n !! x = Some ax /\
    forall y, In y (connections (user ax')) ->
              In y (connections (user ax)) \/
              exists doc, In doc (connectionDocs n) /\
                          conn_status doc = pending /\
                          Connections.links x y doc = true.
Proof.
  assert (forall ax, accounts n !! x = Some ax ->
            exists ax0, accounts n !! x = Some ax0 /\
              forall y, In y (connections (user ax)) ->
                In y (connections (user ax0)) \/
                exists doc, In doc (connectionDocs n) /\
                            conn_status doc = pending /\
                            Connections.links x y doc = true) as Hsame.
  { intros ax Hax. exists ax. split; [exact Hax|]. intros y Hy. by left. }
  destruct c as [E a b msg|a id|a id|a b]; simpl.
  - unfold Connections.request.
    destruct (eqs b a); [apply Hsame|].
    destruct (accounts n !! b) as [rb|] eqn:Hb; [|apply Hsame].
    destruct (List.find _ _); [apply Hsame|].
    destruct (_ && _); [|apply Hsame]. simpl.
    destruct (decide (b = x)) as [->|Hne].
    + rewrite lookup_insert_eq. intros [= <-]. exists rb.
      split; [exact Hb|]. intros y Hy. by left.
    + rewrite lookup_insert_ne by done. apply Hsame.
  - unfold Connections.accept.
    destruct (List.find _ (connectionDocs n)) as [c0|] eqn:Hf; [|apply Hsame].
    destruct (negb (eqs (conn_recipient c0) a)); [apply Hsame|].
    destruct (negb (Connections.status_eqb (conn_status c0) pending)) eqn:Hp;
      [apply Hsame|].
    apply negb_false_iff, status_eqb_eq in Hp.
    destruct (find_id_some _ _ _ Hf) as [Hin _].
    simpl. rewrite lookup_alter2.
    destruct (accounts n !! x) as [ax|] eqn:Hax; simpl; [|discriminate].
    intros H. exists ax. split; [reflexivity|]. intros y Hy.
    assert (In y (connections (user ax)) \/
            (conn_requester c0 = x /\ y = conn_recipient c0) \/
            (conn_recipient c0 = x /\ y = conn_requester c0)) as Hcases.
    { injection H as <-.
      destruct (decide (conn_recipient c0 = x)) as [Hc|Hc];
        destruct (decide (conn_requester c0 = x)) as [Hq|Hq];
        simpl in Hy; unfold Connections.push in Hy;
        repeat (apply in_app_or in Hy as [Hy|Hy]); simpl in Hy;
        intuition. }
    destruct Hcases as [H1|[[H1 ->]|[H1 ->]]]; [by left| |]; right;
      exists c0; (split; [exact Hin|]); (split; [exact Hp|]);
      unfold Connections.links, eqs; rewrite H1, !String.eqb_refl;
      simpl; by rewrite ?orb_true_r.
  - unfold Connections.reject.
    destruct (List.find _ (connectionDocs n)) as [c0|] eqn:Hf; [|apply Hsame].
    destruct (negb (eqs (conn_recipient c0) a)); [apply Hsame|].
    destruct (negb (Connections.status_eqb (conn_status c0) pending));
      [apply Hsame|].
    simpl. rewrite lookup_alter. case_decide; [subst|apply Hsame].
    destruct (accounts n !! conn_recipient c0) as [ax|] eqn:Hax;
      simpl; [|discriminate].
    intros [= <-]. exists ax. split; [reflexivity|]. intros y Hy. by left.
  - rewrite lookup_alter2.
    destruct (accounts n !! x) as [ax|] eqn:Hax; simpl; [|discriminate].
    intros H. exists ax. split; [reflexivity|]. intros y Hy. left.
    injection H as <-.
    destruct (decide (b = x)); destruct (decide (a = x));
      simpl in Hy; unfold Connections.pull in Hy;
      repeat (apply filter_In in Hy as [Hy _]); exact Hy.
Qed.

Lemma linked_sym (a b : string) (n : Network) : linked a b n -> linked b a n.
Proof. intros (c & Hc & Hl). exists c. by rewrite links_sym. Qed.

Lemma links_true (a b : string) (c : Connection) :
  Connections.links a b c = true ->
  conn_requester c = a /\ conn_recipient c = b \/
  conn_requester c = b /\ conn_recipient c = a.
Proof.
  unfold Connections.links, eqs.
  rewrite orb_true_iff, !andb_true_iff, !String.eqb_eq. tauto.
Qed.

Lemma request_refused_when_linked (E : env) (a b : string)
    (msg : option string) (n : Network) :
  linked a b n ->
  (Connections.request E a b msg n).1 = n /\
  r_connection (Connections.request E a b msg n).2 = None /\
  (r_status (Connections.request E a b msg n).2 = 400%nat \/
   r_status (Connections.request E a b msg n).2 = 404%nat).
Proof.
  intros (c & Hc & Hl). unfold Connections.request.
  destruct (eqs b a); [by repeat split; left|].
  destruct (accounts n !! b); [|by repeat split; right].
  destruct (List.find (Connections.links a b) (connectionDocs n)) eqn:Hf;
    [by repeat split; left|].
  pose proof (List.find_none _ _ Hf c Hc) as Hn. simpl in Hn. congruence.
Qed.

Lemma serve_estranged (c : call) (a b : string) (n : Network) :
  estranged a b n -> estranged a b (serve c n).1.
Proof.
  intros (Hl & Hrej & Ha & Hb).
  destruct (serve_documents c n) as (docs1 & extra & Hdocs & Hev & Hextra).
  split; [|split; [|split]].
  - destruct Hl as (x & Hx & Hlx).
    destruct (Forall2_In_l _ _ _ x Hev Hx) as (y & Hy & Hxy).
    exists y. split.
    + rewrite Hdocs. apply in_or_app. by left.
    + by rewrite (conn_evolves_links a b x y Hxy).
  - intros y Hy Hly. rewrite Hdocs in Hy. apply in_app_or in Hy as [Hy|Hy].
    + destruct (Forall2_In_r _ _ _ y Hev Hy) as (x & Hx & Hxy).
      rewrite (conn_evolves_links a b x y Hxy) in Hly.
      specialize (Hrej x Hx Hly). destruct Hxy as (_ & _ & _ & _ & Hle).
      rewrite Hrej in Hle. by destruct (conn_status y).
    + rewrite List.Forall_forall in Hextra.
      destruct (Hextra y Hy) as [_ Hnl]. exfalso. apply Hnl.
      destruct (links_true a b y Hly) as [[-> ->]|[-> ->]];
        [exact Hl|by apply linked_sym].
  - intros ax' Hax' Hin.
    destruct (serve_connections c n a ax' Hax') as (ax & Hax & Hgain).
    destruct (Hgain b Hin) as [Hold|(doc & Hdoc & Hp & Hld)].
    + by apply (Ha ax).
    + rewrite (Hrej doc Hdoc Hld) in Hp. discriminate.
  - intros bx' Hbx' Hin.
    destruct (serve_connections c n b bx' Hbx') as (bx & Hbx & Hgain).
    destruct (Hgain a Hin) as [Hold|(doc & Hdoc & Hp & Hld)].
    + by apply (Hb bx).
    + rewrite links_sym in Hld.
      rewrite (Hrej doc Hdoc Hld) in Hp. discriminate.
Qed.

Lemma serveAll_estranged (cs : list call) (a b : string) (n : Network) :
  estranged a b n -> estranged a b (serveAll cs n).
Proof.
  revert n. induction cs as [|c cs IH]; intros n H; simpl; [exact H|].
  apply IH. by apply serve_estranged.
Qed.

(** X10. Two users whose connection documents are all [rejected] and who
    are not in each other's connections stay so whatever requests,
    acceptances, rejections and removals follow: the document is never
    taken away, a new request between them is refused in either direction
    with nothing written, and so neither ever enters the other's
    connections again. *)
Theorem estranged_forever (cs : list call) (a b : string) (n : Network) :
  estranged a b n ->
  let n' := serveAll cs n in
  estranged a b n' /\
  forall E msg,
    (Connections.request E a b msg n').1 = n' /\
    r_connection (Connections.request E a b msg n').2 = None /\
    (Connections.request E b a msg n').1 = n' /\
    r_connection (Connections.request E b a msg n').2 = None.
Proof.
  intros H n'. pose proof (serveAll_estranged cs a b n H) as H'.
  split; [exact H'|]. intros E msg. destruct H' as (Hl & _).
  destruct (request_refused_when_linked E a b msg n' Hl) as (H1 & H2 & _).
  destruct (request_refused_when_linked E b a msg n' (linked_sym _ _ _ Hl))
    as (H3 & H4 & _).
  by repeat split.
Qed.

Lemma count_one_updateFirst (q : Connection -> bool)
    (f : Connection -> Connection) (l : list Connection) (y : Connection) :
  length (List.filter q l) = 1%nat ->
  In y (Connections.updateFirst q f l) -> q y = true ->
  exists x, In x l /\ q x = true /\ y = f x.
Proof.
  induction l as [|c l IH]; simpl; [discriminate|].
  destruct (q c) eqn:Hq; simpl.
  - intros Hlen [<-|Hy] Hqy; [exists c; split; [by left|by split]|].
    exfalso. assert (In y (List.filter q l)) as Hin.
    { apply filter_In. by split. }
    destruct (List.filter q l); [contradiction|discriminate].
  - intros Hlen [<-|Hy] Hqy; [congruence|].
    destruct (IH Hlen Hy Hqy) as (x & Hx & Hqx & ->). exists x.
    split; [by right|by split].
Qed.

Lemma remove_estranges (a b : string) (n : Network) :
  length (List.filter (Connections.links a b) (connectionDocs n)) = 1%nat ->
  estranged a b (Connections.remove a b n).1.
Proof.
  intros Hone. unfold Connections.remove, Connections.findByIdAndUpdate.
  cbn [fst accounts connectionDocs].
  split; [|split; [|split]].
  - assert (exists x, In x (connectionDocs n) /\ Connections.links a b x = true)
      as (x & Hx & Hlx).
    { destruct (List.filter (Connections.links a b) (connectionDocs n))
        as [|x l] eqn:Hf; [discriminate|].
      exists x. apply filter_In. rewrite Hf. by left. }
    destruct (Forall2_In_l _ _ _ x
                (updateFirst_Forall2 (Connections.links a b)
                   (Connections.withStatus rejected) (connectionDocs n)) Hx)
      as (y & Hy & Hxy).
    exists y. split; [exact Hy|].
    destruct Hxy as [->|[_ ->]]; [exact Hlx|by rewrite links_withStatus].
  - intros y Hy Hly. cbn [connectionDocs] in Hy.
    destruct (count_one_updateFirst _ _ _ y Hone Hy Hly) as (x & _ & _ & ->).
    reflexivity.
  - intros ax. cbn [accounts]. rewrite lookup_alter2.
    rewrite (decide_True (P := a = a)) by done.
    destruct (accounts n !! a) as [ax0|]; [|discriminate].
    destruct (decide (b = a)); cbn [fmap option_fmap option_map];
      intros [= <-]; cbn [user connections Connections.onConnections];
      unfold Connections.pull; rewrite ?filter_In; unfold eqs;
      rewrite ?negb_true_iff, ?String.eqb_neq; intuition congruence.
  - intros bx. cbn [accounts]. rewrite lookup_alter2.
    rewrite (decide_True (P := b = b)) by done.
    destruct (accounts n !! b) as [bx0|]; [|by destruct (decide (a = b))].
    destruct (decide (a = b)); cbn [fmap option_fmap option_map];
      intros [= <-]; cbn [user connections Connections.onConnections];
      unfold Connections.pull; rewrite ?filter_In; unfold eqs;
      rewrite ?negb_true_iff, ?String.eqb_neq; intuition congruence.
Qed.

Lemma serve_account_kept (c : call) (n : Network) (x : string) :
  is_Some (accounts n !! x) -> is_Some (accounts (serve c n).1 !! x).
Proof.
  intros [ax Hax]. destruct c as [E a b msg|a id|a id|a b]; simpl.
  - unfold Connections.request.
    destruct (eqs b a); [by eexists|].
    destruct (accounts n !! b) as [rb|] eqn:Hb; [|by eexists].
    destruct (List.find _ _); [by eexists|].
    destruct (_ && _); [|by eexists]. simpl.
    destruct (decide (b = x)) as [->|Hne].
    + rewrite lookup_insert_eq. by eexists.
    + rewrite lookup_insert_ne by done. by eexists.
  - unfold Connections.accept.
    destruct (List.find _ _) as [c0|]; [|by eexists].
    destruct (negb _); [by eexists|]. destruct (negb _); [by eexists|].
    simpl. rewrite lookup_alter2, !fmap_is_Some. by exists ax.
  - unfold Connections.reject.
    destruct (List.find _ _) as [c0|]; [|by eexists].
    destruct (negb _); [by eexists|]. destruct (negb _); [by eexists|].
    simpl. rewrite lookup_alter. case_decide; [subst; rewrite fmap_is_Some|];
      by exists ax.
  - simpl. rewrite lookup_alter2, !fmap_is_Some. by exists ax.
Qed.

Lemma serveAll_account_kept (cs : list call) (n : Network) (x : string) :
  is_Some (accounts n !! x) -> is_Some (accounts (serveAll cs n) !! x).
Proof.
  revert n. induction cs as [|c cs IH]; intros n H; simpl; [exact H|].
  apply IH. by apply serve_account_kept.
Qed.

Lemma estranged_forever_example :
  estranged alice bob (Connections.remove alice bob connected_pair).1 /\
  (Connections.request later bob alice None
     (Connections.remove alice bob connected_pair).1).1 =
    (Connections.remove alice bob connected_pair).1.
Proof.
  assert (estranged alice bob (Connections.remove alice bob connected_pair).1)
    as H.
  { apply remove_estranges. vm_compute. reflexivity. }
  split; [exact H|].
  exact (proj1 (proj2 (proj2
           (proj2 (estranged_forever [] alice bob _ H) later None)))).
Defined.

(** X11. DELETE /api/connections/:userId parts two users for good. When
    exactly one connection document links the two, then after the removal
    and after any calls that follow it the two are estranged, and POST
    /api/chat/send between them, in either direction, answers 403 and
    writes nothing. *)
Theorem remove_parts_for_good (cs : list call) (a b : string) (n : Network) :
  length (List.filter (Connections.links a b) (connectionDocs n)) = 1%nat ->
  is_Some (accounts n !! a) -> is_Some (accounts n !! b) ->
  let n' := serveAll cs (Connections.remove a b n).1 in
  estranged a b n' /\
  forall E msgs text,
    (eqs text "" || eqs (JS.trim text) "") = false ->
    run (Chat.send E a b text) (chatDB msgs n') =
      (Normal (mkResponse 403
                 (Failure "You can only send messages to connected users")),
       mkWorld (chatDB msgs n') []) /\
    run (Chat.send E b a text) (chatDB msgs n') =
      (Normal (mkResponse 403
                 (Failure "You can only send messages to connected users")),
       mkWorld (chatDB msgs n') []).
Proof.
  intros Hone Ha Hb n'.
  assert (estranged a b n') as Hest.
  { apply serveAll_estranged. by apply remove_estranges. }
  split; [exact Hest|]. intros E msgs text Htext.
  destruct Hest as (_ & _ & Hna & Hnb).
  assert (forall x y, is_Some (accounts n' !! x) ->
            (forall ax, accounts n' !! x = Some ax ->
                        ~ In y (connections (user ax))) ->
            run (Chat.send E x y text) (chatDB msgs n') =
              (Normal (mkResponse 403
                 (Failure "You can only send messages to connected users")),
               mkWorld (chatDB msgs n') [])) as Hsend.
  { intros x y [ax Hax] Hnot.
    apply (send_checks_connection E x y text (user ax)).
    - simpl. by rewrite lookup_fmap, Hax.
    - apply not_true_is_false. intros Hex.
      apply existsb_exists in Hex as (z & Hz & Heq).
      apply String.eqb_eq in Heq. subst z. by apply (Hnot ax Hax).
    - exact Htext. }
  split; apply Hsend; auto.
  - apply serveAll_account_kept. by apply (serve_account_kept (Remove a b)).
  - apply serveAll_account_kept. by apply (serve_account_kept (Remove a b)).
Qed.

Lemma remove_parts_for_good_example :
  let n' := serveAll [Request later bob alice None]
              (Connections.remove alice bob connected_pair).1 in
  estranged alice bob n' /\
  run (Chat.send clock alice bob "hello") (chatDB [] n') =
    (Normal (mkResponse 403
               (Failure "You can only send messages to connected users")),
     mkWorld (chatDB [] n') []).
Proof.
  intros n'.
  destruct (remove_parts_for_good [Request later bob alice None] alice bob
              connected_pair) as [H1 H2].
  - vm_compute. reflexivity.
  - vm_compute. by eexists.
  - vm_compute. by eexists.
  - split; [exact H1|]. exact (proj1 (H2 clock [] "hello" eq_refl)).
Defined.

Lemma Forall2_trans {A} (R : A -> A -> Prop) (l1 l2 l3 : list A) :
  (forall x y z, R x y -> R y z -> R x z) ->
  Forall2 R l1 l2 -> Forall2 R l2 l3 -> Forall2 R l1 l3.
Proof.
  intros Ht H12. revert l3.
  induction H12 as [|x y l1 l2 Hxy H12 IH]; intros l3 H23; inversion H23; subst;
    constructor; eauto.
Qed.

(** X12. No call ever deletes a connection document, changes who it is
    between or what it says, or moves its status back: across any sequence
    of calls every document is still there, in its place, with a status
    that has only moved on from [pending] to [accepted] to [rejected]. *)
Theorem connection_documents_only_move_on (cs : list call) (n : Network) :
  exists docs1 extra,
    connectionDocs (serveAll cs n) = docs1 ++ extra /\
    Forall2 conn_evolves (connectionDocs n) docs1.
Proof.
  revert n. induction cs as [|c cs IH]; intros n; simpl.
  - exists (connectionDocs n), []. rewrite app_nil_r. split; [reflexivity|].
    apply Forall2_same, conn_evolves_refl.
  - destruct (serve_documents c n) as (d1 & e1 & Hd1 & Hev1 & _).
    destruct (IH (serve c n).1) as (d2 & e2 & Hd2 & Hev2).
    rewrite Hd1 in Hev2.
    apply Forall2_app_inv_l in Hev2 as (k1 & k2 & Hk1 & Hk2 & ->).
    exists k1, (k2 ++ e2). split; [by rewrite Hd2, app_assoc|].
    eapply Forall2_trans; [apply conn_evolves_trans|exact Hev1|exact Hk1].
Qed.

Lemma find_updateFirst_id (id : string) (c0 c1 : Connection)
    (l : list Connection) :
  List.find (fun c => eqs (conn_id c) id) l = Some c0 ->
  conn_id c1 = id ->
  List.find (fun c => eqs (conn_id c) id)
    (Connections.updateFirst (fun c => eqs (conn_id c) id) (fun _ => c1) l)
  = Some c1.
Proof.
  intros Hf Hid. induction l as [|c l IH]; simpl in *; [discriminate|].
  destruct (eqs (conn_id c) id) eqn:Hc; simpl.
  - unfold eqs. by rewrite Hid, String.eqb_refl.
  - rewrite Hc. by apply IH.
Qed.

Lemma isConnected_true (msgs : list Message) (n : Network) (x y : string)
    (ax : Account) :
  accounts n !! x = Some ax -> In y (connections (user ax)) ->
  Chat.isConnected x y (mkWorld (chatDB msgs n) []) =
    (Normal true, mkWorld (chatDB msgs n) []).
Proof.
  intros Hax Hin. rewrite (isConnected_run x y (user ax)).
  - f_equal. f_equal. apply existsb_exists. exists y.
    split; [exact Hin|apply String.eqb_refl].
  - simpl. by rewrite lookup_fmap, Hax.
Qed.

(** X13. POST /api/connections/accept/:connectionId by the recipient of a
    pending request, both users existing: it answers 200, stores the
    document as [accepted], and from then on each of the two is among the
    connections the chat routes look up for the other. It works once: a
    second acceptance, or a rejection, of the same request answers 400 and
    changes nothing. *)
Theorem accept_connects_both_ways (me id : string) (n : Network)
    (c0 : Connection) :
  List.find (fun c => eqs (conn_id c) id) (connectionDocs n) = Some c0 ->
  conn_recipient c0 = me ->
  conn_status c0 = pending ->
  is_Some (accounts n !! conn_requester c0) ->
  is_Some (accounts n !! me) ->
  let n' := (Connections.accept me id n).1 in
  (Connections.accept me id n).2 =
    mkReply 200 "Connection accepted successfully"
            (Some (Connections.withStatus accepted c0)) /\
  List.find (fun c => eqs (conn_id c) id) (connectionDocs n') =
    Some (Connections.withStatus accepted c0) /\
  (forall msgs,
     Chat.isConnected (conn_requester c0) me (mkWorld (chatDB msgs n') []) =
       (Normal true, mkWorld (chatDB msgs n') []) /\
     Chat.isConnected me (conn_requester c0) (mkWorld (chatDB msgs n') []) =
       (Normal true, mkWorld (chatDB msgs n') [])) /\
  Connections.accept me id n' =
    (n', mkReply 400 "Connection request already processed" None) /\
  Connections.reject me id n' =
    (n', mkReply 400 "Connection request already processed" None).
Proof.
  intros Hf Hr Hp [aq Haq] [am Ham] n'.
  destruct (find_id_some _ _ _ Hf) as [Hin Hid].
  assert (Connections.accept me id n =
          (mkNetwork
             (alter (fun a => Connections.onPending
                                (Connections.pull (conn_requester c0))
                                (Connections.onConnections
                                   (Connections.push (conn_requester c0)) a))
                    me
                (alter (fun a => Connections.onPending
                                   (Connections.pull me)
                                   (Connections.onConnections
                                      (Connections.push me) a))
                       (conn_requester c0) (accounts n)))
             (Connections.updateFirst (fun c => eqs (conn_id c) id)
                (fun _ => Connections.withStatus accepted c0)
                (connectionDocs n)),
           mkReply 200 "Connection accepted successfully"
                   (Some (Connections.withStatus accepted c0)))) as Hrun.
  { unfold Connections.accept. rewrite Hf. unfold eqs at 1.
    rewrite Hr, String.eqb_refl, Hp. simpl. by rewrite Hr, Hid. }
  assert (List.find (fun c => eqs (conn_id c) id) (connectionDocs n') =
          Some (Connections.withStatus accepted c0)) as Hf'.
  { unfold n'. rewrite Hrun. simpl.
    exact (find_updateFirst_id id c0 (Connections.withStatus accepted c0) _
             Hf Hid). }
  split; [by rewrite Hrun|]. split; [exact Hf'|]. split; [|split].
  - intros msgs. split.
    + eapply isConnected_true.
      * unfold n'. rewrite Hrun. simpl. rewrite lookup_alter2, Haq.
        rewrite (decide_True (P := conn_requester c0 = conn_requester c0))
          by done.
        reflexivity.
      * destruct (decide (me = conn_requester c0)); simpl;
          unfold Connections.push; rewrite ?in_app_iff; simpl; tauto.
    + eapply isConnected_true.
      * unfold n'. rewrite Hrun. simpl. rewrite lookup_alter2, Ham.
        rewrite (decide_True (P := me = me)) by done.
        reflexivity.
      * destruct (decide (conn_requester c0 = me)); simpl;
          unfold Connections.push; rewrite ?in_app_iff; simpl; tauto.
  - unfold Connections.accept. rewrite Hf'. simpl. unfold eqs.
    by rewrite Hr, String.eqb_refl.
  - unfold Connections.reject. rewrite Hf'. simpl. unfold eqs.
    by rewrite Hr, String.eqb_refl.
Qed.

Lemma accept_connects_example :
  let n := (Connections.request clock alice bob (Some "hi") two_accounts).1 in
  let n' := (Connections.accept bob "64c0a1b2c3d4e5f601020304" n).1 in
  Chat.isConnected alice bob (mkWorld (chatDB [] n') []) =
    (Normal true, mkWorld (chatDB [] n') []) /\
  Connections.accept bob "64c0a1b2c3d4e5f601020304" n' =
    (n', mkReply 400 "Connection request already processed" None).
Proof.
  intros n n'.
  destruct (accept_connects_both_ways bob "64c0a1b2c3d4e5f601020304" n
              (mkConnection "64c0a1b2c3d4e5f601020304" alice bob pending
                 (Some "hi")))
    as (_ & _ & H3 & H4 & _).
  - vm_compute. reflexivity.
  - reflexivity.
  - reflexivity.
  - vm_compute. by eexists.
  - vm_compute. by eexists.
  - split; [exact (proj1 (H3 []))|exact H4].
Defined.

Lemma In_pull (x y : string) (l : list string) :
  In y (Connections.pull x l) <-> In y l /\ y <> x.
Proof.
  unfold Connections.pull, eqs.
  by rewrite filter_In, negb_true_iff, String.eqb_neq.
Qed.

Lemma In_push (x y : string) (l : list string) :
  In y (Connections.push x l) <-> In y l \/ y = x.
Proof.
  unfold Connections.push. rewrite in_app_iff. simpl. intuition.
Qed.

(** What a call does to the connections of every user at once, as a
    function that keeps mutual lists mutual. *)
Lemma serve_connections_exact (c : call) (n : Network) :
  exists F : string -> list string -> list string,
    (forall x,
       (fun a => connections (user a)) <$> accounts (serve c n).1 !! x =
       F x <$> ((fun a => connections (user a)) <$> accounts n !! x)) /\
    (forall x y lx ly,
       (In y lx <-> In x ly) -> (In y (F x lx) <-> In x (F y ly))).
Proof.
  assert (exists F : string -> list string -> list string,
    (forall x,
       (fun a => connections (user a)) <$> accounts n !! x =
       F x <$> ((fun a => connections (user a)) <$> accounts n !! x)) /\
    (forall x y lx ly,
       (In y lx <-> In x ly) -> (In y (F x lx) <-> In x (F y ly))))
    as Hsame.
  { exists (fun _ l => l). split; [|tauto].
    intros x. by destruct (accounts n !! x). }
  destruct c as [E a b msg|a id|a id|a b]; simpl.
  - unfold Connections.request.
    destruct (eqs b a); [exact Hsame|].
    destruct (accounts n !! b) as [rb|] eqn:Hb; [|exact Hsame].
    destruct (List.find _ _); [exact Hsame|].
    destruct (_ && _); [|exact Hsame]. simpl.
    exists (fun _ l => l). split; [|tauto]. intros x.
    destruct (decide (b = x)) as [->|Hne].
    + by rewrite lookup_insert_eq, Hb.
    + rewrite lookup_insert_ne by done. by destruct (accounts n !! x).
  - unfold Connections.accept.
    destruct (List.find _ _) as [c0|]; [|exact Hsame].
    destruct (negb _); [exact Hsame|]. destruct (negb _); [exact Hsame|].
    simpl.
    exists (fun x l =>
              (if decide (conn_recipient c0 = x)
               then Connections.push (conn_requester c0) else fun l => l)
                ((if decide (conn_requester c0 = x)
                  then Connections.push (conn_recipient c0) else fun l => l)
                   l)).
    split.
    + intros x. rewrite lookup_alter2.
      destruct (accounts n !! x) as [ax|]; [|reflexivity]. simpl.
      destruct (decide (conn_recipient c0 = x)),
               (decide (conn_requester c0 = x)); reflexivity.
    + intros x y lx ly Hxy.
      destruct (decide (conn_recipient c0 = x)),
               (decide (conn_requester c0 = x)),
               (decide (conn_recipient c0 = y)),
               (decide (conn_requester c0 = y));
        rewrite ?In_push; intuition congruence.
  - unfold Connections.reject.
    destruct (List.find _ _) as [c0|]; [|exact Hsame].
    destruct (negb _); [exact Hsame|]. destruct (negb _); [exact Hsame|].
    simpl. exists (fun _ l => l). split; [|tauto]. intros x.
    rewrite lookup_alter. case_decide; [subst|];
      by destruct (accounts n !! _).
  - exists (fun x l =>
              (if decide (b = x) then Connections.pull a else fun l => l)
                ((if decide (a = x) then Connections.pull b else fun l => l)
                   l)).
    split.
    + intros x. rewrite lookup_alter2.
      destruct (accounts n !! x) as [ax|]; [|reflexivity]. simpl.
      destruct (decide (b = x)), (decide (a = x)); reflexivity.
    + intros x y lx ly Hxy.
      destruct (decide (b = x)), (decide (a = x)),
               (decide (b = y)), (decide (a = y));
        rewrite ?In_pull; intuition congruence.
Qed.

Lemma serve_mutual (c : call) (n : Network) :
  mutual n -> mutual (serve c n).1.
Proof.
  intros Hm x y ax' ay' Hx Hy.
  destruct (serve_connections_exact c n) as (F & HF & Hsym).
  pose proof (HF x) as Hfx. pose proof (HF y) as Hfy.
  rewrite Hx in Hfx. rewrite Hy in Hfy.
  destruct (accounts n !! x) as [ax|] eqn:Hax; [|discriminate].
  destruct (accounts n !! y) as [ay|] eqn:Hay; [|discriminate].
  simpl in Hfx, Hfy. injection Hfx as ->. injection Hfy as ->.
  apply Hsym. by apply Hm.
Qed.

(** X14. The four routes keep connections mutual. If, among the users
    that exist, each is in the connections of exactly those who have them
    in theirs, this is still so after any sequence of calls; the
    connection check of the chat routes then gives the same answer for a
    pair of users in either direction. *)
Theorem connections_stay_mutual (cs : list call) (n : Network) :
  mutual n ->
  let n' := serveAll cs n in
  mutual n' /\
  forall msgs x y,
    is_Some (accounts n' !! x) -> is_Some (accounts n' !! y) ->
    (Chat.isConnected x y (mkWorld (chatDB msgs n') [])).1 =
    (Chat.isConnected y x (mkWorld (chatDB msgs n') [])).1.
Proof.
  intros Hm n'.
  assert (mutual n') as Hm'.
  { unfold n'. clear n'. revert n Hm.
    induction cs as [|c cs IH]; intros n Hm; simpl; [exact Hm|].
    apply IH. by apply serve_mutual. }
  split; [exact Hm'|]. intros msgs x y [ax Hax] [ay Hay].
  rewrite (isConnected_run x y (user ax))
    by (simpl; by rewrite lookup_fmap, Hax).
  rewrite (isConnected_run y x (user ay))
    by (simpl; by rewrite lookup_fmap, Hay).
  simpl. f_equal.
  specialize (Hm' x y ax ay Hax Hay).
  destruct (existsb (fun conn => eqs conn y) (connections (user ax))) eqn:H1;
    destruct (existsb (fun conn => eqs conn x) (connections (user ay))) eqn:H2;
    try reflexivity; exfalso.
  - apply existsb_exists in H1 as (z & Hz & Heq).
    apply String.eqb_eq in Heq. subst z. apply Hm' in Hz.
    assert (existsb (fun conn => eqs conn x) (connections (user ay)) = true)
      as H3; [|congruence].
    apply existsb_exists. exists x. split; [exact Hz|apply String.eqb_refl].
  - apply existsb_exists in H2 as (z & Hz & Heq).
    apply String.eqb_eq in Heq. subst z. apply Hm' in Hz.
    assert (existsb (fun conn => eqs conn y) (connections (user ax)) = true)
      as H3; [|congruence].
    apply existsb_exists. exists y. split; [exact Hz|apply String.eqb_refl].
Qed.

Lemma connections_stay_mutual_example :
  mutual two_accounts /\
  mutual (serveAll [Request clock alice bob (Some "hi");
                    Accept bob "64c0a1b2c3d4e5f601020304"] two_accounts).
Proof.
  assert (mutual two_accounts) as Hm.
  { intros x y ax ay Hx Hy. unfold two_accounts in *. simpl in *.
    apply lookup_insert_Some in Hx as [[_ <-]|[_ Hx]];
      [|apply lookup_insert_Some in Hx as [[_ <-]|[_ Hx]];
        [|rewrite lookup_empty in Hx; discriminate]];
      (apply lookup_insert_Some in Hy as [[_ <-]|[_ Hy]];
       [|apply lookup_insert_Some in Hy as [[_ <-]|[_ Hy]];
         [|rewrite lookup_empty in Hy; discriminate]]);
      simpl; tauto. }
  split; [exact Hm|].
  exact (proj1 (connections_stay_mutual _ two_accounts Hm)).
Defined.

(** X15. POST /api/connections/request towards an existing other user with
    whom the caller has no connection document: it answers 201, appends a
    [pending] document, and adds the caller at the end of the recipient's
    [pendingRequests], touching no other user. A message of more than 500
    units is answered 500 with nothing written. After the request, a new
    one between the two, from either side, writes nothing. *)
Theorem request_once_per_pair (E E2 : env) (a b : string)
    (msg msg2 : option string) (n : Network) (rb : Account) :
  a <> b ->
  accounts n !! b = Some rb ->
  ~ linked a b n ->
  Connections.validMessage msg = true ->
  fault E = None ->
  let n' := (Connections.request E a b msg n).1 in
  let c := mkConnection (newId E) a b pending msg in
  (Connections.request E a b msg n).2 =
    mkReply 201 "Connection request sent successfully" (Some c) /\
  connectionDocs n' = connectionDocs n ++ [c] /\
  accounts n' !! b = Some (mkAccount (user rb) (pendingRequests rb ++ [a])) /\
  (forall x, x <> b -> accounts n' !! x = accounts n !! x) /\
  (forall long, Connections.validMessage long = false ->
     Connections.request E a b long n =
       (n, mkReply 500 "Error sending connection request" None)) /\
  (Connections.request E2 a b msg2 n').1 = n' /\
  (Connections.request E2 b a msg2 n').1 = n'.
Proof.
  intros Hne Hb Hnl Hv Hf n' c.
  assert (List.find (Connections.links a b) (connectionDocs n) = None) as Hfind.
  { destruct (List.find _ _) as [x|] eqn:Hx; [|reflexivity].
    exfalso. apply Hnl. apply List.find_some in Hx as [H1 H2]. by exists x. }
  assert (eqs b a = false) as Hba.
  { apply String.eqb_neq. congruence. }
  assert (Connections.request E a b msg n =
          (mkNetwork (<[b := Connections.onPending (Connections.push a) rb]>
                        (accounts n))
                     (connectionDocs n ++ [c]),
           mkReply 201 "Connection request sent successfully" (Some c)))
    as Hrun.
  { unfold Connections.request. rewrite Hba, Hb, Hfind, Hv, Hf. reflexivity. }
  assert (linked a b n') as Hl.
  { exists c. unfold n'. rewrite Hrun. simpl. split.
    - apply in_or_app. right. by left.
    - unfold Connections.links, eqs. simpl. by rewrite !String.eqb_refl. }
  split; [by rewrite Hrun|]. split; [unfold n'; by rewrite Hrun|].
  split; [unfold n'; rewrite Hrun; simpl; apply lookup_insert_eq|].
  split.
  { intros x Hx. unfold n'. rewrite Hrun. simpl.
    by rewrite lookup_insert_ne by done. }
  split.
  { intros long Hlong. unfold Connections.request.
    by rewrite Hba, Hb, Hfind, Hlong. }
  split.
  - apply (request_refused_when_linked E2 a b msg2 n' Hl).
  - apply (request_refused_when_linked E2 b a msg2 n' (linked_sym _ _ _ Hl)).
Qed.

Lemma request_once_example :
  let n' := (Connections.request clock alice bob (Some "hi") two_accounts).1 in
  connectionDocs n' =
    [mkConnection "64c0a1b2c3d4e5f601020304" alice bob pending (Some "hi")] /\
  (Connections.request later bob alice None n').1 = n'.
Proof.
  intros n'.
  destruct (request_once_per_pair clock later alice bob (Some "hi") None
              two_accounts (mkAccount (mkUser "bob" []) []))
    as (_ & H2 & _ & _ & _ & _ & H7).
  - discriminate.
  - vm_compute. reflexivity.
  - intros (x & [] & _).
  - reflexivity.
  - reflexivity.
  - split; [exact H2|exact H7].
Defined.

Lemma count_one_update_found (p q : Connection -> bool) (c0 c1 : Connection)
    (l : list Connection) (y : Connection) :
  length (List.filter q l) = 1%nat ->
  List.find p l = Some c0 -> q c0 = true ->
  In y (Connections.updateFirst p (fun _ => c1) l) -> q y = true -> y = c1.
Proof.
  induction l as [|c l IH]; simpl; [discriminate|].
  destruct (p c) eqn:Hp.
  - intros Hlen [= ->] Hq0 [<-|Hy] Hqy; [reflexivity|].
    rewrite Hq0 in Hlen. simpl in Hlen.
    assert (In y (List.filter q l)) as Hin by (apply filter_In; by split).
    destruct (List.filter q l); [contradiction|discriminate].
  - intros Hlen Hf Hq0 [<-|Hy] Hqy.
    + rewrite Hqy in Hlen. simpl in Hlen.
      apply List.find_some in Hf as [Hin0 _].
      assert (In c0 (List.filter q l)) as Hin by (apply filter_In; by split).
      destruct (List.filter q l); [contradiction|discriminate].
    + destruct (q c) eqn:Hqc; [|by apply IH].
      simpl in Hlen. apply List.find_some in Hf as [Hin0 _].
      assert (In c0 (List.filter q l)) as Hin by (apply filter_In; by split).
      destruct (List.filter q l); [contradiction|discriminate].
Qed.

(** X16. POST /api/connections/reject/:connectionId is final. When the
    recipient rejects the one request there is between the two, and the
    two are not in each other's connections, then after the rejection and
    after any calls that follow it the two are estranged: the requester's
    id is out of the recipient's [pendingRequests], no request between
    them is ever accepted again, and neither ever enters the connections
    of the other. *)
Theorem reject_is_final (cs : list call) (me id : string) (n : Network)
    (c0 : Connection) :
  List.find (fun c => eqs (conn_id c) id) (connectionDocs n) = Some c0 ->
  conn_recipient c0 = me ->
  conn_status c0 = pending ->
  length (List.filter (Connections.links (conn_requester c0) me)
            (connectionDocs n)) = 1%nat ->
  (forall ax, accounts n !! conn_requester c0 = Some ax ->
              ~ In me (connections (user ax))) ->
  (forall am, accounts n !! me = Some am ->
              ~ In (conn_requester c0) (connections (user am))) ->
  let n1 := (Connections.reject me id n).1 in
  (Connections.reject me id n).2 =
    mkReply 200 "Connection rejected"
            (Some (Connections.withStatus rejected c0)) /\
  (forall am, accounts n1 !! me = Some am ->
              ~ In (conn_requester c0) (pendingRequests am)) /\
  estranged (conn_requester c0) me (serveAll cs n1).
Proof.
  intros Hf Hr Hp Hone Hna Hnm n1.
  destruct (find_id_some _ _ _ Hf) as [Hin Hid].
  assert (Connections.links (conn_requester c0) me c0 = true) as Hl0.
  { unfold Connections.links, eqs. by rewrite Hr, !String.eqb_refl. }
  assert (Connections.reject me id n =
          (mkNetwork
             (alter (Connections.onPending
                       (Connections.pull (conn_requester c0)))
                    me (accounts n))
             (Connections.updateFirst (fun c => eqs (conn_id c) id)
                (fun _ => Connections.withStatus rejected c0)
                (connectionDocs n)),
           mkReply 200 "Connection rejected"
                   (Some (Connections.withStatus rejected c0)))) as Hrun.
  { unfold Connections.reject. rewrite Hf. unfold eqs at 1.
    rewrite Hr, String.eqb_refl, Hp. simpl. by rewrite Hr, Hid. }
  split; [by rewrite Hrun|]. split.
  - intros am. unfold n1. rewrite Hrun. simpl. rewrite lookup_alter_eq.
    destruct (accounts n !! me) as [am0|]; simpl; [|discriminate].
    intros [= <-]. simpl. rewrite In_pull. tauto.
  - apply serveAll_estranged. unfold n1. rewrite Hrun.
    split; [|split; [|split]]; simpl.
    + exists (Connections.withStatus rejected c0). split; [|exact Hl0].
      destruct (Forall2_In_l _ _ _ c0
                  (updateFirst_found _ c0
                     (Connections.withStatus rejected c0) _ Hf) Hin)
        as (y & Hy & [->|[_ ->]]); [|exact Hy].
      exfalso.
      pose proof (count_one_update_found _ _ c0
                    (Connections.withStatus rejected c0) _ c0
                    Hone Hf Hl0 Hy Hl0) as Heq.
      rewrite Heq in Hp. discriminate.
    + intros y Hy Hly.
      by rewrite (count_one_update_found _ _ c0
                    (Connections.withStatus rejected c0) _ y
                    Hone Hf Hl0 Hy Hly).
    + intros ax. rewrite lookup_alter.
      case_decide as Hd; [|apply Hna].
      rewrite <- Hd. destruct (accounts n !! me) as [am0|] eqn:Ham;
        simpl; [|discriminate].
      intros [= <-]. simpl. intros Hbad. apply (Hnm am0 eq_refl). congruence.
    + intros am. rewrite lookup_alter_eq.
      destruct (accounts n !! me) as [am0|] eqn:Ham; simpl; [|discriminate].
      intros [= <-]. simpl. by apply (Hnm am0).
Qed.

Lemma reject_is_final_example :
  let n := (Connections.request clock alice bob (Some "hi") two_accounts).1 in
  let n1 := (Connections.reject bob "64c0a1b2c3d4e5f601020304" n).1 in
  estranged alice bob
    (serveAll [Request later alice bob None;
               Accept bob "64c0a1b2c3d4e5f601020304"] n1).
Proof.
  intros n n1.
  apply (reject_is_final _ bob "64c0a1b2c3d4e5f601020304" n
           (mkConnection "64c0a1b2c3d4e5f601020304" alice bob pending
              (Some "hi"))).
  - vm_compute. reflexivity.
  - reflexivity.
  - reflexivity.
  - vm_compute. reflexivity.
  - intros ax Hax. vm_compute in Hax. injection Hax as <-. simpl. tauto.
  - intros am Ham. vm_compute in Ham. injection Ham as <-. simpl. tauto.
Defined.

(* --------------------------------------------------------------------- *)
(** ** Who gets in: the two middlewares *)
(* --------------------------------------------------------------------- *)

Lemma startsWith_app (pat t : string) : Str.startsWith pat (pat +:+ t) = true.
Proof.
  induction pat as [|c pat IH]; simpl; [reflexivity|].
  by rewrite Ascii.eqb_refl, IH.
Qed.

Lemma dropN_app (pat t : string) : Str.dropN (String.length pat) (pat +:+ t) = t.
Proof. induction pat as [|c pat IH]; simpl; [by destruct t|exact IH]. Qed.

Lemma replace_prefix (pat rep t : string) :
  Str.replace pat rep (pat +:+ t) = rep +:+ t.
Proof.
  destruct pat as [|c pat].
  - simpl. destruct t; reflexivity.
  - change (Str.replace (String c pat) rep (String c pat +:+ t))
      with (if Str.startsWith (String c pat) (String c pat +:+ t)
            then rep +:+ Str.dropN (String.length (String c pat))
                           (String c pat +:+ t)
            else String c (Str.replace (String c pat) rep (pat +:+ t))).
    by rewrite startsWith_app, dropN_app.
Qed.

Lemma replace_absent (pat rep s : string) :
  Str.occurs pat s = false -> Str.replace pat rep s = s.
Proof.
  induction s as [|c s IH]; simpl.
  - destruct (Str.startsWith pat ""); [discriminate|reflexivity].
  - destruct (Str.startsWith pat (String c s)); simpl; [discriminate|].
    intros H. by rewrite IH.
Qed.

Lemma orElse_nonempty (s : string) (b : option string) :
  s <> "" -> Auth.orElse (Some s) b = Some s.
Proof.
  intros H. unfold Auth.orElse, eqs.
  by rewrite (proj2 (String.eqb_neq s "") H).
Qed.

(** X17. A token that verifies under the configured secret and names a
    user is let in by the socket middleware as that user whatever the
    users collection says; the HTTP middleware, given the same token as a
    Bearer header, goes on exactly when that user exists and is active,
    and answers 401 otherwise. A deleted or deactivated user keeps the
    live channel. *)
Theorem socket_lets_in_whom_http_refuses
    (verify : string -> string -> option Claims)
    (secret token u : string) (claims : Claims) (isActive : gmap string bool) :
  secret <> "" -> token <> "" -> u <> "" ->
  verify token secret = Some claims ->
  claim_userId claims = Some u ->
  Auth.handshake verify (Some secret) (Some token) =
    LetIn (Some u)
             (Auth.orElse (claim_type claims) (claim_userType claims)) /\
  (Auth.auth verify (Some secret) (Some ("Bearer " +:+ token)) isActive = Next u
   <-> isActive !! u = Some true) /\
  (isActive !! u <> Some true ->
   exists message,
     Auth.auth verify (Some secret) (Some ("Bearer " +:+ token)) isActive =
       Denied 401 message).
Proof.
  intros Hs Ht Hu Hv Hc.
  assert (Auth.jwtVerify verify token (Some secret) = Some claims) as Hjv.
  { unfold Auth.jwtVerify. by rewrite (orElse_nonempty _ _ Hs). }
  split; [|split].
  - unfold Auth.handshake. rewrite (orElse_nonempty _ _ Ht), Hjv, Hc.
    by rewrite (orElse_nonempty _ _ Hu).
  - unfold Auth.auth. cbn [fmap option_fmap option_map].
    rewrite replace_prefix. change ("" +:+ token) with token.
    rewrite (orElse_nonempty _ _ Ht), (orElse_nonempty _ _ Hs), Hjv, Hc.
    destruct (isActive !! u) as [[|]|]; split; congruence.
  - intros Hna. unfold Auth.auth. cbn [fmap option_fmap option_map].
    rewrite replace_prefix. change ("" +:+ token) with token.
    rewrite (orElse_nonempty _ _ Ht), (orElse_nonempty _ _ Hs), Hjv, Hc.
    destruct (isActive !! u) as [[|]|]; [congruence|by eexists|by eexists].
Qed.

Lemma socket_lets_in_example :
  let verify := one_token "tok" "s3cret" (mkClaims (Some alice) None None None) in
  Auth.handshake verify (Some "s3cret") (Some "tok") =
    LetIn (Some alice) None /\
  exists message,
    Auth.auth verify (Some "s3cret") (Some "Bearer tok")
      (<[alice := false]> ∅) = Denied 401 message.
Proof.
  intros verify.
  destruct (socket_lets_in_whom_http_refuses verify "s3cret" "tok" alice
              (mkClaims (Some alice) None None None) (<[alice := false]> ∅))
    as (H1 & _ & H3); try discriminate; try reflexivity.
  split; [exact H1|]. apply H3.
  rewrite lookup_insert_eq. discriminate.
Defined.

(** X18. With no [JWT_SECRET] in the environment the socket middleware
    refuses every handshake, while the HTTP middleware goes on as user [u]
    exactly for the Bearer tokens that verify under the built-in secret
    "your_secret_key" and name an existing, active [u]. *)
Theorem unset_secret_splits_the_middlewares
    (verify : string -> string -> option Claims)
    (token u : string) (isActive : gmap string bool) :
  token <> "" ->
  (forall offered, exists error,
     Auth.handshake verify None offered = Refused error) /\
  (Auth.auth verify None (Some ("Bearer " +:+ token)) isActive = Next u <->
   exists claims,
     verify token "your_secret_key" = Some claims /\
     claim_userId claims = Some u /\ isActive !! u = Some true).
Proof.
  intros Ht. split.
  - intros offered. unfold Auth.handshake, Auth.jwtVerify. simpl.
    destruct (Auth.orElse offered None); by eexists.
  - unfold Auth.auth. cbn [fmap option_fmap option_map].
    rewrite replace_prefix. change ("" +:+ token) with token.
    rewrite (orElse_nonempty _ _ Ht). unfold Auth.jwtVerify. simpl.
    destruct (verify token "your_secret_key") as [claims|]; split.
    + destruct (claim_userId claims) as [x|] eqn:Hx; [|discriminate].
      destruct (isActive !! x) as [[|]|] eqn:Hax; try discriminate.
      intros [= ->]. by exists claims.
    + intros (c' & [= <-] & Hx & Hax). by rewrite Hx, Hax.
    + discriminate.
    + intros (c' & H & _). discriminate.
Qed.

Lemma unset_secret_example :
  let verify := one_token "tok" "your_secret_key"
                  (mkClaims (Some alice) None None None) in
  (forall offered, exists error,
     Auth.handshake verify None offered = Refused error) /\
  Auth.auth verify None (Some "Bearer tok") (<[alice := true]> ∅) = Next alice.
Proof.
  intros verify.
  destruct (unset_secret_splits_the_middlewares verify "tok" alice
              (<[alice := true]> ∅)) as [H1 H2]; [discriminate|].
  split; [exact H1|]. apply H2.
  exists (mkClaims (Some alice) None None None).
  split; [reflexivity|]. split; [reflexivity|]. apply lookup_insert_eq.
Defined.

(** X19. The HTTP middleware strips the first "Bearer " it finds and does
    not ask for it: a header that is the bare token is treated as the
    header with the prefix, and a header that is missing, empty or just
    the prefix is answered 401 without the token being verified. *)
Theorem bearer_prefix_is_optional
    (verify : string -> string -> option Claims) (JWT_SECRET : option string)
    (token : string) (isActive : gmap string bool) :
  Str.occurs "Bearer " token = false ->
  Auth.auth verify JWT_SECRET (Some token) isActive =
    Auth.auth verify JWT_SECRET (Some ("Bearer " +:+ token)) isActive /\
  Auth.auth verify JWT_SECRET None isActive =
    Denied 401 "No authentication token, access denied" /\
  Auth.auth verify JWT_SECRET (Some "") isActive =
    Denied 401 "No authentication token, access denied" /\
  Auth.auth verify JWT_SECRET (Some "Bearer ") isActive =
    Denied 401 "No authentication token, access denied".
Proof.
  intros Hocc. split; [|by repeat split].
  unfold Auth.auth. cbn [fmap option_fmap option_map].
  rewrite replace_prefix, (replace_absent _ _ _ Hocc). reflexivity.
Qed.

Lemma bearer_prefix_example :
  let verify := one_token "tok" "s3cret" (mkClaims (Some alice) None None None) in
  Auth.auth verify (Some "s3cret") (Some "tok") (<[alice := true]> ∅) =
    Auth.auth verify (Some "s3cret") (Some "Bearer tok") (<[alice := true]> ∅).
Proof.
  intros verify.
  exact (proj1 (bearer_prefix_is_optional verify (Some "s3cret") "tok"
                  (<[alice := true]> ∅) eq_refl)).
Defined.

(* --------------------------------------------------------------------- *)
(** ** The public list of specialities *)
(* --------------------------------------------------------------------- *)

Lemma compare_le_trans (a b c : string) :
  String.compare a b <> Gt -> String.compare b c <> Gt ->
  String.compare a c <> Gt.
Proof.
  intros Hab Hbc.
  destruct (String.compare a b) eqn:E1; [| |congruence].
  - apply OrderedTypeEx.String_as_OT.cmp_eq in E1. by subst.
  - destruct (String.compare b c) eqn:E2; [| |congruence].
    + apply OrderedTypeEx.String_as_OT.cmp_eq in E2. subst. by rewrite E1.
    + apply OrderedTypeEx.String_as_OT.cmp_lt in E1, E2.
      pose proof (OrderedTypeEx.String_as_OT.lt_trans _ _ _ E1 E2) as H.
      apply OrderedTypeEx.String_as_OT.cmp_lt in H.
      unfold OrderedTypeEx.String_as_OT.cmp in H. by rewrite H.
Qed.

Lemma defaultCompare_le (a b : string) :
  JS.defaultCompare a b <= 0 <-> String.compare a b <> Gt.
Proof.
  unfold JS.defaultCompare. destruct (String.compare a b); split;
    intros; try lia; congruence.
Qed.

(** X20. GET /api/public/specialities lists the active specialities and
    only them, each as often as it is stored, in ascending order of name,
    and its [count] is the length of the list and the [totalActive] of
    GET /api/public/specialities/stats. *)
Theorem specialities_are_the_active_ones_by_name
    (collection : list Speciality) :
  let count := (Public.specialities collection).1 in
  let listed := (Public.specialities collection).2 in
  count = length listed /\
  count = Public.stats collection /\
  Permutation listed (List.filter sp_isActive collection) /\
  (forall s, In s listed <-> In s collection /\ sp_isActive s = true) /\
  StronglySorted (fun a b => String.compare (sp_name a) (sp_name b) <> Gt)
                 listed.
Proof.
  intros count listed. unfold count, listed, Public.specialities. simpl.
  split; [reflexivity|]. split.
  { unfold Public.stats. apply Permutation_length, sort_Permutation. }
  split; [apply sort_Permutation|]. split.
  { intros s. rewrite sort_In. apply filter_In. }
  eapply StronglySorted_mono; [|apply sort_sorted].
  - intros a b. unfold Public.byName. apply defaultCompare_le.
  - intros a b. unfold Public.byName. rewrite !defaultCompare_le.
    rewrite (String.compare_antisym (sp_name b) (sp_name a)).
    destruct (String.compare (sp_name a) (sp_name b)); simpl;
      [left|left|right]; congruence.
  - intros a b c. unfold Public.byName. rewrite !defaultCompare_le.
    apply compare_le_trans.
Qed.

(* --------------------------------------------------------------------- *)
(** ** A message to a user that does not exist *)
(* --------------------------------------------------------------------- *)

Lemma sendMessage_unknown_recipient (E : env) (socketId userId : string)
    (p : Live.SendPayload) (d : DB) :
  Schema.validateContent (Live.p_content p) = None ->
  fault E = None ->
  users d !! Live.p_recipient p = None ->
  let m := Model.build E (Live.messageInput E userId p) in
  (run (Live.sendMessage E socketId userId p) d).2 =
    mkWorld (mkDB (messages d ++ [m]) (users d))
            [Stored m; messageError socketId Live.nullId].
Proof.
  intros Hv Hf Hr m.
  assert (rejection E (Live.messageInput E userId p) = None) as R.
  { unfold rejection. simpl. by rewrite Hv. }
  pose proof (sendMessage_outcome E socketId userId p d) as H.
  destruct H as [e R' | m' R' -> Hu | m' data' R' -> Hs' Hr' ->].
  - congruence.
  - reflexivity.
  - rewrite Hr in Hr'. by destruct Hr'.
Qed.

(** X21. Let [a] and [b] be ObjectIds in the spelling the store gives
    them, and let no user be stored under [b], however spelled. On the live
    channel a message from [a] to [b] is written to the store all the same,
    and then reported to the sender as failed: the only event is a
    [messageError] on the sender's socket. Sending it again writes a second
    copy. The sender's list of conversations then has a partner for that id
    whose user is [null]. *)
Theorem unknown_recipient_is_stored_but_reported_failed (E E2 : env)
    (socketId a b text : string) (timestamp : option Z) (d : DB) :
  Schema.validateContent text = None ->
  fault E = None -> fault E2 = None ->
  ObjectId.cast a = Some a -> ObjectId.cast b = Some b ->
  (forall k, ObjectId.cast k = Some b -> users d !! k = None) -> a <> b ->
  let p := Live.mkSend b text timestamp in
  let m1 := Model.build E (Live.messageInput E a p) in
  let m2 := Model.build E2 (Live.messageInput E2 a p) in
  let w1 := (run (Live.sendMessage E socketId a p) d).2 in
  let w2 := (run (Live.sendMessage E2 socketId a p) (db w1)).2 in
  trace w1 = [Stored m1; messageError socketId Live.nullId] /\
  messages (db w1) = messages d ++ [m1] /\
  messages (db w2) = messages d ++ [m1; m2] /\
  content m1 = text /\ content m2 = text /\
  recipient m1 = b /\ recipient m2 = b /\
  In b (Chat.conversationPartners a (db w1)) /\
  partner (Chat.conversationWith a (db w1) b) = None.
Proof.
  intros Hv Hf Hf2 _ Hcb Hall Hne p m1 m2 w1 w2.
  pose proof (Hall b Hcb) as Hb.
  assert (w1 = mkWorld (mkDB (messages d ++ [m1]) (users d))
                 [Stored m1; messageError socketId Live.nullId]) as Hw1.
  { by apply sendMessage_unknown_recipient. }
  assert (w2 = mkWorld (mkDB ((messages d ++ [m1]) ++ [m2]) (users d))
                 [Stored m2; messageError socketId Live.nullId]) as Hw2.
  { unfold w2. rewrite Hw1.
    by apply (sendMessage_unknown_recipient E2 socketId a p
                (mkDB (messages d ++ [m1]) (users d))). }
  rewrite Hw1, Hw2. simpl.
  repeat split; try reflexivity.
  - by rewrite <- app_assoc.
  - apply conversationPartners_spec. split; [congruence|].
    exists m1. split; [simpl; apply in_or_app; right; by left|].
    left. by split.
  - exact Hb.
Qed.

Lemma unknown_recipient_example :
  let p := Live.mkSend carol "hello" None in
  let w1 := (run (Live.sendMessage clock "sock1" alice p) friends).2 in
  ObjectId.cast alice = Some alice /\ ObjectId.cast carol = Some carol /\
  (forall k, ObjectId.cast k = Some carol -> users friends !! k = None) /\
  trace w1 =
    [Stored (Model.build clock (Live.messageInput clock alice p));
     messageError "sock1" Live.nullId] /\
  partner (Chat.conversationWith alice (db w1) carol) = None.
Proof.
  intros p w1.
  assert (forall k, ObjectId.cast k = Some carol -> users friends !! k = None)
    as Hall.
  { intros k Hk. unfold friends. cbn [users].
    rewrite lookup_insert_ne; [rewrite lookup_insert_ne; [apply lookup_empty|]|];
      intros <-; vm_compute in Hk; discriminate Hk. }
  split; [reflexivity|]. split; [reflexivity|]. split; [exact Hall|].
  destruct (unknown_recipient_is_stored_but_reported_failed clock later
              "sock1" alice carol "hello" None friends
              eq_refl eq_refl eq_refl eq_refl eq_refl Hall)
    as (H1 & _ & _ & _ & _ & _ & _ & _ & H9); [discriminate|].
  split; [exact H1|exact H9].
Defined.
